(** * The encrypted MTProto session layer: [mtproto/mtp/encrypted.py]

    A shallow embedding of the [Encrypted] class and the properties of its
    message-id generator, sequence counter, outbound buffer and inbound
    dispatcher.

    Python integers are unbounded and are modelled by [Z]; [bytes] and
    [bytearray] values are lists of [Byte.byte]; the object's attributes are
    the fields of the record [Encrypted]; methods are computations in a
    state-and-exception monad in which a raised exception keeps the
    mutations made before it, as in Python. *)

From Stdlib Require Import String ZArith Bool Lia List Sorted Permutation.
From Stdlib.Strings Require Import Byte.
Import ListNotations.
Local Open Scope Z_scope.

(** ** Bytes and [struct] *)

Definition bytes := list byte.

Definition len {A : Type} (l : list A) : Z := Z.of_nat (length l).

Definition byte_of_Z (v : Z) : byte :=
  match Byte.of_N (Z.to_N (v mod 256)) with
  | Some b => b
  | None => x00
  end.

Definition Z_of_byte (b : byte) : Z := Z.of_N (Byte.to_N b).

(** The [w] low-order bytes of [v], least significant first (two's
    complement for a negative [v]). *)
Fixpoint le_bytes (w : nat) (v : Z) : bytes :=
  match w with
  | O => []
  | S k => byte_of_Z v :: le_bytes k (v / 256)
  end.

Fixpoint le_uint (bs : bytes) : Z :=
  match bs with
  | [] => 0
  | b :: r => Z_of_byte b + 256 * le_uint r
  end.

Definition le_sint (bs : bytes) : Z :=
  let u := le_uint bs in
  if u <? 2 ^ (8 * len bs - 1) then u else u - 2 ^ (8 * len bs).

Definition zeros (n : Z) : bytes := repeat x00 (Z.to_nat n).

(** Exceptions.  [Foreign] stands for whatever an imported function that is
    not part of this module raises. *)
Inductive exn : Type :=
| AssertionError
| RuntimeError (msg : string)
| StructError
| TypeError
| RecursionError
| Foreign.

Inductive outcome (A : Type) : Type :=
| Return (a : A)
| Raise (e : exn).
Arguments Return {A} a.
Arguments Raise {A} e.

(** [struct.pack] of one field: a value out of the format's range raises
    [struct.error]. *)
Definition pack_signed (w : nat) (v : Z) : outcome bytes :=
  if (- 2 ^ (8 * Z.of_nat w - 1) <=? v) && (v <? 2 ^ (8 * Z.of_nat w - 1))
  then Return (le_bytes w v) else Raise StructError.

Definition pack_unsigned (w : nat) (v : Z) : outcome bytes :=
  if (0 <=? v) && (v <? 2 ^ (8 * Z.of_nat w))
  then Return (le_bytes w v) else Raise StructError.

Definition pack_q := pack_signed 8.
Definition pack_i := pack_signed 4.
Definition pack_I := pack_unsigned 4.

Definition opack_app (a b : outcome bytes) : outcome bytes :=
  match a with
  | Raise e => Raise e
  | Return x => match b with
                | Raise e => Raise e
                | Return y => Return (x ++ y)
                end
  end.

(** [sys.byteorder]: the format ["I"] without a prefix is in native order. *)
Inductive byteorder : Type := little | big.

(** [struct.unpack_from(fmt, buf)[0]] for a 4-byte unsigned field. *)
Definition unpack_from_I (order : byteorder) (buf : bytes) : outcome Z :=
  if len buf <? 4 then Raise StructError
  else match order with
       | little => Return (le_uint (firstn 4 buf))
       | big => Return (le_uint (rev (firstn 4 buf)))
       end.

(** [struct.unpack_from("<qq", buf)]. *)
Definition unpack_from_qq (buf : bytes) : outcome (Z * Z) :=
  if len buf <? 16 then Raise StructError
  else Return (le_sint (firstn 8 buf), le_sint (firstn 8 (skipn 8 buf))).

(** ** The TL values the module handles *)

Definition MsgId := Z.

Record FutureSalt : Type := mkFutureSalt {
  valid_since : Z;
  valid_until : Z;
  salt : Z
}.

(** A Python object as the body of a [Message]: the dispatcher reads it as
    a buffer, [_handle_rpc_result] asserts that it is an [RpcResult]. *)
Inductive pyobj : Type :=
| PyBytes (b : bytes)
| PyRpcResult (req_msg_id : Z) (result : bytes).

Record Message : Type := mkMessage {
  msg_id : Z;
  seqno : Z;
  bytes_ : Z;
  body : pyobj
}.

Inductive BadMsg : Type :=
| BadMsgNotification (bad_msg_id bad_msg_seqno error_code : Z)
| BadServerSalt (bad_msg_id bad_msg_seqno error_code new_server_salt : Z).

Inductive DetailedInfo : Type :=
| MsgDetailedInfo (dmsg_id answer_msg_id dbytes status : Z)
| MsgNewDetailedInfo (answer_msg_id dbytes status : Z).

Record FutureSalts : Type := mkFutureSalts {
  fs_req_msg_id : Z;
  fs_now : Z;
  fs_salts : list FutureSalt
}.

Record Pong : Type := mkPong { pong_msg_id : Z; ping_id : Z }.

Record NewSessionCreated : Type := mkNewSessionCreated {
  first_msg_id : Z;
  unique_id : Z;
  server_salt : Z
}.

Record RpcError : Type := mkRpcError { rpc_code : Z; rpc_name : string }.

(** The names of the TL constructors whose ids the module reads. *)
Inductive TLName : Type :=
| RpcResult_ | MsgsAck_ | BadMsgNotification_ | BadServerSalt_
| MsgsStateReq_ | MsgsStateInfo_ | MsgsAllInfo_ | MsgDetailedInfo_
| MsgNewDetailedInfo_ | MsgResendReq_ | FutureSalt_ | FutureSalts_
| Pong_ | DestroySessionOk_ | DestroySessionNone_ | NewSessionCreated_
| GzipPacked_ | HttpWait_ | MsgContainer_
| GeneratedRpcError_ | RpcAnswerUnknown_ | RpcAnswerDroppedRunning_
| RpcAnswerDropped_
| Updates_ | UpdatesCombined_ | UpdateShort_ | UpdateShortChatMessage_
| UpdateShortMessage_ | UpdateShortSentMessage_ | UpdatesTooLong_
| DestroySessionRes_.

(** An entry of [_rpc_results]: the reply body, [ValueError("bad msg: <code>")]
    or an [RpcError]. *)
Inductive RpcReply : Type :=
| ReplyBody (b : bytes)
| BadMsgError (error_code : Z)
| ReplyRpcError (e : RpcError).

Record Deserialization : Type := mkDeserialization {
  rpc_results : list (MsgId * RpcReply);
  updates : list bytes
}.

(** ** What the module imports

    [crypto], [tl] and [utils] are not part of this file of the source, and
    neither are the clock and the host: they are the members of this
    class.  A parser or codec that raises returns [None]. *)
Class Imports : Type := {
  (* ..utils *)
  CONTAINER_MAX_LENGTH : Z;
  CONTAINER_MAX_SIZE : Z;
  MESSAGE_SIZE_OVERHEAD : Z;
  check_message_buffer : bytes -> bool;
  gzip_compress : bytes -> bytes;
  gzip_decompress : bytes -> option bytes;
  message_requires_ack : Message -> bool;
  (* ...crypto *)
  encrypt_data_v2 : bytes -> bytes -> bytes;
  decrypt_data_v2 : bytes -> bytes -> option bytes;
  (* ...tl: [X.constructor_id()]; whether [X.from_bytes(b)] returns, for
     the types whose parsed value the module drops; the parsed value for
     the others ([GzipPacked_from_bytes] gives the packed data, which
     [gzip_decompress] inflates; [RpcError_from_bytes] is
     [RpcError.from_mtproto_error(GeneratedRpcError.from_bytes(b))]) *)
  constructor_id : TLName -> Z;
  from_bytes_ok : TLName -> bytes -> bool;
  AbcBadMsgNotification_from_bytes : bytes -> option BadMsg;
  AbcMsgDetailedInfo_from_bytes : bytes -> option DetailedInfo;
  FutureSalts_from_bytes : bytes -> option FutureSalts;
  Pong_from_bytes : bytes -> option Pong;
  NewSessionCreated_from_bytes : bytes -> option NewSessionCreated;
  GzipPacked_from_bytes : bytes -> option bytes;
  MsgContainer_from_bytes : bytes -> option (list Message);
  Message_from_bytes : bytes -> option Message;
  RpcError_from_bytes : bytes -> option RpcError;
  (* [bytes(MsgsAck(msg_ids=...))], [bytes(GzipPacked(packed_data=...))] and
     the serialized request [get_future_salts(num=...)], which [push] takes
     as its [request: bytes] *)
  MsgsAck_to_bytes : list Z -> bytes;
  GzipPacked_to_bytes : bytes -> bytes;
  get_future_salts : Z -> bytes;
  (* time.time(): the type of its readings, the reading of the n-th call,
     [int(now)] and [int((now + offset) * 0x100000000)] in float arithmetic *)
  float : Type;
  time_time : nat -> float;
  int_of_float : float -> Z;
  scaled_time : float -> Z -> Z;
  (* the host *)
  sys_byteorder : byteorder;
  recursion_limit : nat
}.

(** ** Module constants *)

Definition NUM_FUTURE_SALTS : Z := 64.
Definition SALT_USE_DELAY : Z := 60.
Definition HEADER_LEN : Z := 8 + 8.
Definition CONTAINER_HEADER_LEN : Z := (8 + 4 + 4) + (4 + 4).

Definition UPDATE_NAMES : list TLName :=
  [Updates_; UpdatesCombined_; UpdateShort_; UpdateShortChatMessage_;
   UpdateShortMessage_; UpdateShortSentMessage_; UpdatesTooLong_].

(** ** The session object *)

Record Encrypted : Type := mkEncrypted {
  _auth_key : bytes;
  _time_offset : Z;
  _salts : list FutureSalt;
  _start_salt_time : option (Z * Z);
  _client_id : Z;
  _sequence : Z;
  _last_msg_id : Z;
  _pending_ack : list Z;
  _compression_threshold : option Z;
  _rpc_results : list (MsgId * RpcReply);
  _updates : list bytes;
  _buffer : bytes;
  _msg_count : Z;
  (* number of readings of the clock made so far *)
  clock_reads : nat
}.

Definition set_time_offset (v : Z) (s : Encrypted) : Encrypted :=
  mkEncrypted (_auth_key s) v (_salts s) (_start_salt_time s) (_client_id s)
    (_sequence s) (_last_msg_id s) (_pending_ack s) (_compression_threshold s)
    (_rpc_results s) (_updates s) (_buffer s) (_msg_count s) (clock_reads s).

Definition set_salts (v : list FutureSalt) (s : Encrypted) : Encrypted :=
  mkEncrypted (_auth_key s) (_time_offset s) v (_start_salt_time s) (_client_id s)
    (_sequence s) (_last_msg_id s) (_pending_ack s) (_compression_threshold s)
    (_rpc_results s) (_updates s) (_buffer s) (_msg_count s) (clock_reads s).

Definition set_start_salt_time (v : option (Z * Z)) (s : Encrypted) : Encrypted :=
  mkEncrypted (_auth_key s) (_time_offset s) (_salts s) v (_client_id s)
    (_sequence s) (_last_msg_id s) (_pending_ack s) (_compression_threshold s)
    (_rpc_results s) (_updates s) (_buffer s) (_msg_count s) (clock_reads s).

Definition set_sequence (v : Z) (s : Encrypted) : Encrypted :=
  mkEncrypted (_auth_key s) (_time_offset s) (_salts s) (_start_salt_time s)
    (_client_id s) v (_last_msg_id s) (_pending_ack s) (_compression_threshold s)
    (_rpc_results s) (_updates s) (_buffer s) (_msg_count s) (clock_reads s).

Definition set_last_msg_id (v : Z) (s : Encrypted) : Encrypted :=
  mkEncrypted (_auth_key s) (_time_offset s) (_salts s) (_start_salt_time s)
    (_client_id s) (_sequence s) v (_pending_ack s) (_compression_threshold s)
    (_rpc_results s) (_updates s) (_buffer s) (_msg_count s) (clock_reads s).

Definition set_pending_ack (v : list Z) (s : Encrypted) : Encrypted :=
  mkEncrypted (_auth_key s) (_time_offset s) (_salts s) (_start_salt_time s)
    (_client_id s) (_sequence s) (_last_msg_id s) v (_compression_threshold s)
    (_rpc_results s) (_updates s) (_buffer s) (_msg_count s) (clock_reads s).

Definition set_rpc_results (v : list (MsgId * RpcReply)) (s : Encrypted) : Encrypted :=
  mkEncrypted (_auth_key s) (_time_offset s) (_salts s) (_start_salt_time s)
    (_client_id s) (_sequence s) (_last_msg_id s) (_pending_ack s)
    (_compression_threshold s) v (_updates s) (_buffer s) (_msg_count s)
    (clock_reads s).

Definition set_updates (v : list bytes) (s : Encrypted) : Encrypted :=
  mkEncrypted (_auth_key s) (_time_offset s) (_salts s) (_start_salt_time s)
    (_client_id s) (_sequence s) (_last_msg_id s) (_pending_ack s)
    (_compression_threshold s) (_rpc_results s) v (_buffer s) (_msg_count s)
    (clock_reads s).

Definition set_buffer (v : bytes) (s : Encrypted) : Encrypted :=
  mkEncrypted (_auth_key s) (_time_offset s) (_salts s) (_start_salt_time s)
    (_client_id s) (_sequence s) (_last_msg_id s) (_pending_ack s)
    (_compression_threshold s) (_rpc_results s) (_updates s) v (_msg_count s)
    (clock_reads s).

Definition set_msg_count (v : Z) (s : Encrypted) : Encrypted :=
  mkEncrypted (_auth_key s) (_time_offset s) (_salts s) (_start_salt_time s)
    (_client_id s) (_sequence s) (_last_msg_id s) (_pending_ack s)
    (_compression_threshold s) (_rpc_results s) (_updates s) (_buffer s) v
    (clock_reads s).

Definition set_clock_reads (v : nat) (s : Encrypted) : Encrypted :=
  mkEncrypted (_auth_key s) (_time_offset s) (_salts s) (_start_salt_time s)
    (_client_id s) (_sequence s) (_last_msg_id s) (_pending_ack s)
    (_compression_threshold s) (_rpc_results s) (_updates s) (_buffer s)
    (_msg_count s) v.

(** ** The monad of methods *)

Definition M (A : Type) : Type := Encrypted -> outcome A * Encrypted.

Definition ret {A : Type} (a : A) : M A := fun s => (Return a, s).

Definition raise {A : Type} (e : exn) : M A := fun s => (Raise e, s).

Definition bind {A B : Type} (m : M A) (k : A -> M B) : M B :=
  fun s => match m s with
           | (Return a, s') => k a s'
           | (Raise e, s') => (Raise e, s')
           end.

Definition get : M Encrypted := fun s => (Return s, s).

Definition modify (f : Encrypted -> Encrypted) : M unit :=
  fun s => (Return tt, f s).

Definition lift {A : Type} (o : outcome A) : M A := fun s => (o, s).

(** The value of an imported function that may raise. *)
Definition call {A : Type} (o : option A) : M A :=
  match o with
  | Some a => ret a
  | None => raise Foreign
  end.

Definition assert (b : bool) : M unit :=
  if b then ret tt else raise AssertionError.

Declare Scope py_scope.
Delimit Scope py_scope with py.
Notation "x <- m ;; k" := (bind m (fun x => k))
  (at level 61, m at next level, right associativity) : py_scope.
Notation "m ;; k" := (bind m (fun _ => k))
  (at level 61, right associativity) : py_scope.
Local Open Scope py_scope.

(** [for x in xs: f(x)] *)
Fixpoint for_each {A : Type} (f : A -> M unit) (xs : list A) : M unit :=
  match xs with
  | [] => ret tt
  | x :: r => f x ;; for_each f r
  end.

(** A stable sort by an integer key, as [list.sort(key=...)]. *)
Fixpoint insert_by {A : Type} (key : A -> Z) (x : A) (l : list A) : list A :=
  match l with
  | [] => [x]
  | y :: r => if key x <? key y then x :: y :: r else y :: insert_by key x r
  end.

Definition sort_by {A : Type} (key : A -> Z) (l : list A) : list A :=
  fold_left (fun acc x => insert_by key x acc) l [].

(** A dict built from a literal: a later entry with an equal key replaces
    an earlier one. *)
Fixpoint dict_get {V : Type} (k : Z) (items : list (Z * V)) : option V :=
  match items with
  | [] => None
  | (k', v) :: r =>
      match dict_get k r with
      | Some v' => Some v'
      | None => if k =? k' then Some v else None
      end
  end.

(** The bound methods stored in [self._handlers]. *)
Inductive Handler : Type :=
| H_rpc_result | H_ack | H_bad_notification | H_state_req | H_state_info
| H_msg_all | H_detailed_info | H_msg_resend | H_future_salt
| H_future_salts | H_pong | H_destroy_session | H_new_session_created
| H_gzip_packed | H_http_wait | H_update.

Section Methods.

Context {I : Imports}.

Definition UPDATE_IDS : list Z := map constructor_id UPDATE_NAMES.

Definition in_ids (c : Z) (ids : list Z) : bool := existsb (Z.eqb c) ids.

(** [__init__]; [client_id] is the value drawn from [os.urandom(8)]. *)
Definition init (auth_key : bytes) (time_offset first_salt : option Z)
    (compression_threshold : option Z) (client_id : Z) : Encrypted :=
  {| _auth_key := auth_key;
     _time_offset := match time_offset with Some t => t | None => 0 end;
     _salts := [mkFutureSalt 0 0x7FFFFFFF
                  (match first_salt with Some v => v | None => 0 end)];
     _start_salt_time := None;
     _client_id := client_id;
     _sequence := 0;
     _last_msg_id := 0;
     _pending_ack := [];
     _compression_threshold := compression_threshold;
     _rpc_results := [];
     _updates := [];
     _buffer := [];
     _msg_count := 0;
     clock_reads := 0 |}.

Definition _handlers : list (Z * Handler) :=
  [ (constructor_id RpcResult_, H_rpc_result);
    (constructor_id MsgsAck_, H_ack);
    (constructor_id BadMsgNotification_, H_bad_notification);
    (constructor_id BadServerSalt_, H_bad_notification);
    (constructor_id MsgsStateReq_, H_state_req);
    (constructor_id MsgsStateInfo_, H_state_info);
    (constructor_id MsgsAllInfo_, H_msg_all);
    (constructor_id MsgDetailedInfo_, H_detailed_info);
    (constructor_id MsgNewDetailedInfo_, H_detailed_info);
    (constructor_id MsgResendReq_, H_msg_resend);
    (constructor_id FutureSalt_, H_future_salt);
    (constructor_id FutureSalts_, H_future_salts);
    (constructor_id Pong_, H_pong);
    (constructor_id DestroySessionOk_, H_destroy_session);
    (constructor_id DestroySessionNone_, H_destroy_session);
    (constructor_id NewSessionCreated_, H_new_session_created);
    (constructor_id GzipPacked_, H_gzip_packed);
    (constructor_id HttpWait_, H_http_wait) ].

(** [time.time()] *)
Definition now_ : M float :=
  fun s => (Return (time_time (clock_reads s)),
            set_clock_reads (S (clock_reads s)) s).

Definition _correct_time_offset (msg_id : Z) : M unit :=
  now <- now_ ;;
  let correct := Z.shiftr msg_id 32 in
  modify (set_time_offset (correct - int_of_float now)).

Definition _get_new_msg_id : M Z :=
  now <- now_ ;;
  s <- get ;;
  let new_msg_id := scaled_time now (_time_offset s) in
  let new_msg_id :=
    if _last_msg_id s >=? new_msg_id then _last_msg_id s + 4 else new_msg_id in
  modify (set_last_msg_id new_msg_id) ;;
  ret new_msg_id.

Definition _get_seq_no (content_related : bool) : M Z :=
  if content_related then
    modify (fun s => set_sequence (_sequence s + 2) s) ;;
    s <- get ;;
    ret (_sequence s - 1)
  else
    s <- get ;;
    ret (_sequence s).

(** [struct.pack("<qii", msg_id, seq_no, length)] *)
Definition pack_qii (a b c : Z) : outcome bytes :=
  opack_app (pack_q a) (opack_app (pack_i b) (pack_i c)).

Definition _serialize_msg (body : bytes) (content_related : bool) : M MsgId :=
  msg_id <- _get_new_msg_id ;;
  seq_no <- _get_seq_no content_related ;;
  head <- lift (pack_qii msg_id seq_no (len body)) ;;
  modify (fun s => set_buffer (_buffer s ++ head) s) ;;
  modify (fun s => set_buffer (_buffer s ++ body) s) ;;
  modify (fun s => set_msg_count (_msg_count s + 1) s) ;;
  ret msg_id.

(** [struct.pack("<qq", salt, client_id)] *)
Definition pack_qq (a b : Z) : outcome bytes :=
  opack_app (pack_q a) (pack_q b).

(** [struct.pack("<qiiIi", msg_id, seq_no, size, constructor, count)] *)
Definition pack_qiiIi (a b c d e : Z) : outcome bytes :=
  opack_app (pack_q a)
    (opack_app (pack_i b) (opack_app (pack_i c) (opack_app (pack_I d) (pack_i e)))).

(** [del buf[:n]] *)
Definition del_prefix (n : Z) (buf : bytes) : bytes := skipn (Z.to_nat n) buf.

(** [buf[a:b] = new] for [0 <= a <= b] *)
Definition slice_assign (a b : Z) (new buf : bytes) : bytes :=
  firstn (Z.to_nat a) buf ++ new ++ skipn (Z.to_nat b) buf.

(** [self._salts[-1].salt if self._salts else 0] *)
Definition current_salt (s : Encrypted) : Z :=
  match _salts s with
  | [] => 0
  | x :: r => salt (last r x)
  end.

Definition _finalize_plain : M bytes :=
  s <- get ;;
  if _msg_count s =? 0 then ret []
  else
    (if _msg_count s =? 1
     then modify (fun s => set_buffer (del_prefix CONTAINER_HEADER_LEN (_buffer s)) s)
     else ret tt) ;;
    s <- get ;;
    head <- lift (pack_qq (current_salt s) (_client_id s)) ;;
    modify (fun s => set_buffer (slice_assign 0 HEADER_LEN head (_buffer s)) s) ;;
    s <- get ;;
    (if negb (_msg_count s =? 1)
     then
       container_msg_id <- _get_new_msg_id ;;
       container_seq_no <- _get_seq_no false ;;
       s <- get ;;
       chead <- lift (pack_qiiIi container_msg_id container_seq_no
                        (len (_buffer s) - HEADER_LEN - CONTAINER_HEADER_LEN + 8)
                        (constructor_id MsgContainer_) (_msg_count s)) ;;
       modify (fun s => set_buffer
                 (slice_assign HEADER_LEN (HEADER_LEN + CONTAINER_HEADER_LEN)
                    chead (_buffer s)) s)
     else ret tt) ;;
    modify (set_msg_count 0) ;;
    s <- get ;;
    let result := _buffer s in
    modify (set_buffer []) ;;
    ret result.

Definition is_empty {A : Type} (l : list A) : bool :=
  match l with [] => true | _ => false end.

(** [self._salts[-2]], read when [len(self._salts) >= 2] *)
Definition second_last (l : list FutureSalt) : FutureSalt :=
  nth (length l - 2) l (mkFutureSalt 0 0 0).

(** [push], lines 357-367: the salt rotation. *)
Definition rotate_salts : M unit :=
  s <- get ;;
  match _start_salt_time s with
  | Some (start_secs, start_instant) =>
      if 2 <=? len (_salts s) then
        let salt := second_last (_salts s) in
        t <- now_ ;;
        let now := start_secs + (start_instant - int_of_float t) in
        if now >=? valid_since salt + SALT_USE_DELAY then
          modify (fun s => set_salts (removelast (_salts s)) s) ;;
          s <- get ;;
          if len (_salts s) =? 1 then
            _serialize_msg (get_future_salts NUM_FUTURE_SALTS) true ;; ret tt
          else ret tt
        else ret tt
      else ret tt
  | None => ret tt
  end.

(** [push], lines 349-351: reserve space for [finalize]. *)
Definition reserve_header : M unit :=
  s <- get ;;
  if is_empty (_buffer s)
  then modify (fun s => set_buffer
                 (_buffer s ++ zeros (HEADER_LEN + CONTAINER_HEADER_LEN)) s)
  else ret tt.

(** [push], lines 353-355: the pending acknowledgements go first. *)
Definition flush_acks : M unit :=
  s <- get ;;
  if negb (is_empty (_pending_ack s))
  then _serialize_msg (MsgsAck_to_bytes (_pending_ack s)) false ;;
       modify (set_pending_ack [])
  else ret tt.

(** The body that [push] serializes for [request] (lines 375-380). *)
Definition body_of_request (request : bytes) (s : Encrypted) : bytes :=
  match _compression_threshold s with
  | Some threshold =>
      if len request >=? threshold then
        let compressed := GzipPacked_to_bytes (gzip_compress request) in
        if len compressed <? len request then compressed else request
      else request
  | None => request
  end.

(** [push], lines 369-386: the capacity tests and the request itself. *)
Definition stage_request (request : bytes) : M (option MsgId) :=
  s <- get ;;
  if _msg_count s =? CONTAINER_MAX_LENGTH then ret None
  else
    assert (len request + MESSAGE_SIZE_OVERHEAD <=? CONTAINER_MAX_SIZE) ;;
    assert (len request mod 4 =? 0) ;;
    let body := body_of_request request s in
    let new_size := len (_buffer s) + len body + MESSAGE_SIZE_OVERHEAD in
    if new_size >=? CONTAINER_MAX_SIZE then ret None
    else
      msg_id <- _serialize_msg body true ;;
      ret (Some msg_id).

(** [push]: the result is [None] for "no capacity". *)
Definition push (request : bytes) : M (option MsgId) :=
  reserve_header ;;
  flush_acks ;;
  rotate_salts ;;
  stage_request request.

Definition finalize : M bytes :=
  buffer <- _finalize_plain ;;
  if is_empty buffer then ret buffer
  else
    s <- get ;;
    ret (encrypt_data_v2 buffer (_auth_key s)).

(** ** Inbound handlers *)

(** The buffer of a body that is read with [struct] or [from_bytes]. *)
Definition buffer_of (o : pyobj) : M bytes :=
  match o with
  | PyBytes b => ret b
  | PyRpcResult _ _ => raise TypeError
  end.

(** [X.from_bytes(message.body)] whose value is dropped. *)
Definition parse_only (name : TLName) (message : Message) : M unit :=
  b <- buffer_of (body message) ;;
  if from_bytes_ok name b then ret tt else raise Foreign.

Definition _store_own_updates (body : bytes) : M unit :=
  constructor_id <- lift (unpack_from_I sys_byteorder body) ;;
  if in_ids constructor_id UPDATE_IDS
  then modify (fun s => set_updates (_updates s ++ [body]) s)
  else ret tt.

Definition rpc_results_append (entry : MsgId * RpcReply) : M unit :=
  modify (fun s => set_rpc_results (_rpc_results s ++ [entry]) s).

Definition _handle_rpc_result (message : Message) : M unit :=
  match body message with
  | PyBytes _ => raise AssertionError
  | PyRpcResult req_msg_id result =>
      let msg_id := req_msg_id in
      inner_constructor <- lift (unpack_from_I little result) ;;
      if inner_constructor =? constructor_id GeneratedRpcError_ then
        e <- call (RpcError_from_bytes result) ;;
        rpc_results_append (msg_id, ReplyRpcError e)
      else if inner_constructor =? constructor_id RpcAnswerUnknown_ then ret tt
      else if inner_constructor =? constructor_id RpcAnswerDroppedRunning_ then ret tt
      else if inner_constructor =? constructor_id RpcAnswerDropped_ then ret tt
      else if inner_constructor =? constructor_id GzipPacked_ then
        packed <- call (GzipPacked_from_bytes result) ;;
        body <- call (gzip_decompress packed) ;;
        _store_own_updates body ;;
        rpc_results_append (msg_id, ReplyBody body)
      else
        _store_own_updates result ;;
        rpc_results_append (msg_id, ReplyBody result)
  end.

Definition _handle_ack : Message -> M unit := parse_only MsgsAck_.

Definition _handle_bad_notification (message : Message) : M unit :=
  b <- buffer_of (body message) ;;
  bad_msg <- call (AbcBadMsgNotification_from_bytes b) ;;
  match bad_msg with
  | BadServerSalt bad_msg_id _ error_code new_server_salt =>
      rpc_results_append (bad_msg_id, BadMsgError error_code) ;;
      modify (set_salts []) ;;
      modify (fun s => set_salts
                (_salts s ++ [mkFutureSalt 0 0x7FFFFFFF new_server_salt]) s) ;;
      push (get_future_salts NUM_FUTURE_SALTS) ;;
      ret tt
  | BadMsgNotification bad_msg_id _ error_code =>
      rpc_results_append (bad_msg_id, BadMsgError error_code) ;;
      if (error_code =? 16) || (error_code =? 17) then
        _correct_time_offset (msg_id message)
      else if error_code =? 32 then
        modify (fun s => set_sequence (_sequence s + 64) s)
      else if error_code =? 33 then
        modify (fun s => set_sequence (_sequence s - 16) s)
      else ret tt
  end.

Definition _handle_state_req : Message -> M unit := parse_only MsgsStateReq_.
Definition _handle_state_info : Message -> M unit := parse_only MsgsStateInfo_.
Definition _handle_msg_all : Message -> M unit := parse_only MsgsAllInfo_.

Definition _handle_detailed_info (message : Message) : M unit :=
  b <- buffer_of (body message) ;;
  msg_detailed <- call (AbcMsgDetailedInfo_from_bytes b) ;;
  match msg_detailed with
  | MsgDetailedInfo _ answer_msg_id _ _ =>
      modify (fun s => set_pending_ack (_pending_ack s ++ [answer_msg_id]) s)
  | MsgNewDetailedInfo answer_msg_id _ _ =>
      modify (fun s => set_pending_ack (_pending_ack s ++ [answer_msg_id]) s)
  end.

Definition _handle_msg_resend : Message -> M unit := parse_only MsgResendReq_.

Definition _handle_future_salts (message : Message) : M unit :=
  b <- buffer_of (body message) ;;
  salts <- call (FutureSalts_from_bytes b) ;;
  rpc_results_append (fs_req_msg_id salts, ReplyBody b) ;;
  t <- now_ ;;
  modify (set_start_salt_time (Some (fs_now salts, int_of_float t))) ;;
  modify (set_salts (fs_salts salts)) ;;
  modify (fun s => set_salts (sort_by (fun salt => - valid_since salt) (_salts s)) s).

Definition _handle_future_salt (message : Message) : M unit :=
  parse_only FutureSalt_ message ;;
  assert false.

Definition _handle_pong (message : Message) : M unit :=
  b <- buffer_of (body message) ;;
  pong <- call (Pong_from_bytes b) ;;
  rpc_results_append (pong_msg_id pong, ReplyBody b).

Definition _handle_destroy_session : Message -> M unit :=
  parse_only DestroySessionRes_.

Definition _handle_new_session_created (message : Message) : M unit :=
  b <- buffer_of (body message) ;;
  new_session <- call (NewSessionCreated_from_bytes b) ;;
  modify (set_salts []) ;;
  modify (fun s => set_salts
            (_salts s ++ [mkFutureSalt 0 0x7FFFFFFF (server_salt new_session)]) s).

(** [_handle_container] and [_handle_gzip_packed] call [_process_message]
    back: [process] is that call. *)
Definition _handle_container (process : Message -> M unit) (message : Message)
    : M unit :=
  b <- buffer_of (body message) ;;
  container <- call (MsgContainer_from_bytes b) ;;
  for_each process container.

Definition _handle_gzip_packed (process : Message -> M unit) (message : Message)
    : M unit :=
  b <- buffer_of (body message) ;;
  container <- call (GzipPacked_from_bytes b) ;;
  inner_body <- call (gzip_decompress container) ;;
  process (mkMessage (msg_id message) (seqno message) (len inner_body)
             (PyBytes inner_body)).

Definition _handle_http_wait : Message -> M unit := parse_only HttpWait_.

(** The dispatcher has read the body as a buffer before it calls a handler;
    the handlers take the buffer the same way. *)
Definition _handle_update (message : Message) : M unit :=
  b <- buffer_of (body message) ;;
  modify (fun s => set_updates (_updates s ++ [b]) s).

Definition run_handler (process : Message -> M unit) (h : Handler)
    : Message -> M unit :=
  match h with
  | H_rpc_result => _handle_rpc_result
  | H_ack => _handle_ack
  | H_bad_notification => _handle_bad_notification
  | H_state_req => _handle_state_req
  | H_state_info => _handle_state_info
  | H_msg_all => _handle_msg_all
  | H_detailed_info => _handle_detailed_info
  | H_msg_resend => _handle_msg_resend
  | H_future_salt => _handle_future_salt
  | H_future_salts => _handle_future_salts
  | H_pong => _handle_pong
  | H_destroy_session => _handle_destroy_session
  | H_new_session_created => _handle_new_session_created
  | H_gzip_packed => _handle_gzip_packed process
  | H_http_wait => _handle_http_wait
  | H_update => _handle_update
  end.

(** [self._handlers.get(constructor_id, self._handle_update)] *)
Definition handler_for (constructor_id : Z) : Handler :=
  match dict_get constructor_id _handlers with
  | Some h => h
  | None => H_update
  end.

(** [_process_message]; [depth] is the number of nested calls the
    interpreter still allows, past which Python raises [RecursionError]. *)
Fixpoint _process_message (depth : nat) (message : Message) : M unit :=
  match depth with
  | O => raise RecursionError
  | S depth' =>
      (if message_requires_ack message
       then modify (fun s => set_pending_ack (_pending_ack s ++ [msg_id message]) s)
       else ret tt) ;;
      b <- buffer_of (body message) ;;
      constructor_id <- lift (unpack_from_I little b) ;;
      run_handler (_process_message depth') (handler_for constructor_id) message
  end.

Definition deserialize (payload : bytes) : M Deserialization :=
  (if check_message_buffer payload then ret tt else raise Foreign) ;;
  s <- get ;;
  plaintext <- call (decrypt_data_v2 payload (_auth_key s)) ;;
  ids <- lift (unpack_from_qq plaintext) ;;
  let client_id := snd ids in
  (if negb (client_id =? _client_id s)
   then raise (RuntimeError "wrong session id")
   else ret tt) ;;
  message <- call (Message_from_bytes (skipn 16 plaintext)) ;;
  _process_message recursion_limit message ;;
  s <- get ;;
  let result := mkDeserialization (_rpc_results s) (_updates s) in
  modify (set_rpc_results []) ;;
  modify (set_updates []) ;;
  ret result.

End Methods.

(** ** Calls of the public interface *)

Inductive Call : Type :=
| CPush (request : bytes)
| CFinalize
| CDeserialize (payload : bytes).

Section Calls.

Context {I : Imports}.

(** The session after a call, whether it returned or raised. *)
Definition exec (c : Call) (s : Encrypted) : Encrypted :=
  match c with
  | CPush request => snd (push request s)
  | CFinalize => snd (finalize s)
  | CDeserialize payload => snd (deserialize payload s)
  end.

Definition exec_all (cs : list Call) (s : Encrypted) : Encrypted :=
  fold_left (fun s c => exec c s) cs s.

End Calls.

(** ** Relations between the session before and after a method *)

(** [steps R m]: every run of [m], returning or raising, relates the
    session before to the session after. *)
Definition steps {A : Type} (R : Encrypted -> Encrypted -> Prop) (m : M A) : Prop :=
  forall s, R s (snd (m s)).

Definition id_le (s s' : Encrypted) : Prop := _last_msg_id s <= _last_msg_id s'.

Definition seq_le (s s' : Encrypted) : Prop := _sequence s <= _sequence s'.

Definition seq_eq (s s' : Encrypted) : Prop := _sequence s' = _sequence s.

(** The counter after is not below the counter before, or exactly 16 below. *)
Definition seq_le_or_rewind (s s' : Encrypted) : Prop :=
  _sequence s <= _sequence s' \/ _sequence s' = _sequence s - 16.

Definition even_keep (s s' : Encrypted) : Prop :=
  Z.even (_sequence s) = true -> Z.even (_sequence s') = true.

(** Both queues only grow by appending. *)
Definition queues_grow (s s' : Encrypted) : Prop :=
  (exists r, _rpc_results s' = _rpc_results s ++ r) /\
  (exists u, _updates s' = _updates s ++ u).

(** Both queues are left as they are. *)
Definition queues_same (s s' : Encrypted) : Prop :=
  _rpc_results s' = _rpc_results s /\ _updates s' = _updates s.

(** [raises_only P m]: an exception that [m] raises satisfies [P]. *)
Definition raises_only {A : Type} (P : exn -> Prop) (m : M A) : Prop :=
  forall s e, fst (m s) = Raise e -> P e.

Definition not_runtime (e : exn) : Prop :=
  match e with
  | RuntimeError _ => False
  | _ => True
  end.

Definition struct_only {A : Type} (o : outcome A) : Prop :=
  forall e, o = Raise e -> e = StructError.

(** The session once [_process_message] has noted the message for
    acknowledgement (lines 184-185). *)
Definition ack_noted {I : Imports} (message : Message) (s : Encrypted) : Encrypted :=
  if message_requires_ack message
  then set_pending_ack (_pending_ack s ++ [msg_id message]) s
  else s.

(** The constructors that [_handle_rpc_result] tells apart before it takes
    the result for a plain body. *)
Definition RESULT_NAMES : list TLName :=
  [GeneratedRpcError_; RpcAnswerUnknown_; RpcAnswerDroppedRunning_;
   RpcAnswerDropped_].

(** ** The outbound buffer, message by message *)

(** One serialized message: [struct.pack("<qii", msg_id, seq_no, len(body))]
    followed by the body. *)
Definition frame (msg_id seq_no : Z) (body : bytes) : bytes :=
  le_bytes 8 msg_id ++ le_bytes 4 seq_no ++ le_bytes 4 (len body) ++ body.

Definition is_frame (f : bytes) : Prop :=
  exists msg_id seq_no body, f = frame msg_id seq_no body.

(** [staged s frames]: the buffer holds the reserved 40 bytes followed by
    [frames], and the staged count is their number; before a reservation
    the buffer is empty. *)
Definition staged (s : Encrypted) (frames : list bytes) : Prop :=
  _msg_count s = len frames /\
  Forall is_frame frames /\
  ((_buffer s = [] /\ frames = []) \/
   _buffer s = zeros (HEADER_LEN + CONTAINER_HEADER_LEN) ++ concat frames).

Definition in_q (v : Z) : Prop := - 2 ^ 63 <= v < 2 ^ 63.
Definition in_i (v : Z) : Prop := - 2 ^ 31 <= v < 2 ^ 31.
Definition in_I (v : Z) : Prop := 0 <= v < 2 ^ 32.

(** The id that the next call of [_get_new_msg_id] returns. *)
Definition next_id {I : Imports} (s : Encrypted) : Z :=
  let computed := scaled_time (time_time (clock_reads s)) (_time_offset s) in
  if _last_msg_id s >=? computed then _last_msg_id s + 4 else computed.

(** The values that [_finalize_plain] packs are in the range of their
    formats. *)
Definition finalize_fits {I : Imports} (s : Encrypted) : Prop :=
  in_q (current_salt s) /\
  in_q (_client_id s) /\
  (_msg_count s <> 1 ->
   in_q (next_id s) /\
   in_i (_sequence s) /\
   in_i (len (_buffer s) - HEADER_LEN - CONTAINER_HEADER_LEN + 8) /\
   in_I (constructor_id MsgContainer_) /\
   in_i (_msg_count s)).

(** [push] called on each request in turn. *)
Fixpoint push_all {I : Imports} (requests : list bytes) : M (list (option MsgId)) :=
  match requests with
  | [] => ret []
  | request :: rest =>
      r <- push request ;;
      rs <- push_all rest ;;
      ret (r :: rs)
  end.

(** The ids that the calls returned, in order, and their number. *)
Definition returned (results : list (option MsgId)) : list MsgId :=
  flat_map (fun r => match r with Some id => [id] | None => [] end) results.

Definition returned_ids (results : list (option MsgId)) : Z :=
  len (returned results).

(** [f] is a serialized message with id [id]. *)
Definition frame_of_id (id : MsgId) (f : bytes) : Prop :=
  exists seq_no body, f = frame id seq_no body.

(** The session once [push] has reserved the header space. *)
Definition reserved (s : Encrypted) : Encrypted :=
  if is_empty (_buffer s)
  then set_buffer (_buffer s ++ zeros (HEADER_LEN + CONTAINER_HEADER_LEN)) s
  else s.

(** The sequence number that [_get_seq_no] returns next. *)
Definition next_seq (content_related : bool) (s : Encrypted) : Z :=
  if content_related then _sequence s + 2 - 1 else _sequence s.

(** The session once [_serialize_msg] has drawn its id and its sequence
    number. *)
Definition after_ids {I : Imports} (content_related : bool) (s : Encrypted)
    : Encrypted :=
  let s1 := set_last_msg_id (next_id s) (set_clock_reads (S (clock_reads s)) s) in
  if content_related then set_sequence (_sequence s1 + 2) s1 else s1.

(** The session once [_serialize_msg] has returned. *)
Definition serialized {I : Imports} (body : bytes) (content_related : bool)
    (s : Encrypted) : Encrypted :=
  let s2 := after_ids content_related s in
  set_msg_count (_msg_count s2 + 1)
    (set_buffer (_buffer s2 ++ frame (next_id s) (next_seq content_related s) body)
       s2).

(** The buffer after is the buffer before followed by whole messages, as
    many as the staged count went up. *)
Definition appends (s s' : Encrypted) : Prop :=
  exists added,
    Forall is_frame added /\
    _buffer s' = _buffer s ++ concat added /\
    _msg_count s' = _msg_count s + len added.

(** No acknowledgement is pending and no salt time is recorded. *)
Definition quiet (s : Encrypted) : Prop :=
  _pending_ack s = [] /\ _start_salt_time s = None.

(** The salts and the pending acknowledgements are left as they are. *)
Definition salts_same (s s' : Encrypted) : Prop := _salts s' = _salts s.

Definition ack_same (s s' : Encrypted) : Prop := _pending_ack s' = _pending_ack s.

Definition threshold_same (s s' : Encrypted) : Prop :=
  _compression_threshold s' = _compression_threshold s.

(** The session once [_handle_bad_notification] has recorded a
    [bad_server_salt] and replaced the salts (lines 235-247). *)
Definition salt_replaced (bad_msg_id error_code new_server_salt : Z)
    (s : Encrypted) : Encrypted :=
  set_salts [mkFutureSalt 0 0x7FFFFFFF new_server_salt]
    (set_rpc_results (_rpc_results s ++ [(bad_msg_id, BadMsgError error_code)]) s).

(** The session once [rotate_salts] has read the clock and dropped the
    last salt (lines 361-363). *)
Definition popped (s : Encrypted) : Encrypted :=
  set_salts (removelast (_salts s)) (set_clock_reads (S (clock_reads s)) s).

(** ** A sample instance of the imports

    Used to run the methods on concrete inputs: the constructor ids of the
    published MTProto schema, the container limits of the library (100
    messages, 1044456 - 8 bytes, 16 bytes of [<qii] header per message), a
    clock that advances by one second at each reading, the identity as
    cipher and as compression, and the parsers of the messages the examples
    send (the other parsers reject). *)
Module Sample.

Definition ids (n : TLName) : Z :=
  match n with
  | RpcResult_ => 0xf35c6d01 | MsgsAck_ => 0x62d6b459
  | BadMsgNotification_ => 0xa7eff811 | BadServerSalt_ => 0xedab447b
  | MsgsStateReq_ => 0xda69fb52 | MsgsStateInfo_ => 0x04deb57d
  | MsgsAllInfo_ => 0x8cc0d131 | MsgDetailedInfo_ => 0x276d3ec6
  | MsgNewDetailedInfo_ => 0x809db6df | MsgResendReq_ => 0x7d861a08
  | FutureSalt_ => 0x0949d9dc | FutureSalts_ => 0xae500895
  | Pong_ => 0x347773c5 | DestroySessionOk_ => 0xe22045fc
  | DestroySessionNone_ => 0x62d350c9 | NewSessionCreated_ => 0x9ec20908
  | GzipPacked_ => 0x3072cfa1 | HttpWait_ => 0x9299359f
  | MsgContainer_ => 0x73f1f8dc
  | GeneratedRpcError_ => 0x2144ca19 | RpcAnswerUnknown_ => 0x5e2ad36e
  | RpcAnswerDroppedRunning_ => 0xcd78e586 | RpcAnswerDropped_ => 0xa43ad8b7
  | Updates_ => 0x74ae4240 | UpdatesCombined_ => 0x725b04c3
  | UpdateShort_ => 0x78d4dec1 | UpdateShortChatMessage_ => 0x4d6deea5
  | UpdateShortMessage_ => 0x313bc7f8 | UpdateShortSentMessage_ => 0x9015e101
  | UpdatesTooLong_ => 0xe317af7e
  | DestroySessionRes_ => 0
  end.

(** The field of [w] bytes at offset [off]. *)
Definition field (off w : nat) (b : bytes) : bytes := firstn w (skipn off b).

Definition parse_message (b : bytes) : option Message :=
  if len b <? 16 then None
  else
    let n := le_sint (field 12 4 b) in
    if (n <? 0) || (len b - 16 <? n) then None
    else Some (mkMessage (le_sint (field 0 8 b)) (le_sint (field 8 4 b)) n
                 (PyBytes (firstn (Z.to_nat n) (skipn 16 b)))).

Definition parse_bad_msg (b : bytes) : option BadMsg :=
  let c := le_uint (field 0 4 b) in
  if (c =? ids BadMsgNotification_) && (len b =? 20) then
    Some (BadMsgNotification (le_sint (field 4 8 b)) (le_sint (field 12 4 b))
            (le_sint (field 16 4 b)))
  else if (c =? ids BadServerSalt_) && (len b =? 28) then
    Some (BadServerSalt (le_sint (field 4 8 b)) (le_sint (field 12 4 b))
            (le_sint (field 16 4 b)) (le_sint (field 20 8 b)))
  else None.

Fixpoint parse_salts (n : nat) (b : bytes) : option (list FutureSalt) :=
  match n with
  | O => match b with [] => Some [] | _ => None end
  | S k =>
      if len b <? 16 then None
      else match parse_salts k (skipn 16 b) with
           | Some r => Some (mkFutureSalt (le_sint (field 0 4 b))
                               (le_sint (field 4 4 b)) (le_sint (field 8 8 b)) :: r)
           | None => None
           end
  end.

Definition parse_future_salts (b : bytes) : option FutureSalts :=
  if (len b <? 20) || negb (le_uint (field 0 4 b) =? ids FutureSalts_) then None
  else match parse_salts (Z.to_nat (le_sint (field 16 4 b))) (skipn 20 b) with
       | Some l => Some (mkFutureSalts (le_sint (field 4 8 b))
                           (le_sint (field 12 4 b)) l)
       | None => None
       end.

Definition msgs_ack_bytes (msg_ids : list Z) : bytes :=
  le_bytes 4 (ids MsgsAck_) ++ le_bytes 4 0x1cb5c415 ++ le_bytes 4 (len msg_ids)
  ++ concat (map (le_bytes 8) msg_ids).

#[export] Instance imports : Imports := {|
  CONTAINER_MAX_LENGTH := 100;
  CONTAINER_MAX_SIZE := 1044456 - 8;
  MESSAGE_SIZE_OVERHEAD := 8 + 4 + 4;
  check_message_buffer := fun b => (20 <=? len b) && (len b mod 4 =? 0);
  gzip_compress := fun b => b;
  gzip_decompress := fun b => Some b;
  message_requires_ack := fun m => seqno m mod 2 =? 1;
  encrypt_data_v2 := fun plaintext _ => plaintext;
  decrypt_data_v2 := fun ciphertext _ => Some ciphertext;
  constructor_id := ids;
  from_bytes_ok := fun _ _ => true;
  AbcBadMsgNotification_from_bytes := parse_bad_msg;
  AbcMsgDetailedInfo_from_bytes := fun _ => None;
  FutureSalts_from_bytes := parse_future_salts;
  Pong_from_bytes := fun _ => None;
  NewSessionCreated_from_bytes := fun _ => None;
  GzipPacked_from_bytes := fun b => Some (skipn 4 b);
  MsgContainer_from_bytes := fun _ => None;
  Message_from_bytes := parse_message;
  RpcError_from_bytes := fun _ => None;
  MsgsAck_to_bytes := msgs_ack_bytes;
  GzipPacked_to_bytes := fun b => le_bytes 4 (ids GzipPacked_) ++ b;
  get_future_salts := fun num => le_bytes 4 0xb921bd04 ++ le_bytes 4 num;
  float := Z;
  time_time := fun n => 1700000000 + Z.of_nat n;
  int_of_float := fun t => t;
  scaled_time := fun t offset => (t + offset) * 0x100000000;
  sys_byteorder := little;
  recursion_limit := 1000
|}.

(** A fresh session: no compression, salt and client id of the first
    end-to-end scenario. *)
Definition session : Encrypted :=
  init [] (Some 0) (Some 0xDEADBEEF) None 0x1122334455667788.

(** An inbound frame: header with the session's client id, then one message. *)
Definition inbound (msg_id seqno : Z) (body : bytes) : bytes :=
  le_bytes 8 0 ++ le_bytes 8 0x1122334455667788
  ++ le_bytes 8 msg_id ++ le_bytes 4 seqno ++ le_bytes 4 (len body) ++ body.

(** [bad_msg_notification] for message 4, error code [code]. *)
Definition bad_msg_body (code : Z) : bytes :=
  le_bytes 4 (ids BadMsgNotification_) ++ le_bytes 8 4 ++ le_bytes 4 1
  ++ le_bytes 4 code.

(** [bad_server_salt] for message 4 bearing [new_salt]. *)
Definition bad_salt_body (new_salt : Z) : bytes :=
  le_bytes 4 (ids BadServerSalt_) ++ le_bytes 8 4 ++ le_bytes 4 1
  ++ le_bytes 4 48 ++ le_bytes 8 new_salt.

(** [rpc_result] for request 4 carrying [result]. *)
Definition rpc_result_body (result : bytes) : bytes :=
  le_bytes 4 (ids RpcResult_) ++ le_bytes 8 4 ++ result.

(** [updates_too_long] *)
Definition updates_too_long : bytes := le_bytes 4 (ids UpdatesTooLong_).

(** [rpc_answer_dropped] with its three fields. *)
Definition rpc_answer_dropped : bytes :=
  le_bytes 4 (ids RpcAnswerDropped_) ++ le_bytes 8 4 ++ le_bytes 4 1
  ++ le_bytes 4 8.

(** [gzip_packed] around [inner], which this instance stores as it is. *)
Definition gzip_packed (inner : bytes) : bytes :=
  le_bytes 4 (ids GzipPacked_) ++ inner.

(** An inbound update, content-related ([seqno] 1): it asks for an
    acknowledgement. *)
Definition update_frame : bytes := inbound 0x6500000000000001 1 updates_too_long.

(** [future_salts] answering request 4 at server time 1700000000 with two
    salts, valid since 1699990000 and 1699999000. *)
Definition future_salts_body : bytes :=
  le_bytes 4 (ids FutureSalts_) ++ le_bytes 8 4 ++ le_bytes 4 1700000000
  ++ le_bytes 4 2
  ++ (le_bytes 4 1699990000 ++ le_bytes 4 1700090000 ++ le_bytes 8 0x1111)
  ++ (le_bytes 4 1699999000 ++ le_bytes 4 1700099000 ++ le_bytes 8 0x2222).

Definition future_salts_frame : bytes :=
  inbound 0x6500000000000005 0 future_salts_body.

(** [n] pushes of an 8-byte request on the fresh session. *)
Definition pushed (n : nat) : Encrypted :=
  exec_all (repeat (CPush (le_bytes 8 1)) n) session.

End Sample.

(** ** The sample instance with parsers for the service messages *)

Module Service.

Definition parse_pong (b : bytes) : option Pong :=
  if (le_uint (Sample.field 0 4 b) =? Sample.ids Pong_) && (len b =? 20)
  then Some (mkPong (le_sint (Sample.field 4 8 b)) (le_sint (Sample.field 12 8 b)))
  else None.

Definition parse_new_session (b : bytes) : option NewSessionCreated :=
  if (le_uint (Sample.field 0 4 b) =? Sample.ids NewSessionCreated_)
     && (len b =? 28)
  then Some (mkNewSessionCreated (le_sint (Sample.field 4 8 b))
               (le_sint (Sample.field 12 8 b)) (le_sint (Sample.field 20 8 b)))
  else None.

Definition parse_detailed_info (b : bytes) : option DetailedInfo :=
  let c := le_uint (Sample.field 0 4 b) in
  if (c =? Sample.ids MsgDetailedInfo_) && (len b =? 28) then
    Some (MsgDetailedInfo (le_sint (Sample.field 4 8 b))
            (le_sint (Sample.field 12 8 b)) (le_sint (Sample.field 20 4 b))
            (le_sint (Sample.field 24 4 b)))
  else if (c =? Sample.ids MsgNewDetailedInfo_) && (len b =? 20) then
    Some (MsgNewDetailedInfo (le_sint (Sample.field 4 8 b))
            (le_sint (Sample.field 12 4 b)) (le_sint (Sample.field 16 4 b)))
  else None.

Fixpoint parse_messages (n : nat) (b : bytes) : option (list Message) :=
  match n with
  | O => match b with [] => Some [] | _ => None end
  | S k =>
      match Sample.parse_message b with
      | Some m =>
          match parse_messages k (skipn (16 + Z.to_nat (bytes_ m)) b) with
          | Some r => Some (m :: r)
          | None => None
          end
      | None => None
      end
  end.

Definition parse_container (b : bytes) : option (list Message) :=
  if (len b <? 8) || negb (le_uint (Sample.field 0 4 b) =? Sample.ids MsgContainer_)
  then None
  else parse_messages (Z.to_nat (le_sint (Sample.field 4 4 b))) (skipn 8 b).

Definition imports : Imports := {|
  CONTAINER_MAX_LENGTH := @CONTAINER_MAX_LENGTH Sample.imports;
  CONTAINER_MAX_SIZE := @CONTAINER_MAX_SIZE Sample.imports;
  MESSAGE_SIZE_OVERHEAD := @MESSAGE_SIZE_OVERHEAD Sample.imports;
  check_message_buffer := @check_message_buffer Sample.imports;
  gzip_compress := @gzip_compress Sample.imports;
  gzip_decompress := @gzip_decompress Sample.imports;
  message_requires_ack := @message_requires_ack Sample.imports;
  encrypt_data_v2 := @encrypt_data_v2 Sample.imports;
  decrypt_data_v2 := @decrypt_data_v2 Sample.imports;
  constructor_id := Sample.ids;
  from_bytes_ok := @from_bytes_ok Sample.imports;
  AbcBadMsgNotification_from_bytes := Sample.parse_bad_msg;
  AbcMsgDetailedInfo_from_bytes := parse_detailed_info;
  FutureSalts_from_bytes := Sample.parse_future_salts;
  Pong_from_bytes := parse_pong;
  NewSessionCreated_from_bytes := parse_new_session;
  GzipPacked_from_bytes := @GzipPacked_from_bytes Sample.imports;
  MsgContainer_from_bytes := parse_container;
  Message_from_bytes := Sample.parse_message;
  RpcError_from_bytes := @RpcError_from_bytes Sample.imports;
  MsgsAck_to_bytes := Sample.msgs_ack_bytes;
  GzipPacked_to_bytes := @GzipPacked_to_bytes Sample.imports;
  get_future_salts := @get_future_salts Sample.imports;
  float := @float Sample.imports;
  time_time := @time_time Sample.imports;
  int_of_float := @int_of_float Sample.imports;
  scaled_time := @scaled_time Sample.imports;
  sys_byteorder := @sys_byteorder Sample.imports;
  recursion_limit := @recursion_limit Sample.imports
|}.

(** [pong] for the ping sent as message 4 with ping id 77. *)
Definition pong_body : bytes :=
  le_bytes 4 (Sample.ids Pong_) ++ le_bytes 8 4 ++ le_bytes 8 77.

(** [new_session_created] with server salt 0x5555. *)
Definition new_session_body : bytes :=
  le_bytes 4 (Sample.ids NewSessionCreated_) ++ le_bytes 8 4 ++ le_bytes 8 99
  ++ le_bytes 8 0x5555.

(** [msg_new_detailed_info] announcing the answer 6. *)
Definition detailed_info_body : bytes :=
  le_bytes 4 (Sample.ids MsgNewDetailedInfo_) ++ le_bytes 8 6 ++ le_bytes 4 100
  ++ le_bytes 4 0.

(** [update_short] cut down to its constructor id. *)
Definition update_short : bytes := le_bytes 4 (Sample.ids UpdateShort_).

(** [msg_container] of two updates, the first of which asks for an
    acknowledgement. *)
Definition container_body : bytes :=
  le_bytes 4 (Sample.ids MsgContainer_) ++ le_bytes 4 2
  ++ (le_bytes 8 0x6500000000000005 ++ le_bytes 4 1 ++ le_bytes 4 4
      ++ Sample.updates_too_long)
  ++ (le_bytes 8 0x6500000000000009 ++ le_bytes 4 0 ++ le_bytes 4 4
      ++ update_short).

(** An inbound message with sequence number [seqno] that carries [b]. *)
Definition message (seqno : Z) (b : bytes) : Message :=
  mkMessage 0x6500000000000001 seqno (len b) (PyBytes b).

(** The dispatch of [m] and the call of [_handle_container] with these
    parsers. *)
Definition dispatch (m : Message) : M unit := @_process_message imports 1 m.

Definition unpack (m : Message) : M unit :=
  @_handle_container imports (@_process_message imports 1) m.

End Service.

(** ** Further notions for the properties of the other methods *)

(** No two keys of a dict literal are equal. *)
Fixpoint all_distinct (l : list Z) : bool :=
  match l with
  | [] => true
  | x :: r => negb (existsb (Z.eqb x) r) && all_distinct r
  end.

(** The message that [_handle_gzip_packed] hands back to the dispatcher. *)
Definition inflated (message : Message) (inner_body : bytes) : Message :=
  mkMessage (msg_id message) (seqno message) (len inner_body) (PyBytes inner_body).

(** The order in which [_handle_future_salts] leaves the salts: a salt is
    not valid earlier than the ones after it. *)
Definition newer_first (a b : FutureSalt) : Prop := valid_since b <= valid_since a.

(** The change that [_handle_bad_notification] makes to the sequence
    counter for an error code other than 16 and 17. *)
Definition sequence_shift (error_code : Z) : Z :=
  if error_code =? 32 then 64 else if error_code =? 33 then -16 else 0.

(** [returns_with Q m]: the session that a returning run of [m] leaves
    satisfies [Q]. *)
Definition returns_with {A : Type} (Q : Encrypted -> Prop) (m : M A) : Prop :=
  forall s a s', m s = (Return a, s') -> Q s'.

(** The client id, the key and the compression threshold are left as they
    are. *)
Definition identity_same (s s' : Encrypted) : Prop :=
  _client_id s' = _client_id s /\
  _auth_key s' = _auth_key s /\
  _compression_threshold s' = _compression_threshold s.

(** The staged count and the length of the buffer respect the limits of a
    container. *)
Definition within_limits {I : Imports} (s : Encrypted) : Prop :=
  _msg_count s <= CONTAINER_MAX_LENGTH /\ len (_buffer s) < CONTAINER_MAX_SIZE.

(** The message id that a [msg_detailed_info] or a [msg_new_detailed_info]
    asks to acknowledge. *)
Definition answer_of (d : DetailedInfo) : Z :=
  match d with
  | MsgDetailedInfo _ answer_msg_id _ _ => answer_msg_id
  | MsgNewDetailedInfo answer_msg_id _ _ => answer_msg_id
  end.

(** The handlers that parse the body and drop the value, with the type
    they parse. *)
Definition parsed_and_dropped (h : Handler) : option TLName :=
  match h with
  | H_ack => Some MsgsAck_
  | H_state_req => Some MsgsStateReq_
  | H_state_info => Some MsgsStateInfo_
  | H_msg_all => Some MsgsAllInfo_
  | H_msg_resend => Some MsgResendReq_
  | H_destroy_session => Some DestroySessionRes_
  | H_http_wait => Some HttpWait_
  | _ => None
  end.

(** [struct.unpack_from("I", body)[0]] on a body of four bytes or more. *)
Definition native_uint {I : Imports} (b : bytes) : Z :=
  match sys_byteorder with
  | little => le_uint (firstn 4 b)
  | big => le_uint (rev (firstn 4 b))
  end.

(** The three answers to [rpc_drop_answer]. *)
Definition DROP_ANSWER_NAMES : list TLName :=
  [RpcAnswerUnknown_; RpcAnswerDroppedRunning_; RpcAnswerDropped_].

(** An inner message that the dispatcher takes for an update, with its
    body. *)
Definition inner_update {I : Imports} (inner : Message) (b : bytes) : Prop :=
  body inner = PyBytes b /\
  4 <= len b /\
  ~ In (le_uint (firstn 4 b)) (map fst _handlers).

(** * Properties *)

(** ** Reasoning about methods *)

Section Steps.

Variable R : Encrypted -> Encrypted -> Prop.
Hypothesis R_refl : forall s, R s s.
Hypothesis R_trans : forall a b c, R a b -> R b c -> R a c.

Lemma steps_ret {A : Type} (a : A) : steps R (ret a).
Proof. intro s. apply R_refl. Qed.

Lemma steps_raise {A : Type} (e : exn) : steps R (@raise A e).
Proof. intro s. apply R_refl. Qed.

Lemma steps_get : steps R get.
Proof. intro s. apply R_refl. Qed.

Lemma steps_lift {A : Type} (o : outcome A) : steps R (lift o).
Proof. intro s. apply R_refl. Qed.

Lemma steps_call {A : Type} (o : option A) : steps R (call o).
Proof. destruct o; [apply steps_ret | apply steps_raise]. Qed.

Lemma steps_assert (b : bool) : steps R (assert b).
Proof. destruct b; [apply steps_ret | apply steps_raise]. Qed.

Lemma steps_buffer_of (o : pyobj) : steps R (buffer_of o).
Proof. destruct o; [apply steps_ret | apply steps_raise]. Qed.

Lemma steps_bind {A B : Type} (m : M A) (k : A -> M B) :
  steps R m -> (forall a, steps R (k a)) -> steps R (bind m k).
Proof.
  intros Hm Hk s. unfold bind. specialize (Hm s).
  destruct (m s) as [[a | e] s']; simpl in *.
  - eapply R_trans; [exact Hm | apply Hk].
  - exact Hm.
Qed.

Lemma steps_if {A : Type} (b : bool) (m1 m2 : M A) :
  steps R m1 -> steps R m2 -> steps R (if b then m1 else m2).
Proof. destruct b; auto. Qed.

Lemma steps_modify (f : Encrypted -> Encrypted) :
  (forall s, R s (f s)) -> steps R (modify f).
Proof. intros H s. apply H. Qed.

Lemma steps_for_each {A : Type} (f : A -> M unit) (xs : list A) :
  (forall x, steps R (f x)) -> steps R (for_each f xs).
Proof.
  intro H. induction xs as [| x r IH]; simpl.
  - apply steps_ret.
  - apply steps_bind; auto.
Qed.

End Steps.

Lemma steps_bind_pre {A B : Type} (R1 R2 : Encrypted -> Encrypted -> Prop)
    (m : M A) (k : A -> M B) :
  (forall a b c, R1 a b -> R2 b c -> R2 a c) ->
  (forall a b, R1 a b -> R2 a b) ->
  steps R1 m -> (forall a, steps R2 (k a)) -> steps R2 (bind m k).
Proof.
  intros Hc Hw Hm Hk s. unfold bind. specialize (Hm s).
  destruct (m s) as [[a | e] s']; simpl in *.
  - eapply Hc; [exact Hm | apply Hk].
  - apply Hw. exact Hm.
Qed.

Lemma steps_bind_post {A B : Type} (R1 R2 : Encrypted -> Encrypted -> Prop)
    (m : M A) (k : A -> M B) :
  (forall a b c, R2 a b -> R1 b c -> R2 a c) ->
  steps R2 m -> (forall a, steps R1 (k a)) -> steps R2 (bind m k).
Proof.
  intros Hc Hm Hk s. unfold bind. specialize (Hm s).
  destruct (m s) as [[a | e] s']; simpl in *.
  - eapply Hc; [exact Hm | apply Hk].
  - exact Hm.
Qed.

Lemma steps_weaken {A : Type} (R1 R2 : Encrypted -> Encrypted -> Prop) (m : M A) :
  (forall a b, R1 a b -> R2 a b) -> steps R1 m -> steps R2 m.
Proof. intros Hw Hm s. apply Hw, Hm. Qed.

(** The laws of [bind] on a run. *)
Lemma bind_return {A B : Type} (m : M A) (k : A -> M B) s a s1 :
  m s = (Return a, s1) -> bind m k s = k a s1.
Proof. intro H. unfold bind. rewrite H. reflexivity. Qed.

Lemma bind_raise {A B : Type} (m : M A) (k : A -> M B) s e s1 :
  m s = (Raise e, s1) -> bind m k s = (Raise e, s1).
Proof. intro H. unfold bind. rewrite H. reflexivity. Qed.

Lemma bind_return_inv {A B : Type} (m : M A) (k : A -> M B) s b s' :
  bind m k s = (Return b, s') ->
  exists a s1, m s = (Return a, s1) /\ k a s1 = (Return b, s').
Proof.
  unfold bind. destruct (m s) as [[a | e] s1]; intro H.
  - exists a, s1. split; [reflexivity | exact H].
  - discriminate H.
Qed.

Section Raises.

Variable P : exn -> Prop.

Lemma raises_ret {A : Type} (a : A) : raises_only P (ret a).
Proof. intros s e H. discriminate H. Qed.

Lemma raises_get : raises_only P get.
Proof. intros s e H. discriminate H. Qed.

Lemma raises_modify f : raises_only P (modify f).
Proof. intros s e H. discriminate H. Qed.

Lemma raises_raise {A : Type} (e : exn) : P e -> raises_only P (@raise A e).
Proof. intros He s e' H. simpl in H. congruence. Qed.

Lemma raises_lift {A : Type} (o : outcome A) :
  P StructError -> struct_only o -> raises_only P (lift o).
Proof. intros Hp Ho s e H. simpl in H. rewrite (Ho e H). exact Hp. Qed.

Lemma raises_call {A : Type} (o : option A) : P Foreign -> raises_only P (call o).
Proof. intro Hp. destruct o; [apply raises_ret | apply raises_raise, Hp]. Qed.

Lemma raises_assert (b : bool) : P AssertionError -> raises_only P (assert b).
Proof. intro Hp. destruct b; [apply raises_ret | apply raises_raise, Hp]. Qed.

Lemma raises_buffer_of (o : pyobj) : P TypeError -> raises_only P (buffer_of o).
Proof. intro Hp. destruct o; [apply raises_ret | apply raises_raise, Hp]. Qed.

Lemma raises_bind {A B : Type} (m : M A) (k : A -> M B) :
  raises_only P m -> (forall a, raises_only P (k a)) -> raises_only P (bind m k).
Proof.
  intros Hm Hk s e. unfold bind. specialize (Hm s).
  destruct (m s) as [[a | e'] s']; simpl in *.
  - apply Hk.
  - intro H. apply Hm. congruence.
Qed.

Lemma raises_if {A : Type} (b : bool) (m1 m2 : M A) :
  raises_only P m1 -> raises_only P m2 -> raises_only P (if b then m1 else m2).
Proof. destruct b; auto. Qed.

End Raises.

Lemma pack_signed_struct w v : struct_only (pack_signed w v).
Proof. unfold struct_only, pack_signed. intros e. destruct (_ && _); congruence. Qed.

Lemma pack_unsigned_struct w v : struct_only (pack_unsigned w v).
Proof. unfold struct_only, pack_unsigned. intros e. destruct (_ && _); congruence. Qed.

Lemma opack_app_struct a b :
  struct_only a -> struct_only b -> struct_only (opack_app a b).
Proof.
  unfold struct_only, opack_app. intros Ha Hb e.
  destruct a as [x | ea]; [destruct b as [y | eb] |]; intro H.
  - discriminate H.
  - apply Hb. exact H.
  - apply Ha. exact H.
Qed.

Lemma unpack_from_I_struct order buf : struct_only (unpack_from_I order buf).
Proof.
  unfold struct_only, unpack_from_I. intro e.
  destruct (len buf <? 4); [congruence | destruct order; congruence].
Qed.

Lemma unpack_from_qq_struct buf : struct_only (unpack_from_qq buf).
Proof.
  unfold struct_only, unpack_from_qq. intro e.
  destruct (len buf <? 16); congruence.
Qed.

Lemma pack_qii_struct_error a b c e :
  pack_qii a b c = Raise e -> e = StructError.
Proof.
  unfold pack_qii, pack_q, pack_i. intro H.
  refine (opack_app_struct _ _ _ _ e H); [apply pack_signed_struct |].
  apply opack_app_struct; apply pack_signed_struct.
Qed.

Lemma struct_outcomes :
  (forall a b c, struct_only (pack_qii a b c)) /\
  (forall a b, struct_only (pack_qq a b)) /\
  (forall a b c d e, struct_only (pack_qiiIi a b c d e)).
Proof.
  repeat split; intros; unfold pack_qii, pack_qq, pack_qiiIi, pack_q, pack_i, pack_I;
    repeat apply opack_app_struct;
    first [apply pack_signed_struct | apply pack_unsigned_struct].
Qed.

Create HintDb raises.

Ltac raises_split :=
  repeat first
    [ solve [ auto 1 with raises ]
    | match goal with
      | |- raises_only _ (ret _) => apply raises_ret
      | |- raises_only _ get => apply raises_get
      | |- raises_only _ (modify _) => apply raises_modify
      | |- raises_only _ (raise _) => apply raises_raise; exact Logic.I
      | |- raises_only _ (lift _) =>
          apply raises_lift;
          [ exact Logic.I
          | first [ apply unpack_from_I_struct | apply unpack_from_qq_struct
                  | apply struct_outcomes ] ]
      | |- raises_only _ (call _) => apply raises_call; exact Logic.I
      | |- raises_only _ (assert _) => apply raises_assert; exact Logic.I
      | |- raises_only _ (buffer_of _) => apply raises_buffer_of; exact Logic.I
      | |- raises_only _ (bind _ _) => apply raises_bind; [ | intros ]
      | |- raises_only _ (if _ then _ else _) => apply raises_if
      | |- raises_only _ (match ?x with _ => _ end) => destruct x
      end
    | progress cbv zeta ].

Create HintDb steps.

(** Decompose a method into its primitive steps: a method already treated is
    found in the hint database, [leaf] settles a state update. *)
Ltac steps_split refl trans leaf :=
  repeat first
    [ solve [ auto 1 with steps ]
    | match goal with
      | |- steps _ (ret _) => apply (steps_ret _ refl)
      | |- steps _ (raise _) => apply (steps_raise _ refl)
      | |- steps _ get => apply (steps_get _ refl)
      | |- steps _ (lift _) => apply (steps_lift _ refl)
      | |- steps _ (call _) => apply (steps_call _ refl)
      | |- steps _ (assert _) => apply (steps_assert _ refl)
      | |- steps _ (buffer_of _) => apply (steps_buffer_of _ refl)
      | |- steps _ (bind _ _) => apply (steps_bind _ trans); [ | intros ]
      | |- steps _ (modify _) => apply steps_modify; intros; leaf
      | |- steps _ (if _ then _ else _) => apply steps_if
      | |- steps _ (match ?x with _ => _ end) => destruct x
      end
    | progress cbv zeta ].

Section Theory.

Context {I : Imports}.

(** *** The last issued message id never decreases *)

Lemma id_le_refl s : id_le s s.
Proof. unfold id_le. lia. Qed.

Lemma id_le_trans a b c : id_le a b -> id_le b c -> id_le a c.
Proof. unfold id_le. lia. Qed.

Ltac id_leaf := unfold id_le; simpl; lia.
Ltac id_steps := steps_split id_le_refl id_le_trans id_leaf.

Lemma now_id_le : steps id_le now_.
Proof. intro s. unfold id_le. simpl. lia. Qed.

Lemma get_new_msg_id_run (s : Encrypted) :
  let cand := scaled_time (time_time (clock_reads s)) (_time_offset s) in
  let a := if _last_msg_id s >=? cand then _last_msg_id s + 4 else cand in
  _get_new_msg_id s
  = (Return a, set_last_msg_id a (set_clock_reads (S (clock_reads s)) s)).
Proof. reflexivity. Qed.

Lemma get_new_msg_id_id_le : steps id_le _get_new_msg_id.
Proof.
  intro s. rewrite get_new_msg_id_run. unfold id_le. simpl.
  destruct (Z.geb_spec (_last_msg_id s)
              (scaled_time (time_time (clock_reads s)) (_time_offset s))); lia.
Qed.
Hint Resolve now_id_le get_new_msg_id_id_le : steps.

Lemma get_seq_no_id_le b : steps id_le (_get_seq_no b).
Proof. unfold _get_seq_no. id_steps. Qed.
Hint Resolve get_seq_no_id_le : steps.

Lemma serialize_msg_id_le body cr : steps id_le (_serialize_msg body cr).
Proof. unfold _serialize_msg. id_steps. Qed.
Hint Resolve serialize_msg_id_le : steps.

Lemma finalize_plain_id_le : steps id_le _finalize_plain.
Proof. unfold _finalize_plain. id_steps. Qed.
Hint Resolve finalize_plain_id_le : steps.

Lemma finalize_id_le : steps id_le finalize.
Proof. unfold finalize. id_steps. Qed.

Lemma rotate_salts_id_le : steps id_le rotate_salts.
Proof. unfold rotate_salts. id_steps. Qed.
Hint Resolve rotate_salts_id_le : steps.

Lemma push_id_le request : steps id_le (push request).
Proof. unfold push, reserve_header, flush_acks, stage_request. id_steps. Qed.
Hint Resolve push_id_le : steps.

Lemma parse_only_id_le name m : steps id_le (parse_only name m).
Proof. unfold parse_only. id_steps. Qed.
Hint Resolve parse_only_id_le : steps.

Lemma store_own_updates_id_le b : steps id_le (_store_own_updates b).
Proof. unfold _store_own_updates. id_steps. Qed.
Hint Resolve store_own_updates_id_le : steps.

Lemma rpc_results_append_id_le e : steps id_le (rpc_results_append e).
Proof. unfold rpc_results_append. id_steps. Qed.
Hint Resolve rpc_results_append_id_le : steps.

Lemma correct_time_offset_id_le m : steps id_le (_correct_time_offset m).
Proof. unfold _correct_time_offset. id_steps. Qed.
Hint Resolve correct_time_offset_id_le : steps.

Lemma run_handler_id_le process h m :
  (forall m', steps id_le (process m')) -> steps id_le (run_handler process h m).
Proof.
  intro Hp.
  destruct h; simpl;
    unfold _handle_rpc_result, _handle_ack, _handle_bad_notification,
      _handle_state_req, _handle_state_info, _handle_msg_all,
      _handle_detailed_info, _handle_msg_resend, _handle_future_salt,
      _handle_future_salts, _handle_pong, _handle_destroy_session,
      _handle_new_session_created, _handle_gzip_packed, _handle_http_wait,
      _handle_update;
    id_steps.
Qed.

Lemma process_message_id_le depth m : steps id_le (_process_message depth m).
Proof.
  revert m. induction depth as [| d IH]; intro m; simpl.
  - id_steps.
  - id_steps. apply run_handler_id_le. exact IH.
Qed.
Hint Resolve process_message_id_le : steps.

Lemma deserialize_id_le payload : steps id_le (deserialize payload).
Proof. unfold deserialize. id_steps. Qed.

Lemma exec_id_le c s : id_le s (exec c s).
Proof.
  destruct c; simpl.
  - apply push_id_le.
  - apply finalize_id_le.
  - apply deserialize_id_le.
Qed.

Lemma exec_all_id_le cs s : id_le s (exec_all cs s).
Proof.
  revert s. induction cs as [| c r IH]; intro s; simpl.
  - apply id_le_refl.
  - eapply id_le_trans; [apply exec_id_le | apply IH].
Qed.

(** C1.  The message-id generator returns
    [int((now + time_offset) * 2^32)], or the last issued id plus 4 when
    that value is not above the last issued id; the id is stored and is
    above the last issued one; and whatever calls of the session are made
    in between, the next id the generator returns is above it. *)
Theorem msg_id_monotonic (s : Encrypted) (between : list Call) :
  let computed := scaled_time (time_time (clock_reads s)) (_time_offset s) in
  let a := if computed <=? _last_msg_id s then _last_msg_id s + 4 else computed in
  exists s1,
    _get_new_msg_id s = (Return a, s1) /\
    _last_msg_id s1 = a /\
    _last_msg_id s < a /\
    exists b s2,
      _get_new_msg_id (exec_all between s1) = (Return b, s2) /\
      _last_msg_id s2 = b /\
      a < b.
Proof.
  intros computed a.
  assert (Ha : a = if _last_msg_id s >=? computed
                   then _last_msg_id s + 4 else computed).
  { subst a. rewrite Z.geb_leb. reflexivity. }
  eexists. split; [rewrite get_new_msg_id_run; fold computed; rewrite <- Ha; reflexivity |].
  split; [reflexivity |].
  split.
  { subst a. destruct (Z.leb_spec computed (_last_msg_id s)); lia. }
  set (s1 := set_last_msg_id a (set_clock_reads (S (clock_reads s)) s)).
  set (s1' := exec_all between s1).
  assert (Hle : a <= _last_msg_id s1') by apply (exec_all_id_le between s1).
  do 2 eexists. split; [apply get_new_msg_id_run |].
  split; [reflexivity |].
  destruct (Z.geb_spec (_last_msg_id s1')
              (scaled_time (time_time (clock_reads s1')) (_time_offset s1'))); lia.
Qed.

(** *** The sequence counter *)

Lemma seq_le_refl s : seq_le s s.
Proof. unfold seq_le. lia. Qed.

Lemma seq_le_trans a b c : seq_le a b -> seq_le b c -> seq_le a c.
Proof. unfold seq_le. lia. Qed.

Lemma seq_eq_refl s : seq_eq s s.
Proof. reflexivity. Qed.

Lemma seq_eq_trans a b c : seq_eq a b -> seq_eq b c -> seq_eq a c.
Proof. unfold seq_eq. congruence. Qed.

Lemma even_keep_refl s : even_keep s s.
Proof. unfold even_keep. auto. Qed.

Lemma even_keep_trans a b c : even_keep a b -> even_keep b c -> even_keep a c.
Proof. unfold even_keep. auto. Qed.

Ltac seq_le_steps :=
  steps_split seq_le_refl seq_le_trans ltac:(unfold seq_le; simpl; lia).
Ltac seq_eq_steps :=
  steps_split seq_eq_refl seq_eq_trans ltac:(unfold seq_eq; simpl; reflexivity).
Ltac even_steps :=
  steps_split even_keep_refl even_keep_trans
    ltac:(unfold even_keep; simpl;
          let H := fresh in
          intro H; rewrite ?Z.even_add, ?Z.even_sub, ?H; auto).

Lemma now_seq_le : steps seq_le now_.
Proof. intro s. unfold seq_le. simpl. lia. Qed.

Lemma now_seq_eq : steps seq_eq now_.
Proof. intro s. reflexivity. Qed.

Lemma now_even_keep : steps even_keep now_.
Proof. intro s. unfold even_keep. simpl. auto. Qed.
Hint Resolve now_seq_le now_seq_eq now_even_keep : steps.

Lemma get_new_msg_id_seq_le : steps seq_le _get_new_msg_id.
Proof. unfold _get_new_msg_id. seq_le_steps. Qed.

Lemma get_new_msg_id_seq_eq : steps seq_eq _get_new_msg_id.
Proof. unfold _get_new_msg_id. seq_eq_steps. Qed.

Lemma get_new_msg_id_even_keep : steps even_keep _get_new_msg_id.
Proof. unfold _get_new_msg_id. even_steps. Qed.
Hint Resolve get_new_msg_id_seq_le get_new_msg_id_seq_eq
  get_new_msg_id_even_keep : steps.

Lemma get_seq_no_seq_le b : steps seq_le (_get_seq_no b).
Proof. unfold _get_seq_no. seq_le_steps. Qed.

Lemma get_seq_no_even_keep b : steps even_keep (_get_seq_no b).
Proof. unfold _get_seq_no. even_steps. Qed.
Hint Resolve get_seq_no_seq_le get_seq_no_even_keep : steps.

Lemma serialize_msg_seq_le body cr : steps seq_le (_serialize_msg body cr).
Proof. unfold _serialize_msg. seq_le_steps. Qed.

Lemma serialize_msg_even_keep body cr : steps even_keep (_serialize_msg body cr).
Proof. unfold _serialize_msg. even_steps. Qed.
Hint Resolve serialize_msg_seq_le serialize_msg_even_keep : steps.

Lemma finalize_plain_seq_le : steps seq_le _finalize_plain.
Proof. unfold _finalize_plain. seq_le_steps. Qed.

Lemma finalize_plain_even_keep : steps even_keep _finalize_plain.
Proof. unfold _finalize_plain. even_steps. Qed.
Hint Resolve finalize_plain_seq_le finalize_plain_even_keep : steps.

Lemma finalize_seq_le : steps seq_le finalize.
Proof. unfold finalize. seq_le_steps. Qed.

Lemma finalize_even_keep : steps even_keep finalize.
Proof. unfold finalize. even_steps. Qed.

Lemma rotate_salts_seq_le : steps seq_le rotate_salts.
Proof. unfold rotate_salts. seq_le_steps. Qed.

Lemma rotate_salts_even_keep : steps even_keep rotate_salts.
Proof. unfold rotate_salts. even_steps. Qed.
Hint Resolve rotate_salts_seq_le rotate_salts_even_keep : steps.

Lemma push_seq_le request : steps seq_le (push request).
Proof. unfold push, reserve_header, flush_acks, stage_request. seq_le_steps. Qed.

Lemma push_even_keep request : steps even_keep (push request).
Proof. unfold push, reserve_header, flush_acks, stage_request. even_steps. Qed.
Hint Resolve push_seq_le push_even_keep : steps.

Lemma parse_only_seq_eq name m : steps seq_eq (parse_only name m).
Proof. unfold parse_only. seq_eq_steps. Qed.

Lemma parse_only_even_keep name m : steps even_keep (parse_only name m).
Proof. unfold parse_only. even_steps. Qed.
Hint Resolve parse_only_seq_eq parse_only_even_keep : steps.

Lemma store_own_updates_seq_eq b : steps seq_eq (_store_own_updates b).
Proof. unfold _store_own_updates. seq_eq_steps. Qed.

Lemma store_own_updates_even_keep b : steps even_keep (_store_own_updates b).
Proof. unfold _store_own_updates. even_steps. Qed.
Hint Resolve store_own_updates_seq_eq store_own_updates_even_keep : steps.

Lemma rpc_results_append_seq_eq e : steps seq_eq (rpc_results_append e).
Proof. unfold rpc_results_append. seq_eq_steps. Qed.

Lemma rpc_results_append_seq_le e : steps seq_le (rpc_results_append e).
Proof. unfold rpc_results_append. seq_le_steps. Qed.

Lemma rpc_results_append_even_keep e : steps even_keep (rpc_results_append e).
Proof. unfold rpc_results_append. even_steps. Qed.
Hint Resolve rpc_results_append_seq_eq rpc_results_append_seq_le
  rpc_results_append_even_keep : steps.

Lemma correct_time_offset_seq_eq m : steps seq_eq (_correct_time_offset m).
Proof. unfold _correct_time_offset. seq_eq_steps. Qed.

Lemma correct_time_offset_even_keep m : steps even_keep (_correct_time_offset m).
Proof. unfold _correct_time_offset. even_steps. Qed.
Hint Resolve correct_time_offset_seq_eq correct_time_offset_even_keep : steps.

Ltac unfold_handlers :=
  unfold _handle_rpc_result, _handle_ack, _handle_bad_notification,
    _handle_state_req, _handle_state_info, _handle_msg_all,
    _handle_detailed_info, _handle_msg_resend, _handle_future_salt,
    _handle_future_salts, _handle_pong, _handle_destroy_session,
    _handle_new_session_created, _handle_gzip_packed, _handle_http_wait,
    _handle_update.

Lemma run_handler_even_keep process h m :
  (forall m', steps even_keep (process m')) ->
  steps even_keep (run_handler process h m).
Proof. intro Hp. destruct h; simpl; unfold_handlers; even_steps. Qed.

Lemma process_message_even_keep depth m :
  steps even_keep (_process_message depth m).
Proof.
  revert m. induction depth as [| d IH]; intro m; simpl.
  - even_steps.
  - even_steps. apply run_handler_even_keep. exact IH.
Qed.
Hint Resolve process_message_even_keep : steps.

Lemma deserialize_even_keep payload : steps even_keep (deserialize payload).
Proof. unfold deserialize. even_steps. Qed.

Lemma exec_even_keep c s : even_keep s (exec c s).
Proof.
  destruct c; simpl.
  - apply push_even_keep.
  - apply finalize_even_keep.
  - apply deserialize_even_keep.
Qed.

Lemma exec_all_even_keep cs s : even_keep s (exec_all cs s).
Proof.
  revert s. induction cs as [| c r IH]; intro s; simpl.
  - apply even_keep_refl.
  - eapply even_keep_trans; [apply exec_even_keep | apply IH].
Qed.

(** A step that leaves the counter alone, then one that moves it. *)
Lemma seq_eq_then_rewind a b c :
  seq_eq a b -> seq_le_or_rewind b c -> seq_le_or_rewind a c.
Proof. unfold seq_eq, seq_le_or_rewind. lia. Qed.

Lemma seq_eq_rewind a b : seq_eq a b -> seq_le_or_rewind a b.
Proof. unfold seq_eq, seq_le_or_rewind. lia. Qed.

Lemma seq_le_rewind a b : seq_le a b -> seq_le_or_rewind a b.
Proof. unfold seq_le, seq_le_or_rewind. lia. Qed.

Ltac after_seq_eq :=
  apply (steps_bind_pre seq_eq seq_le_or_rewind _ _
           seq_eq_then_rewind seq_eq_rewind);
  [ seq_eq_steps | intros ].

Lemma handle_bad_notification_rewind m :
  steps seq_le_or_rewind (_handle_bad_notification m).
Proof.
  unfold _handle_bad_notification.
  after_seq_eq. after_seq_eq.
  match goal with |- steps _ (match ?x with _ => _ end) => destruct x end.
  - after_seq_eq.
    repeat apply steps_if;
      try solve [apply (steps_weaken seq_eq); [exact seq_eq_rewind | seq_eq_steps]];
      apply steps_modify; intro s; unfold seq_le_or_rewind; simpl; lia.
  - apply (steps_weaken seq_le); [exact seq_le_rewind | seq_le_steps].
Qed.

Lemma run_handler_rewind process h m :
  (forall m', steps seq_le_or_rewind (process m')) ->
  steps seq_le_or_rewind (run_handler process h m).
Proof.
  intro Hp. destruct h; simpl;
    try apply handle_bad_notification_rewind;
    try solve [apply (steps_weaken seq_eq);
               [exact seq_eq_rewind | unfold_handlers; seq_eq_steps]].
  unfold _handle_gzip_packed. after_seq_eq. after_seq_eq. after_seq_eq.
  apply Hp.
Qed.

Lemma process_message_rewind depth m :
  steps seq_le_or_rewind (_process_message depth m).
Proof.
  revert m. induction depth as [| d IH]; intro m; simpl.
  - intro s. left. simpl. lia.
  - after_seq_eq. after_seq_eq. after_seq_eq.
    apply run_handler_rewind. exact IH.
Qed.

Lemma deserialize_rewind payload : steps seq_le_or_rewind (deserialize payload).
Proof.
  unfold deserialize.
  after_seq_eq. after_seq_eq. after_seq_eq. after_seq_eq. after_seq_eq.
  after_seq_eq.
  apply (steps_bind_post seq_eq seq_le_or_rewind).
  - unfold seq_eq, seq_le_or_rewind. lia.
  - apply process_message_rewind.
  - intros. seq_eq_steps.
Qed.

(** C2, as the code has it.  From an even counter, the sequence number of
    a content-related message is odd (the counter goes up by 2 and the
    counter minus 1 is returned) and that of another message is the even
    counter itself; every call leaves the counter even; [push] and
    [finalize] never lower it, and a [deserialize] leaves it at least as
    high or exactly 16 lower (the rewind of error code 33). *)
Theorem seq_no_parity (s : Encrypted) (c : Call) :
  Z.even (_sequence s) = true ->
  (exists s',
      _get_seq_no true s = (Return (_sequence s' - 1), s') /\
      _sequence s' = _sequence s + 2 /\
      Z.odd (_sequence s' - 1) = true) /\
  (_get_seq_no false s = (Return (_sequence s), s) /\
   Z.even (_sequence s) = true) /\
  Z.even (_sequence (exec c s)) = true /\
  match c with
  | CDeserialize _ =>
      _sequence s <= _sequence (exec c s) \/
      _sequence (exec c s) = _sequence s - 16
  | _ => _sequence s <= _sequence (exec c s)
  end.
Proof.
  intro Heven. repeat split.
  - exists (set_sequence (_sequence s + 2) s). repeat split.
    simpl. rewrite Z.odd_sub, Z.odd_add, <- !Z.negb_even, Heven. reflexivity.
  - exact Heven.
  - apply (exec_even_keep c s). exact Heven.
  - destruct c; simpl.
    + apply push_seq_le.
    + apply finalize_seq_le.
    + apply deserialize_rewind.
Qed.

(** *** What the dispatcher raises *)

Lemma now_not_runtime : raises_only not_runtime now_.
Proof. intros s e H. discriminate H. Qed.
Hint Resolve now_not_runtime : raises.

Lemma get_new_msg_id_not_runtime : raises_only not_runtime _get_new_msg_id.
Proof. unfold _get_new_msg_id. raises_split. Qed.
Hint Resolve get_new_msg_id_not_runtime : raises.

Lemma get_seq_no_not_runtime b : raises_only not_runtime (_get_seq_no b).
Proof. unfold _get_seq_no. raises_split. Qed.
Hint Resolve get_seq_no_not_runtime : raises.

Lemma serialize_msg_not_runtime body cr :
  raises_only not_runtime (_serialize_msg body cr).
Proof. unfold _serialize_msg. raises_split. Qed.
Hint Resolve serialize_msg_not_runtime : raises.

Lemma rotate_salts_not_runtime : raises_only not_runtime rotate_salts.
Proof. unfold rotate_salts. raises_split. Qed.
Hint Resolve rotate_salts_not_runtime : raises.

Lemma push_not_runtime request : raises_only not_runtime (push request).
Proof. unfold push, reserve_header, flush_acks, stage_request. raises_split. Qed.
Hint Resolve push_not_runtime : raises.

Lemma parse_only_not_runtime name m : raises_only not_runtime (parse_only name m).
Proof. unfold parse_only. raises_split. Qed.
Hint Resolve parse_only_not_runtime : raises.

Lemma store_own_updates_not_runtime b :
  raises_only not_runtime (_store_own_updates b).
Proof. unfold _store_own_updates. raises_split. Qed.
Hint Resolve store_own_updates_not_runtime : raises.

Lemma rpc_results_append_not_runtime e :
  raises_only not_runtime (rpc_results_append e).
Proof. unfold rpc_results_append. raises_split. Qed.
Hint Resolve rpc_results_append_not_runtime : raises.

Lemma correct_time_offset_not_runtime m :
  raises_only not_runtime (_correct_time_offset m).
Proof. unfold _correct_time_offset. raises_split. Qed.
Hint Resolve correct_time_offset_not_runtime : raises.

Lemma run_handler_not_runtime process h m :
  (forall m', raises_only not_runtime (process m')) ->
  raises_only not_runtime (run_handler process h m).
Proof. intro Hp. destruct h; simpl; unfold_handlers; raises_split. Qed.

Lemma process_message_not_runtime depth m :
  raises_only not_runtime (_process_message depth m).
Proof.
  revert m. induction depth as [| d IH]; intro m; simpl.
  - raises_split.
  - raises_split. apply run_handler_not_runtime. exact IH.
Qed.

(** *** The queues under dispatch *)

Lemma queues_grow_refl s : queues_grow s s.
Proof. split; exists []; rewrite app_nil_r; reflexivity. Qed.

Lemma queues_grow_trans a b c :
  queues_grow a b -> queues_grow b c -> queues_grow a c.
Proof.
  intros [[r1 H1] [u1 H2]] [[r2 H3] [u2 H4]]. split.
  - exists (r1 ++ r2). rewrite H3, H1, app_assoc. reflexivity.
  - exists (u1 ++ u2). rewrite H4, H2, app_assoc. reflexivity.
Qed.

Lemma queues_same_refl s : queues_same s s.
Proof. split; reflexivity. Qed.

Lemma queues_same_trans a b c :
  queues_same a b -> queues_same b c -> queues_same a c.
Proof. unfold queues_same. intros [H1 H2] [H3 H4]. split; congruence. Qed.

Lemma queues_same_grow a b : queues_same a b -> queues_grow a b.
Proof.
  intros [H1 H2]. split; exists []; rewrite app_nil_r; assumption.
Qed.

Ltac grow_steps :=
  steps_split queues_grow_refl queues_grow_trans
    ltac:(unfold queues_grow; simpl; split;
          first [ exists []; rewrite app_nil_r; reflexivity
                | eexists; reflexivity ]).
Ltac same_steps :=
  steps_split queues_same_refl queues_same_trans
    ltac:(unfold queues_same; simpl; split; reflexivity).

Lemma now_queues_same : steps queues_same now_.
Proof. intro s. split; reflexivity. Qed.
Hint Resolve now_queues_same : steps.

Lemma get_new_msg_id_queues_same : steps queues_same _get_new_msg_id.
Proof. unfold _get_new_msg_id. same_steps. Qed.
Hint Resolve get_new_msg_id_queues_same : steps.

Lemma get_seq_no_queues_same b : steps queues_same (_get_seq_no b).
Proof. unfold _get_seq_no. same_steps. Qed.
Hint Resolve get_seq_no_queues_same : steps.

Lemma serialize_msg_queues_same body cr :
  steps queues_same (_serialize_msg body cr).
Proof. unfold _serialize_msg. same_steps. Qed.
Hint Resolve serialize_msg_queues_same : steps.

Lemma rotate_salts_queues_same : steps queues_same rotate_salts.
Proof. unfold rotate_salts. same_steps. Qed.
Hint Resolve rotate_salts_queues_same : steps.

Lemma push_queues_same request : steps queues_same (push request).
Proof. unfold push, reserve_header, flush_acks, stage_request. same_steps. Qed.

Lemma push_queues_grow request : steps queues_grow (push request).
Proof.
  apply (steps_weaken queues_same); [exact queues_same_grow | apply push_queues_same].
Qed.
Hint Resolve push_queues_grow : steps.

Lemma now_queues_grow : steps queues_grow now_.
Proof.
  apply (steps_weaken queues_same); [exact queues_same_grow | apply now_queues_same].
Qed.
Hint Resolve now_queues_grow : steps.

Lemma parse_only_queues_grow name m : steps queues_grow (parse_only name m).
Proof. unfold parse_only. grow_steps. Qed.
Hint Resolve parse_only_queues_grow : steps.

Lemma store_own_updates_queues_grow b : steps queues_grow (_store_own_updates b).
Proof. unfold _store_own_updates. grow_steps. Qed.
Hint Resolve store_own_updates_queues_grow : steps.

Lemma rpc_results_append_queues_grow e : steps queues_grow (rpc_results_append e).
Proof. unfold rpc_results_append. grow_steps. Qed.
Hint Resolve rpc_results_append_queues_grow : steps.

Lemma correct_time_offset_queues_grow m :
  steps queues_grow (_correct_time_offset m).
Proof. unfold _correct_time_offset. grow_steps. Qed.
Hint Resolve correct_time_offset_queues_grow : steps.

Lemma run_handler_queues_grow process h m :
  (forall m', steps queues_grow (process m')) ->
  steps queues_grow (run_handler process h m).
Proof. intro Hp. destruct h; simpl; unfold_handlers; grow_steps. Qed.

Lemma process_message_queues_grow depth m :
  steps queues_grow (_process_message depth m).
Proof.
  revert m. induction depth as [| d IH]; intro m; simpl.
  - grow_steps.
  - grow_steps. apply run_handler_queues_grow. exact IH.
Qed.

(** *** [deserialize], stage by stage *)

Lemma unpack_from_qq_return buf ids :
  unpack_from_qq buf = Return ids <->
  16 <= len buf /\
  ids = (le_sint (firstn 8 buf), le_sint (firstn 8 (skipn 8 buf))).
Proof.
  unfold unpack_from_qq. destruct (Z.ltb_spec (len buf) 16); split.
  - discriminate.
  - intros [H1 _]. lia.
  - intro H1. injection H1 as <-. split; [lia | reflexivity].
  - intros [_ ->]. reflexivity.
Qed.

(** The stages of [deserialize] up to the dispatch: [Some message] when the
    frame passes the checks, decrypts, carries the session's client id and
    parses. *)
Ltac run_bind tac := erewrite bind_return by tac; cbv beta.

Lemma deserialize_stages payload s plaintext message :
  check_message_buffer payload = true ->
  decrypt_data_v2 payload (_auth_key s) = Some plaintext ->
  16 <= len plaintext ->
  le_sint (firstn 8 (skipn 8 plaintext)) = _client_id s ->
  Message_from_bytes (skipn 16 plaintext) = Some message ->
  deserialize payload s
  = match _process_message recursion_limit message s with
    | (Return _, s1) =>
        (Return (mkDeserialization (_rpc_results s1) (_updates s1)),
         set_updates [] (set_rpc_results [] s1))
    | (Raise e, s1) => (Raise e, s1)
    end.
Proof.
  intros Hc Hd Hl Hi Hm. unfold deserialize.
  assert (Hu : unpack_from_qq plaintext
               = Return (le_sint (firstn 8 plaintext),
                         le_sint (firstn 8 (skipn 8 plaintext)))).
  { apply unpack_from_qq_return. split; [exact Hl | reflexivity]. }
  run_bind ltac:(rewrite Hc; reflexivity).
  run_bind ltac:(reflexivity).
  run_bind ltac:(rewrite Hd; reflexivity).
  run_bind ltac:(unfold lift; rewrite Hu; reflexivity).
  run_bind ltac:(cbn [snd]; rewrite Hi, Z.eqb_refl; reflexivity).
  run_bind ltac:(rewrite Hm; reflexivity).
  unfold bind at 1.
  destruct (_process_message recursion_limit message s) as [[[] | e] s1];
    reflexivity.
Qed.

Lemma deserialize_wrong_session payload s plaintext :
  check_message_buffer payload = true ->
  decrypt_data_v2 payload (_auth_key s) = Some plaintext ->
  16 <= len plaintext ->
  le_sint (firstn 8 (skipn 8 plaintext)) <> _client_id s ->
  deserialize payload s = (Raise (RuntimeError "wrong session id"), s).
Proof.
  intros Hc Hd Hl Hi. unfold deserialize.
  assert (Hu : unpack_from_qq plaintext
               = Return (le_sint (firstn 8 plaintext),
                         le_sint (firstn 8 (skipn 8 plaintext)))).
  { apply unpack_from_qq_return. split; [exact Hl | reflexivity]. }
  run_bind ltac:(rewrite Hc; reflexivity).
  run_bind ltac:(reflexivity).
  run_bind ltac:(rewrite Hd; reflexivity).
  run_bind ltac:(unfold lift; rewrite Hu; reflexivity).
  apply Z.eqb_neq in Hi.
  erewrite bind_raise; [reflexivity |].
  cbn [snd]. rewrite Hi. reflexivity.
Qed.

Lemma deserialize_rejected payload s :
  check_message_buffer payload = false ->
  deserialize payload s = (Raise Foreign, s).
Proof.
  intro Hc. unfold deserialize.
  erewrite bind_raise; [reflexivity | rewrite Hc; reflexivity].
Qed.

Lemma deserialize_undecrypted payload s :
  check_message_buffer payload = true ->
  decrypt_data_v2 payload (_auth_key s) = None ->
  deserialize payload s = (Raise Foreign, s).
Proof.
  intros Hc Hd. unfold deserialize.
  run_bind ltac:(rewrite Hc; reflexivity).
  run_bind ltac:(reflexivity).
  erewrite bind_raise; [reflexivity | rewrite Hd; reflexivity].
Qed.

Lemma deserialize_short payload s plaintext :
  check_message_buffer payload = true ->
  decrypt_data_v2 payload (_auth_key s) = Some plaintext ->
  len plaintext < 16 ->
  deserialize payload s = (Raise StructError, s).
Proof.
  intros Hc Hd Hl. unfold deserialize.
  run_bind ltac:(rewrite Hc; reflexivity).
  run_bind ltac:(reflexivity).
  run_bind ltac:(rewrite Hd; reflexivity).
  erewrite bind_raise; [reflexivity |].
  unfold lift, unpack_from_qq. apply Z.ltb_lt in Hl. rewrite Hl. reflexivity.
Qed.

Lemma deserialize_unparsed payload s plaintext :
  check_message_buffer payload = true ->
  decrypt_data_v2 payload (_auth_key s) = Some plaintext ->
  16 <= len plaintext ->
  le_sint (firstn 8 (skipn 8 plaintext)) = _client_id s ->
  Message_from_bytes (skipn 16 plaintext) = None ->
  deserialize payload s = (Raise Foreign, s).
Proof.
  intros Hc Hd Hl Hi Hm. unfold deserialize.
  assert (Hu : unpack_from_qq plaintext
               = Return (le_sint (firstn 8 plaintext),
                         le_sint (firstn 8 (skipn 8 plaintext)))).
  { apply unpack_from_qq_return. split; [exact Hl | reflexivity]. }
  run_bind ltac:(rewrite Hc; reflexivity).
  run_bind ltac:(reflexivity).
  run_bind ltac:(rewrite Hd; reflexivity).
  run_bind ltac:(unfold lift; rewrite Hu; reflexivity).
  run_bind ltac:(cbn [snd]; rewrite Hi, Z.eqb_refl; reflexivity).
  erewrite bind_raise; [reflexivity | rewrite Hm; reflexivity].
Qed.

Ltac deserialize_by_cases payload s :=
  let Hc := fresh "Hc" in
  let Hd := fresh "Hd" in
  let Hl := fresh "Hl" in
  let Hi := fresh "Hi" in
  let Hm := fresh "Hm" in
  let plaintext := fresh "plaintext" in
  let message := fresh "message" in
  destruct (check_message_buffer payload) eqn:Hc;
  [ destruct (decrypt_data_v2 payload (_auth_key s)) as [plaintext |] eqn:Hd;
    [ destruct (Z.ltb_spec (len plaintext) 16) as [Hl | Hl];
      [ rewrite (deserialize_short payload s plaintext Hc Hd Hl)
      | destruct (Z.eq_dec (le_sint (firstn 8 (skipn 8 plaintext))) (_client_id s))
          as [Hi | Hi];
        [ destruct (Message_from_bytes (skipn 16 plaintext)) as [message |] eqn:Hm;
          [ rewrite (deserialize_stages payload s plaintext message Hc Hd Hl Hi Hm)
          | rewrite (deserialize_unparsed payload s plaintext Hc Hd Hl Hi Hm) ]
        | rewrite (deserialize_wrong_session payload s plaintext Hc Hd Hl Hi) ] ]
    | rewrite (deserialize_undecrypted payload s Hc Hd) ]
  | rewrite (deserialize_rejected payload s Hc) ].

Lemma deserialize_return_inv payload s d s' :
  deserialize payload s = (Return d, s') ->
  exists message s1,
    _process_message recursion_limit message s = (Return tt, s1) /\
    d = mkDeserialization (_rpc_results s1) (_updates s1) /\
    s' = set_updates [] (set_rpc_results [] s1).
Proof.
  deserialize_by_cases payload s; try discriminate.
  destruct (_process_message recursion_limit message s) as [[[] | e] s1] eqn:Hp;
    try discriminate.
  intro H. injection H as <- <-. exists message, s1.
  split; [exact Hp | split; reflexivity].
Qed.

(** C6.  A [deserialize] that returns hands out the queued entries followed
    by those its own dispatch appended, in that order, and leaves both
    queues empty; the next [deserialize] that returns therefore hands out
    only what its own dispatch appended. *)
Theorem deserialize_drains (payload : bytes) (s s' : Encrypted)
    (d : Deserialization) :
  deserialize payload s = (Return d, s') ->
  (exists message s1 new_results new_updates,
      _process_message recursion_limit message s = (Return tt, s1) /\
      _rpc_results s1 = _rpc_results s ++ new_results /\
      _updates s1 = _updates s ++ new_updates /\
      rpc_results d = _rpc_results s ++ new_results /\
      updates d = _updates s ++ new_updates) /\
  _rpc_results s' = [] /\
  _updates s' = [] /\
  forall payload2 d2 s2,
    deserialize payload2 s' = (Return d2, s2) ->
    exists message2 s3,
      _process_message recursion_limit message2 s' = (Return tt, s3) /\
      rpc_results d2 = _rpc_results s3 /\
      updates d2 = _updates s3 /\
      (exists new_results2, rpc_results d2 = [] ++ new_results2) /\
      (exists new_updates2, updates d2 = [] ++ new_updates2) /\
      _rpc_results s2 = [] /\
      _updates s2 = [].
Proof.
  intro H. apply deserialize_return_inv in H.
  destruct H as (message & s1 & Hp & -> & ->).
  pose proof (process_message_queues_grow recursion_limit message s) as Hg.
  rewrite Hp in Hg. destruct Hg as [[r Hr] [u Hu]]. simpl in Hr, Hu.
  split; [| split; [reflexivity | split; [reflexivity |]]].
  - exists message, s1, r, u. simpl. auto.
  - intros payload2 d2 s2 H2. apply deserialize_return_inv in H2.
    destruct H2 as (message2 & s3 & Hp2 & -> & ->).
    pose proof (process_message_queues_grow recursion_limit message2
                  (set_updates [] (set_rpc_results [] s1))) as Hg2.
    rewrite Hp2 in Hg2. destruct Hg2 as [[r2 Hr2] [u2 Hu2]]. simpl in Hr2, Hu2.
    exists message2, s3. simpl. repeat split; eauto.
Qed.

(** C8.  [deserialize] raises the wrong-session error exactly when the frame
    passes the buffer check, decrypts, and the signed 64-bit field in bytes
    8..16 of the plaintext differs from the session's client id; it returns
    exactly when every stage succeeds, the ids match and the dispatch of the
    parsed message returns; and when the ids match the dispatch is run. *)
Theorem wrong_session_rejection (payload : bytes) (s : Encrypted) :
  (fst (deserialize payload s) = Raise (RuntimeError "wrong session id") <->
   check_message_buffer payload = true /\
   exists plaintext,
     decrypt_data_v2 payload (_auth_key s) = Some plaintext /\
     16 <= len plaintext /\
     le_sint (firstn 8 (skipn 8 plaintext)) <> _client_id s) /\
  ((exists d, fst (deserialize payload s) = Return d) <->
   check_message_buffer payload = true /\
   exists plaintext message,
     decrypt_data_v2 payload (_auth_key s) = Some plaintext /\
     16 <= len plaintext /\
     le_sint (firstn 8 (skipn 8 plaintext)) = _client_id s /\
     Message_from_bytes (skipn 16 plaintext) = Some message /\
     fst (_process_message recursion_limit message s) = Return tt) /\
  (forall plaintext message,
     check_message_buffer payload = true ->
     decrypt_data_v2 payload (_auth_key s) = Some plaintext ->
     16 <= len plaintext ->
     le_sint (firstn 8 (skipn 8 plaintext)) = _client_id s ->
     Message_from_bytes (skipn 16 plaintext) = Some message ->
     deserialize payload s
     = match _process_message recursion_limit message s with
       | (Return _, s1) =>
           (Return (mkDeserialization (_rpc_results s1) (_updates s1)),
            set_updates [] (set_rpc_results [] s1))
       | (Raise e, s1) => (Raise e, s1)
       end).
Proof.
  split; [| split].
  - split.
    + deserialize_by_cases payload s; simpl; try discriminate.
      * pose proof (process_message_not_runtime recursion_limit message s) as Hn.
        destruct (_process_message recursion_limit message s) as [[[] | e] s1];
          simpl in *; try discriminate.
        intro H. injection H as ->. exfalso. exact (Hn _ eq_refl).
      * intros _. split; [reflexivity |]. exists plaintext. auto.
    + intros (Hc & plaintext & Hd & Hl & Hi).
      rewrite (deserialize_wrong_session payload s plaintext Hc Hd Hl Hi).
      reflexivity.
  - split.
    + deserialize_by_cases payload s; simpl; intros [d H]; try discriminate.
      split; [reflexivity |]. exists plaintext, message.
      repeat split; auto.
      destruct (_process_message recursion_limit message s) as [[[] | e] s1];
        simpl in *; [reflexivity | discriminate].
    + intros (Hc & plaintext & message & Hd & Hl & Hi & Hm & Hp).
      rewrite (deserialize_stages payload s plaintext message Hc Hd Hl Hi Hm).
      destruct (_process_message recursion_limit message s) as [[[] | e] s1];
        simpl in *; [eexists; reflexivity | discriminate].
  - intros. apply deserialize_stages with (plaintext := plaintext); assumption.
Qed.

(** *** One step of the dispatcher *)

Lemma unpack_from_I_little b :
  4 <= len b -> unpack_from_I little b = Return (le_uint (firstn 4 b)).
Proof.
  intro H. unfold unpack_from_I.
  destruct (Z.ltb_spec (len b) 4); [lia | reflexivity].
Qed.

Lemma process_message_step depth m b s :
  body m = PyBytes b ->
  4 <= len b ->
  _process_message (S depth) m s
  = run_handler (_process_message depth) (handler_for (le_uint (firstn 4 b))) m
      (ack_noted m s).
Proof.
  intros Hb Hl. cbn [_process_message].
  erewrite bind_return with (s1 := ack_noted m s) (a := tt)
    by (unfold ack_noted; destruct (message_requires_ack m); reflexivity).
  rewrite Hb.
  run_bind ltac:(reflexivity).
  run_bind ltac:(unfold lift; rewrite (unpack_from_I_little b Hl); reflexivity).
  reflexivity.
Qed.

(** A body whose constructor is one of the update constructors, none of
    which has a handler of its own, goes to the updates queue. *)
Lemma update_body_dispatched depth m b s :
  body m = PyBytes b ->
  4 <= len b ->
  in_ids (le_uint (firstn 4 b)) UPDATE_IDS = true ->
  (forall c, in_ids c UPDATE_IDS = true -> dict_get c _handlers = None) ->
  _process_message (S depth) m s
  = (Return tt, set_updates (_updates (ack_noted m s) ++ [b]) (ack_noted m s)).
Proof.
  intros Hb Hl Hin Hnone.
  rewrite (process_message_step depth m b s Hb Hl).
  unfold handler_for. rewrite (Hnone _ Hin). cbn [run_handler].
  unfold _handle_update. rewrite Hb. reflexivity.
Qed.

(** A buffer that is dispatched to [_handle_rpc_result] fails its assertion. *)
Lemma rpc_result_dispatch_raises depth m b s :
  body m = PyBytes b ->
  4 <= len b ->
  handler_for (le_uint (firstn 4 b)) = H_rpc_result ->
  _process_message (S depth) m s = (Raise AssertionError, ack_noted m s).
Proof.
  intros Hb Hl Hh.
  rewrite (process_message_step depth m b s Hb Hl), Hh. cbn [run_handler].
  unfold _handle_rpc_result. rewrite Hb. reflexivity.
Qed.

(** An object that is not a buffer does not reach any handler. *)
Lemma object_dispatch_raises depth m req result s :
  body m = PyRpcResult req result ->
  _process_message (S depth) m s = (Raise TypeError, ack_noted m s).
Proof.
  intro Hb. cbn [_process_message].
  erewrite bind_return with (s1 := ack_noted m s) (a := tt)
    by (unfold ack_noted; destruct (message_requires_ack m); reflexivity).
  rewrite Hb. reflexivity.
Qed.

(** What [_handle_rpc_result] does with an [RpcResult] whose result is a
    plain body. *)
Lemma handle_rpc_result_plain m req result s :
  body m = PyRpcResult req result ->
  4 <= len result ->
  in_ids (le_uint (firstn 4 result))
    (map constructor_id (GzipPacked_ :: RESULT_NAMES)) = false ->
  _handle_rpc_result m s
  = (bind (_store_own_updates result)
       (fun _ => rpc_results_append (req, ReplyBody result))) s.
Proof.
  intros Hb Hl Hin. unfold _handle_rpc_result. rewrite Hb.
  run_bind ltac:(unfold lift; rewrite (unpack_from_I_little result Hl); reflexivity).
  unfold in_ids, RESULT_NAMES in Hin. cbn [map existsb] in Hin.
  repeat (apply orb_false_elim in Hin; destruct Hin as [? Hin]).
  repeat match goal with H : (_ =? _) = false |- _ => rewrite H; clear H end.
  reflexivity.
Qed.




(** *** Bytes *)

Lemma le_bytes_length w v : length (le_bytes w v) = w.
Proof. revert v. induction w as [| k IH]; intro v; simpl; [| rewrite IH]; reflexivity. Qed.

Lemma len_le_bytes w v : len (le_bytes w v) = Z.of_nat w.
Proof. unfold len. rewrite le_bytes_length. reflexivity. Qed.

Lemma len_app {A : Type} (a b : list A) : len (a ++ b) = len a + len b.
Proof. unfold len. rewrite length_app. lia. Qed.

Lemma len_nonneg {A : Type} (a : list A) : 0 <= len a.
Proof. unfold len. lia. Qed.

Lemma Z_of_byte_of_Z v : Z_of_byte (byte_of_Z v) = v mod 256.
Proof.
  unfold Z_of_byte, byte_of_Z.
  assert (Hr : 0 <= v mod 256 < 256) by (apply Z.mod_pos_bound; lia).
  destruct (Byte.of_N (Z.to_N (v mod 256))) as [b |] eqn:Hb.
  - apply Byte.to_of_N in Hb. rewrite Hb. lia.
  - apply Byte.of_N_None_iff in Hb. lia.
Qed.

Lemma le_uint_le_bytes w v : le_uint (le_bytes w v) = v mod 2 ^ (8 * Z.of_nat w).
Proof.
  revert v. induction w as [| k IH]; intro v.
  - simpl. rewrite Z.mod_1_r. reflexivity.
  - cbn [le_bytes le_uint]. rewrite Z_of_byte_of_Z, IH.
    replace (8 * Z.of_nat (S k)) with (8 + 8 * Z.of_nat k) by lia.
    rewrite Z.pow_add_r by lia. change (2 ^ 8) with 256.
    rewrite Z.rem_mul_r by lia. reflexivity.
Qed.

Lemma le_sint_le_bytes w v :
  (0 < w)%nat ->
  - 2 ^ (8 * Z.of_nat w - 1) <= v < 2 ^ (8 * Z.of_nat w - 1) ->
  le_sint (le_bytes w v) = v.
Proof.
  intros Hw Hv. unfold le_sint. rewrite le_uint_le_bytes, len_le_bytes.
  set (n := 8 * Z.of_nat w) in *.
  assert (Hp : 2 ^ n = 2 * 2 ^ (n - 1)).
  { replace n with (1 + (n - 1)) at 1 by lia.
    rewrite Z.pow_add_r by lia. reflexivity. }
  assert (Hpos : 0 < 2 ^ (n - 1)) by (apply Z.pow_pos_nonneg; lia).
  destruct (Z.ltb_spec (v mod 2 ^ n) (2 ^ (n - 1))) as [Hlt | Hge].
  - destruct (Z.neg_nonneg_cases v) as [Hneg | Hnn].
    + rewrite <- (Z.mod_unique v (2 ^ n) (-1) (v + 2 ^ n)) in Hlt by lia. lia.
    + apply Z.mod_small. lia.
  - destruct (Z.neg_nonneg_cases v) as [Hneg | Hnn].
    + rewrite <- (Z.mod_unique v (2 ^ n) (-1) (v + 2 ^ n)) by lia. lia.
    + rewrite Z.mod_small in Hge by lia. lia.
Qed.

Lemma pack_q_fits v : in_q v -> pack_q v = Return (le_bytes 8 v).
Proof.
  unfold in_q, pack_q, pack_signed. intro H.
  change (8 * Z.of_nat 8 - 1) with 63.
  destruct (Z.leb_spec (- 2 ^ 63) v); [| lia].
  destruct (Z.ltb_spec v (2 ^ 63)); [reflexivity | lia].
Qed.

Lemma pack_i_fits v : in_i v -> pack_i v = Return (le_bytes 4 v).
Proof.
  unfold in_i, pack_i, pack_signed. intro H.
  change (8 * Z.of_nat 4 - 1) with 31.
  destruct (Z.leb_spec (- 2 ^ 31) v); [| lia].
  destruct (Z.ltb_spec v (2 ^ 31)); [reflexivity | lia].
Qed.

Lemma pack_I_fits v : in_I v -> pack_I v = Return (le_bytes 4 v).
Proof.
  unfold in_I, pack_I, pack_unsigned. intro H.
  change (8 * Z.of_nat 4) with 32.
  destruct (Z.leb_spec 0 v); [| lia].
  destruct (Z.ltb_spec v (2 ^ 32)); [reflexivity | lia].
Qed.

Lemma pack_q_return v head : pack_q v = Return head -> in_q v /\ head = le_bytes 8 v.
Proof.
  unfold in_q, pack_q, pack_signed. change (8 * Z.of_nat 8 - 1) with 63.
  destruct (Z.leb_spec (- 2 ^ 63) v); [| discriminate].
  destruct (Z.ltb_spec v (2 ^ 63)); [| discriminate].
  simpl. intro Heq. injection Heq as <-. split; [lia | reflexivity].
Qed.

Lemma pack_i_return v head : pack_i v = Return head -> in_i v /\ head = le_bytes 4 v.
Proof.
  unfold in_i, pack_i, pack_signed. change (8 * Z.of_nat 4 - 1) with 31.
  destruct (Z.leb_spec (- 2 ^ 31) v); [| discriminate].
  destruct (Z.ltb_spec v (2 ^ 31)); [| discriminate].
  simpl. intro Heq. injection Heq as <-. split; [lia | reflexivity].
Qed.

Lemma opack_app_return a b r :
  opack_app a b = Return r -> exists x y, a = Return x /\ b = Return y /\ r = x ++ y.
Proof.
  unfold opack_app. destruct a as [x | e]; [| discriminate].
  destruct b as [y | e]; [| discriminate].
  intro H. injection H as <-. exists x, y. auto.
Qed.

Lemma pack_qii_return a b c head :
  pack_qii a b c = Return head ->
  in_q a /\ in_i b /\ in_i c /\ head = le_bytes 8 a ++ le_bytes 4 b ++ le_bytes 4 c.
Proof.
  unfold pack_qii. intro H.
  apply opack_app_return in H. destruct H as (x & y & Hx & Hy & ->).
  apply opack_app_return in Hy. destruct Hy as (y1 & y2 & Hy1 & Hy2 & ->).
  apply pack_q_return in Hx. apply pack_i_return in Hy1, Hy2.
  destruct Hx as [? ->], Hy1 as [? ->], Hy2 as [? ->]. auto.
Qed.

Lemma pack_qq_fits a b :
  in_q a -> in_q b -> pack_qq a b = Return (le_bytes 8 a ++ le_bytes 8 b).
Proof.
  intros Ha Hb. unfold pack_qq. rewrite (pack_q_fits a Ha), (pack_q_fits b Hb).
  reflexivity.
Qed.

Lemma pack_qiiIi_fits a b c d e :
  in_q a -> in_i b -> in_i c -> in_I d -> in_i e ->
  pack_qiiIi a b c d e
  = Return (le_bytes 8 a ++ le_bytes 4 b ++ le_bytes 4 c ++ le_bytes 4 d
            ++ le_bytes 4 e).
Proof.
  intros Ha Hb Hc Hd He. unfold pack_qiiIi.
  rewrite (pack_q_fits a Ha), (pack_i_fits b Hb), (pack_i_fits c Hc),
    (pack_I_fits d Hd), (pack_i_fits e He).
  reflexivity.
Qed.

Lemma skipn_twice {A : Type} (a b : nat) (l : list A) :
  skipn a (skipn b l) = skipn (b + a) l.
Proof.
  revert l. induction b as [| b IH]; intro l; simpl.
  - reflexivity.
  - destruct l as [| x r]; [destruct a; reflexivity | apply IH].
Qed.

(** *** [_finalize_plain], case by case *)

Lemma finalize_plain_empty s :
  _msg_count s = 0 -> _finalize_plain s = (Return [], s).
Proof.
  intro Hc. unfold _finalize_plain.
  run_bind ltac:(reflexivity). rewrite Hc. reflexivity.
Qed.

Lemma finalize_plain_single s :
  _msg_count s = 1 ->
  finalize_fits s ->
  _finalize_plain s
  = (Return (le_bytes 8 (current_salt s) ++ le_bytes 8 (_client_id s)
             ++ skipn 40 (_buffer s)),
     set_buffer [] (set_msg_count 0 s)).
Proof.
  intros Hc (Hs & Hi & _). unfold _finalize_plain.
  run_bind ltac:(reflexivity). rewrite Hc. change (1 =? 0) with false. cbv iota.
  change (1 =? 1) with true. cbv iota.
  run_bind ltac:(reflexivity).
  run_bind ltac:(reflexivity).
  run_bind ltac:(unfold lift; rewrite pack_qq_fits by assumption; reflexivity).
  run_bind ltac:(reflexivity).
  run_bind ltac:(reflexivity).
  cbn [_msg_count set_buffer]. rewrite Hc. change (1 =? 1) with true.
  cbn [negb]. cbv iota.
  run_bind ltac:(reflexivity).
  run_bind ltac:(reflexivity).
  run_bind ltac:(reflexivity).
  unfold bind, modify, ret, set_buffer, set_msg_count, slice_assign, del_prefix.
  cbn [_buffer _msg_count _auth_key _time_offset _salts _start_salt_time
       _client_id _sequence _last_msg_id _pending_ack _compression_threshold
       _rpc_results _updates clock_reads].
  change (Z.to_nat 0) with 0%nat. cbn [firstn app].
  change (Z.to_nat HEADER_LEN) with 16%nat.
  change (Z.to_nat CONTAINER_HEADER_LEN) with 24%nat.
  rewrite skipn_twice. change (24 + 16)%nat with 40%nat.
  rewrite <- app_assoc. reflexivity.
Qed.

Lemma slice_assign_twice (head chead buf : bytes) :
  length head = 16%nat ->
  40 <= len buf ->
  slice_assign HEADER_LEN (HEADER_LEN + CONTAINER_HEADER_LEN) chead
    (slice_assign 0 HEADER_LEN head buf)
  = head ++ chead ++ skipn 40 buf.
Proof.
  intros Hhead Hlen. unfold slice_assign.
  change (Z.to_nat 0) with 0%nat.
  change (Z.to_nat HEADER_LEN) with 16%nat.
  change (Z.to_nat (HEADER_LEN + CONTAINER_HEADER_LEN)) with 40%nat.
  rewrite firstn_O, app_nil_l.
  rewrite firstn_app, Hhead, Nat.sub_diag, firstn_O, app_nil_r.
  rewrite firstn_all2 by (rewrite Hhead; lia).
  rewrite skipn_app, Hhead.
  rewrite (skipn_all2 head) by (rewrite Hhead; lia).
  rewrite app_nil_l, skipn_twice. reflexivity.
Qed.

Lemma finalize_plain_container s :
  _msg_count s <> 0 ->
  _msg_count s <> 1 ->
  40 <= len (_buffer s) ->
  finalize_fits s ->
  _finalize_plain s
  = (Return (le_bytes 8 (current_salt s) ++ le_bytes 8 (_client_id s)
             ++ (le_bytes 8 (next_id s) ++ le_bytes 4 (_sequence s)
                 ++ le_bytes 4 (len (skipn 40 (_buffer s)) + 8)
                 ++ le_bytes 4 (constructor_id MsgContainer_)
                 ++ le_bytes 4 (_msg_count s))
             ++ skipn 40 (_buffer s)),
     set_buffer [] (set_msg_count 0
       (set_last_msg_id (next_id s) (set_clock_reads (S (clock_reads s)) s)))).
Proof.
  intros Hc0 Hc1 Hlen (Hs & Hi & Hrest).
  destruct (Hrest Hc1) as (Hid & Hseq & Hsize & Hctor & Hcount).
  apply Z.eqb_neq in Hc0, Hc1.
  assert (Hhead : length (le_bytes 8 (current_salt s) ++ le_bytes 8 (_client_id s))
                  = 16%nat).
  { rewrite length_app, !le_bytes_length. reflexivity. }
  assert (Hsz : len (_buffer s) - HEADER_LEN - CONTAINER_HEADER_LEN + 8
                = len (skipn 40 (_buffer s)) + 8).
  { unfold len in *. rewrite length_skipn.
    change HEADER_LEN with 16. change CONTAINER_HEADER_LEN with 24. lia. }
  unfold _finalize_plain.
  run_bind ltac:(reflexivity). rewrite Hc0, Hc1. cbv iota.
  run_bind ltac:(reflexivity).
  run_bind ltac:(reflexivity).
  run_bind ltac:(unfold lift; rewrite pack_qq_fits by assumption; reflexivity).
  run_bind ltac:(reflexivity).
  run_bind ltac:(reflexivity).
  cbn [_msg_count set_buffer]. rewrite Hc1. cbn [negb]. cbv iota.
  set (head := le_bytes 8 (current_salt s) ++ le_bytes 8 (_client_id s)) in *.
  assert (Hnew : len (slice_assign 0 HEADER_LEN head (_buffer s)) = len (_buffer s)).
  { unfold slice_assign, len. change (Z.to_nat 0) with 0%nat.
    change (Z.to_nat HEADER_LEN) with 16%nat. cbn [firstn app].
    rewrite length_app, Hhead, length_skipn. unfold len in Hlen. lia. }
  erewrite bind_return; cycle 1.
  { run_bind ltac:(apply get_new_msg_id_run).
    run_bind ltac:(reflexivity).
    run_bind ltac:(reflexivity).
    run_bind ltac:(unfold lift;
                   cbn [_buffer _msg_count set_buffer set_last_msg_id
                        set_clock_reads];
                   rewrite Hnew, Hsz;
                   rewrite pack_qiiIi_fits by
                     (first [assumption | rewrite <- Hsz; assumption]);
                   reflexivity).
    reflexivity. }
  cbv beta.
  run_bind ltac:(reflexivity).
  run_bind ltac:(reflexivity).
  run_bind ltac:(reflexivity).
  unfold ret.
  cbn [_buffer set_buffer set_msg_count set_last_msg_id set_clock_reads
       _last_msg_id clock_reads _time_offset _sequence].
  rewrite slice_assign_twice by assumption.
  unfold next_id. reflexivity.
Qed.

(** *** [_serialize_msg] and the phases of [push] *)

Lemma get_seq_no_run cr s :
  _get_seq_no cr s
  = (Return (next_seq cr s),
     if cr then set_sequence (_sequence s + 2) s else s).
Proof. destruct cr; reflexivity. Qed.

Lemma serialize_msg_run body cr s :
  _serialize_msg body cr s
  = match pack_qii (next_id s) (next_seq cr s) (len body) with
    | Return _ => (Return (next_id s), serialized body cr s)
    | Raise e => (Raise e, after_ids cr s)
    end.
Proof.
  unfold _serialize_msg.
  run_bind ltac:(apply get_new_msg_id_run).
  run_bind ltac:(apply get_seq_no_run).
  fold (next_id s).
  change (next_seq cr (set_last_msg_id (next_id s)
                         (set_clock_reads (S (clock_reads s)) s)))
    with (next_seq cr s).
  destruct (pack_qii (next_id s) (next_seq cr s) (len body)) as [head | e] eqn:Hp.
  - apply pack_qii_return in Hp. destruct Hp as (_ & _ & _ & ->).
    run_bind ltac:(reflexivity).
    unfold serialized, after_ids, frame.
    destruct cr; unfold bind, modify, ret; cbn; rewrite <- !app_assoc; reflexivity.
  - erewrite bind_raise; [| reflexivity].
    unfold after_ids. destruct cr; reflexivity.
Qed.

Lemma appends_refl s : appends s s.
Proof.
  exists []. split; [constructor | split].
  - simpl. rewrite app_nil_r. reflexivity.
  - simpl. unfold len. simpl. lia.
Qed.

Lemma appends_trans a b c : appends a b -> appends b c -> appends a c.
Proof.
  intros (x & Hx & Hb & Hc) (y & Hy & Hb' & Hc').
  exists (x ++ y). split; [apply Forall_app; auto | split].
  - rewrite Hb', Hb, concat_app, app_assoc. reflexivity.
  - rewrite Hc', Hc, len_app. lia.
Qed.

Ltac appends_leaf :=
  exists []; split; [constructor | split; simpl;
    [rewrite app_nil_r; reflexivity | unfold len; simpl; lia]].
Ltac appends_steps := steps_split appends_refl appends_trans appends_leaf.

Lemma now_appends : steps appends now_.
Proof. intro s. simpl. appends_leaf. Qed.
Hint Resolve now_appends : steps.

Lemma serialize_msg_appends body cr : steps appends (_serialize_msg body cr).
Proof.
  intro s. rewrite serialize_msg_run.
  destruct (pack_qii (next_id s) (next_seq cr s) (len body)); simpl.
  - exists [frame (next_id s) (next_seq cr s) body].
    split; [repeat constructor; do 3 eexists; reflexivity |].
    unfold serialized, after_ids. destruct cr; simpl; rewrite app_nil_r;
      split; reflexivity.
  - unfold after_ids. destruct cr; simpl; appends_leaf.
Qed.
Hint Resolve serialize_msg_appends : steps.

Lemma flush_acks_appends : steps appends flush_acks.
Proof. unfold flush_acks. appends_steps. Qed.

Lemma rotate_salts_appends : steps appends rotate_salts.
Proof. unfold rotate_salts. appends_steps. Qed.

Lemma stage_request_appends request : steps appends (stage_request request).
Proof. unfold stage_request. appends_steps. Qed.
Hint Resolve flush_acks_appends rotate_salts_appends stage_request_appends : steps.

Lemma reserve_header_run s : reserve_header s = (Return tt, reserved s).
Proof.
  unfold reserve_header, reserved, bind, get.
  destruct (is_empty (_buffer s)); reflexivity.
Qed.

Lemma push_after_reserve request s :
  push request s
  = (bind flush_acks (fun _ => bind rotate_salts (fun _ => stage_request request)))
      (reserved s).
Proof. unfold push. run_bind ltac:(apply reserve_header_run). reflexivity. Qed.

Lemma push_appends request s : appends (reserved s) (snd (push request s)).
Proof.
  rewrite push_after_reserve.
  assert (H : steps appends
                (bind flush_acks
                   (fun _ => bind rotate_salts (fun _ => stage_request request))))
    by appends_steps.
  apply H.
Qed.

Lemma staged_reserved s frames :
  staged s frames ->
  _msg_count (reserved s) = len frames /\
  Forall is_frame frames /\
  _buffer (reserved s)
  = zeros (HEADER_LEN + CONTAINER_HEADER_LEN) ++ concat frames.
Proof.
  intros (Hc & Hf & [[Hb ->] | Hb]); unfold reserved; rewrite Hb.
  - simpl. repeat split; auto.
  - change (HEADER_LEN + CONTAINER_HEADER_LEN) with 40. simpl. auto.
Qed.

Lemma staged_appends s s' frames :
  staged s frames ->
  appends (reserved s) s' ->
  exists added,
    staged s' (frames ++ added) /\
    _buffer s' = _buffer (reserved s) ++ concat added /\
    _msg_count s' = _msg_count s + len added.
Proof.
  intros Hs (added & Ha & Hb & Hc).
  pose proof (staged_reserved s frames Hs) as (Hc0 & Hf & Hb0).
  exists added. split; [| split; [exact Hb |]].
  - split; [rewrite Hc, Hc0, len_app; reflexivity |].
    split; [apply Forall_app; auto |].
    right. rewrite Hb, Hb0, concat_app, app_assoc. reflexivity.
  - rewrite Hc. destruct Hs as (Hc1 & _). rewrite Hc0, Hc1. reflexivity.
Qed.

(** The staged messages after a [push] are those before it followed by the
    whole messages that the call serialized. *)
Lemma push_staged request s frames :
  staged s frames ->
  exists added,
    staged (snd (push request s)) (frames ++ added) /\
    _msg_count (snd (push request s)) = _msg_count s + len added.
Proof.
  intro Hs.
  destruct (staged_appends s _ frames Hs (push_appends request s))
    as (added & H1 & _ & H2).
  exists added. auto.
Qed.

(** *** Pushes with nothing to acknowledge and no salt to rotate *)

Lemma flush_acks_idle s : _pending_ack s = [] -> flush_acks s = (Return tt, s).
Proof. intro H. unfold flush_acks, bind, get. rewrite H. reflexivity. Qed.

Lemma rotate_salts_idle s :
  _start_salt_time s = None \/ len (_salts s) < 2 ->
  rotate_salts s = (Return tt, s).
Proof.
  intro H. unfold rotate_salts, bind, get.
  destruct (_start_salt_time s) as [[start_secs start_instant] |].
  - destruct H as [H | H]; [discriminate |].
    destruct (Z.leb_spec 2 (len (_salts s))); [lia | reflexivity].
  - reflexivity.
Qed.

Lemma reserved_frame s :
  _pending_ack (reserved s) = _pending_ack s /\
  _start_salt_time (reserved s) = _start_salt_time s /\
  _salts (reserved s) = _salts s /\
  _msg_count (reserved s) = _msg_count s /\
  _rpc_results (reserved s) = _rpc_results s /\
  _client_id (reserved s) = _client_id s.
Proof. unfold reserved. destruct (is_empty (_buffer s)); repeat split. Qed.

Lemma push_quiet request s :
  quiet s -> push request s = stage_request request (reserved s).
Proof.
  intros [Ha Ht]. rewrite push_after_reserve.
  destruct (reserved_frame s) as (Ha' & Ht' & _).
  run_bind ltac:(apply flush_acks_idle; congruence).
  run_bind ltac:(apply rotate_salts_idle; left; congruence).
  reflexivity.
Qed.

Lemma stage_tail_run body s :
  (bind (_serialize_msg body true) (fun msg_id => ret (Some msg_id))) s
  = match pack_qii (next_id s) (next_seq true s) (len body) with
    | Return _ => (Return (Some (next_id s)), serialized body true s)
    | Raise e => (Raise e, after_ids true s)
    end.
Proof.
  unfold bind. rewrite serialize_msg_run.
  destruct (pack_qii (next_id s) (next_seq true s) (len body)); reflexivity.
Qed.

(** The four ways [stage_request] ends. *)
Lemma stage_request_cases request s :
  stage_request request s = (Return None, s) \/
  stage_request request s = (Raise AssertionError, s) \/
  stage_request request s = (Raise StructError, after_ids true s) \/
  (stage_request request s
   = (Return (Some (next_id s)), serialized (body_of_request request s) true s) /\
   _msg_count s <> CONTAINER_MAX_LENGTH /\
   len (_buffer s) + len (body_of_request request s) + MESSAGE_SIZE_OVERHEAD
   < CONTAINER_MAX_SIZE).
Proof.
  unfold stage_request.
  rewrite (bind_return get _ s s s eq_refl).
  destruct (Z.eqb_spec (_msg_count s) CONTAINER_MAX_LENGTH) as [Hm | Hm];
    [left; reflexivity |].
  destruct (len request + MESSAGE_SIZE_OVERHEAD <=? CONTAINER_MAX_SIZE);
    [| right; left; reflexivity].
  rewrite (bind_return (assert true) _ s tt s eq_refl).
  destruct (len request mod 4 =? 0); [| right; left; reflexivity].
  rewrite (bind_return (assert true) _ s tt s eq_refl).
  cbv zeta.
  destruct (Z.geb_spec
              (len (_buffer s) + len (body_of_request request s)
               + MESSAGE_SIZE_OVERHEAD) CONTAINER_MAX_SIZE) as [Hs | Hs];
    [left; reflexivity |].
  rewrite stage_tail_run.
  destruct (pack_qii (next_id s) (next_seq true s)
              (len (body_of_request request s))) as [head | e] eqn:Hp.
  - right; right; right. split; [reflexivity | split; [exact Hm | lia]].
  - right; right; left.
    rewrite (pack_qii_struct_error _ _ _ _ Hp). reflexivity.
Qed.

Lemma quiet_frame s s' :
  _pending_ack s' = _pending_ack s ->
  _start_salt_time s' = _start_salt_time s ->
  quiet s -> quiet s'.
Proof. unfold quiet. intros -> ->. auto. Qed.

Lemma after_ids_frame cr s :
  _pending_ack (after_ids cr s) = _pending_ack s /\
  _start_salt_time (after_ids cr s) = _start_salt_time s /\
  _buffer (after_ids cr s) = _buffer s /\
  _msg_count (after_ids cr s) = _msg_count s /\
  _salts (after_ids cr s) = _salts s.
Proof. unfold after_ids. destruct cr; repeat split. Qed.

Lemma serialized_frame body cr s :
  _pending_ack (serialized body cr s) = _pending_ack s /\
  _start_salt_time (serialized body cr s) = _start_salt_time s /\
  _buffer (serialized body cr s)
  = _buffer s ++ frame (next_id s) (next_seq cr s) body /\
  _msg_count (serialized body cr s) = _msg_count s + 1 /\
  _salts (serialized body cr s) = _salts s.
Proof. unfold serialized, after_ids. destruct cr; repeat split. Qed.

(** A push of a quiet session stages the request, under the id it
    returns, or nothing. *)
Lemma push_quiet_staged request s frames :
  staged s frames ->
  quiet s ->
  quiet (snd (push request s)) /\
  match fst (push request s) with
  | Return (Some id) =>
      exists f, frame_of_id id f /\ staged (snd (push request s)) (frames ++ [f])
  | _ => staged (snd (push request s)) frames
  end.
Proof.
  intros Hs Hq. rewrite (push_quiet request s Hq).
  destruct (staged_reserved s frames Hs) as (Hc & Hf & Hb).
  destruct (reserved_frame s) as (Ha & Ht & _).
  assert (Hq' : quiet (reserved s)) by (apply (quiet_frame s); assumption).
  assert (Hs' : staged (reserved s) frames)
    by (split; [exact Hc | split; [exact Hf | right; exact Hb]]).
  destruct (stage_request_cases request (reserved s))
    as [H | [H | [H | (H & _ & _)]]]; rewrite H; cbn [fst snd].
  - auto.
  - auto.
  - destruct (after_ids_frame true (reserved s)) as (E1 & E2 & E3 & E4 & _).
    split; [apply (quiet_frame (reserved s)); assumption |].
    split; [congruence | split; [exact Hf | right; congruence]].
  - destruct (serialized_frame (body_of_request request (reserved s)) true
                (reserved s)) as (E1 & E2 & E3 & E4 & _).
    split; [apply (quiet_frame (reserved s)); assumption |].
    eexists. split; [do 2 eexists; reflexivity |].
    split; [rewrite E4, Hc, len_app; reflexivity |].
    split; [apply Forall_app; split; [exact Hf |];
            repeat constructor; do 3 eexists; reflexivity |].
    right. rewrite E3, Hb, concat_app. cbn [concat].
    rewrite app_nil_r, <- app_assoc. reflexivity.
Qed.

Lemma push_all_quiet_staged requests :
  forall s frames results s',
    staged s frames ->
    quiet s ->
    push_all requests s = (Return results, s') ->
    quiet s' /\
    exists added,
      staged s' (frames ++ added) /\
      Forall2 frame_of_id (returned results) added.
Proof.
  induction requests as [| request rest IH]; intros s frames results s' Hs Hq Hrun.
  - simpl in Hrun. injection Hrun as <- <-.
    split; [exact Hq |]. exists []. rewrite app_nil_r. split; [exact Hs | constructor].
  - cbn [push_all] in Hrun.
    apply bind_return_inv in Hrun. destruct Hrun as (r & s1 & Hp & Hrun).
    apply bind_return_inv in Hrun. destruct Hrun as (rs & s2 & Hrest & Hret).
    injection Hret as <- <-.
    pose proof (push_quiet_staged request s frames Hs Hq) as [Hq1 Hst].
    rewrite Hp in Hq1, Hst. simpl in Hq1, Hst.
    destruct r as [id |].
    + destruct Hst as (f & Hf & Hst).
      destruct (IH s1 (frames ++ [f]) rs s2 Hst Hq1 Hrest) as (Hq2 & added & Hs2 & Hall).
      split; [exact Hq2 |]. exists (f :: added).
      split; [rewrite <- app_assoc in Hs2; exact Hs2 |].
      simpl. constructor; assumption.
    + destruct (IH s1 frames rs s2 Hst Hq1 Hrest) as (Hq2 & added & Hs2 & Hall).
      split; [exact Hq2 |]. exists added. split; assumption.
Qed.

(** *** The frame that [_finalize_plain] emits *)

Lemma field_at (pre x rest : bytes) (k w : nat) :
  length pre = k -> length x = w ->
  firstn w (skipn k (pre ++ x ++ rest)) = x.
Proof.
  intros Hk Hw.
  rewrite skipn_app, Hk, Nat.sub_diag, skipn_all2 by lia.
  cbn [skipn app]. rewrite firstn_app, Hw, Nat.sub_diag, firstn_O, app_nil_r.
  apply firstn_all2. lia.
Qed.

Lemma count_field_at (h a b c d e rest : bytes) :
  length h = 16%nat -> length a = 8%nat -> length b = 4%nat ->
  length c = 4%nat -> length d = 4%nat -> length e = 4%nat ->
  firstn 4 (skipn 36 (h ++ (a ++ b ++ c ++ d ++ e) ++ rest)) = e.
Proof.
  intros Hh Ha Hb Hc Hd He.
  replace (h ++ (a ++ b ++ c ++ d ++ e) ++ rest)
    with ((h ++ a ++ b ++ c ++ d) ++ e ++ rest)
    by (rewrite <- !app_assoc; reflexivity).
  apply field_at; [rewrite !length_app; lia | exact He].
Qed.

Lemma skipn_zeros_app (rest : bytes) :
  skipn 40 (zeros (HEADER_LEN + CONTAINER_HEADER_LEN) ++ rest) = rest.
Proof.
  rewrite skipn_app.
  assert (H : length (zeros (HEADER_LEN + CONTAINER_HEADER_LEN)) = 40%nat)
    by (unfold zeros; rewrite repeat_length; reflexivity).
  rewrite H, Nat.sub_diag, skipn_all2 by lia. reflexivity.
Qed.

Lemma len_zeros_app (rest : bytes) :
  len (zeros (HEADER_LEN + CONTAINER_HEADER_LEN) ++ rest) = 40 + len rest.
Proof.
  rewrite len_app. unfold len at 1, zeros. rewrite repeat_length. reflexivity.
Qed.

(** The shape of the plaintext by the number of staged messages. *)
Lemma finalize_plain_shape s frames :
  staged s frames ->
  finalize_fits s ->
  let header := le_bytes 8 (current_salt s) ++ le_bytes 8 (_client_id s) in
  exists out s',
    _finalize_plain s = (Return out, s') /\
    _msg_count s' = 0 /\
    match frames with
    | [] => out = []
    | [f] => out = header ++ f
    | _ =>
        exists container_msg_id container_seq_no,
          out = header
                ++ (le_bytes 8 container_msg_id ++ le_bytes 4 container_seq_no
                    ++ le_bytes 4 (len (concat frames) + 8)
                    ++ le_bytes 4 (constructor_id MsgContainer_)
                    ++ le_bytes 4 (len frames))
                ++ concat frames /\
          le_sint (firstn 4 (skipn 36 out)) = len frames
    end.
Proof.
  intros (Hc & Hf & Hb) Hfits header.
  destruct frames as [| f [| g rest]].
  - exists [], s. split; [apply finalize_plain_empty; exact Hc |].
    split; [exact Hc | reflexivity].
  - destruct Hb as [[_ Hb] | Hb]; [discriminate |].
    do 2 eexists. split; [apply finalize_plain_single; [exact Hc | exact Hfits] |].
    split; [reflexivity |].
    rewrite Hb, skipn_zeros_app. cbn [concat]. rewrite app_nil_r.
    unfold header. rewrite <- app_assoc. reflexivity.
  - destruct Hb as [[_ Hb] | Hb]; [discriminate |].
    set (frames := f :: g :: rest) in *.
    assert (Hn : 2 <= len frames).
    { unfold frames, len. cbn [length]. lia. }
    assert (Hfits' := Hfits).
    destruct Hfits' as (_ & _ & Hrest).
    destruct Hrest as (_ & _ & _ & _ & Hcount); [lia |].
    do 2 eexists. split; [apply finalize_plain_container; try lia |].
    + rewrite Hb, len_zeros_app. pose proof (len_nonneg (concat frames)). lia.
    + exact Hfits.
    + split; [reflexivity |].
      rewrite Hb, skipn_zeros_app, Hc.
      do 2 eexists. split; [unfold header; rewrite <- !app_assoc; reflexivity |].
      rewrite (app_assoc (le_bytes 8 (current_salt s))).
      rewrite count_field_at
        by (rewrite ?length_app, !le_bytes_length; reflexivity).
      apply le_sint_le_bytes; [lia |].
      rewrite Hc in Hcount. exact Hcount.
Qed.

(** C3, as the code has it.  After a sequence of [push] calls that started
    with nothing staged, on a session with no acknowledgement pending and
    no salt time recorded, the staged messages are those of the calls that
    returned a [MsgId], one each and in order; [finalize] then emits
    nothing when there is none, the header followed directly by the one
    message when there is exactly one, and otherwise a [msg_container]
    whose count field is their number. *)
Theorem container_shape (s0 s1 : Encrypted) (requests : list bytes)
    (results : list (option MsgId)) :
  staged s0 [] ->
  quiet s0 ->
  push_all requests s0 = (Return results, s1) ->
  finalize_fits s1 ->
  let header := le_bytes 8 (current_salt s1) ++ le_bytes 8 (_client_id s1) in
  exists frames out s2,
    staged s1 frames /\
    Forall2 frame_of_id (returned results) frames /\
    len frames = returned_ids results /\
    _finalize_plain s1 = (Return out, s2) /\
    _msg_count s2 = 0 /\
    match frames with
    | [] => out = []
    | [f] => out = header ++ f
    | _ =>
        exists container_msg_id container_seq_no,
          out = header
                ++ (le_bytes 8 container_msg_id ++ le_bytes 4 container_seq_no
                    ++ le_bytes 4 (len (concat frames) + 8)
                    ++ le_bytes 4 (constructor_id MsgContainer_)
                    ++ le_bytes 4 (returned_ids results))
                ++ concat frames /\
          le_sint (firstn 4 (skipn 36 out)) = returned_ids results
    end.
Proof.
  intros Hs Hq Hrun Hfits header.
  destruct (push_all_quiet_staged requests s0 [] results s1 Hs Hq Hrun)
    as (_ & frames & Hst & Hall).
  cbn [app] in Hst.
  assert (Hlen : len frames = returned_ids results).
  { unfold returned_ids, len. rewrite (Forall2_length Hall). reflexivity. }
  destruct (finalize_plain_shape s1 frames Hst Hfits) as (out & s2 & Hf & Hc & Hshape).
  exists frames, out, s2. repeat (split; [assumption |]).
  rewrite <- Hlen. exact Hshape.
Qed.

(** *** The phases of [push] in general *)

Lemma flush_acks_run s :
  flush_acks s
  = if is_empty (_pending_ack s) then (Return tt, s)
    else
      match pack_qii (next_id s) (next_seq false s)
              (len (MsgsAck_to_bytes (_pending_ack s))) with
      | Return _ =>
          (Return tt,
           set_pending_ack []
             (serialized (MsgsAck_to_bytes (_pending_ack s)) false s))
      | Raise e => (Raise e, after_ids false s)
      end.
Proof.
  unfold flush_acks. rewrite (bind_return get _ s s s eq_refl).
  destruct (is_empty (_pending_ack s)); [reflexivity |]. cbn [negb].
  unfold bind at 1. rewrite serialize_msg_run.
  destruct (pack_qii (next_id s) (next_seq false s)
              (len (MsgsAck_to_bytes (_pending_ack s)))); reflexivity.
Qed.

Lemma salts_same_refl s : salts_same s s.
Proof. reflexivity. Qed.

Lemma salts_same_trans a b c : salts_same a b -> salts_same b c -> salts_same a c.
Proof. unfold salts_same. congruence. Qed.

Lemma ack_same_refl s : ack_same s s.
Proof. reflexivity. Qed.

Lemma ack_same_trans a b c : ack_same a b -> ack_same b c -> ack_same a c.
Proof. unfold ack_same. congruence. Qed.

Ltac salts_steps :=
  steps_split salts_same_refl salts_same_trans ltac:(reflexivity).
Ltac ack_steps :=
  steps_split ack_same_refl ack_same_trans ltac:(reflexivity).

Lemma now_salts_same : steps salts_same now_.
Proof. intro s. reflexivity. Qed.

Lemma now_ack_same : steps ack_same now_.
Proof. intro s. reflexivity. Qed.
Hint Resolve now_salts_same now_ack_same : steps.

Lemma serialize_msg_salts_same body cr : steps salts_same (_serialize_msg body cr).
Proof. unfold _serialize_msg, _get_new_msg_id, _get_seq_no. salts_steps. Qed.

Lemma serialize_msg_ack_same body cr : steps ack_same (_serialize_msg body cr).
Proof. unfold _serialize_msg, _get_new_msg_id, _get_seq_no. ack_steps. Qed.
Hint Resolve serialize_msg_salts_same serialize_msg_ack_same : steps.

Lemma flush_acks_salts_same : steps salts_same flush_acks.
Proof. unfold flush_acks. salts_steps. Qed.

Lemma stage_request_salts_same request : steps salts_same (stage_request request).
Proof. unfold stage_request. salts_steps. Qed.

Lemma rotate_salts_ack_same : steps ack_same rotate_salts.
Proof. unfold rotate_salts. ack_steps. Qed.

Lemma stage_request_ack_same request : steps ack_same (stage_request request).
Proof. unfold stage_request. ack_steps. Qed.

(** [stage_request] that reports no capacity has changed nothing. *)
Lemma stage_request_none request s s' :
  stage_request request s = (Return None, s') -> s' = s.
Proof.
  destruct (stage_request_cases request s) as [H | [H | [H | (H & _)]]];
    rewrite H; intro E; congruence.
Qed.

Lemma stage_request_some request s id s' :
  stage_request request s = (Return (Some id), s') ->
  id = next_id s /\
  s' = serialized (body_of_request request s) true s /\
  _msg_count s <> CONTAINER_MAX_LENGTH /\
  len (_buffer s) + len (body_of_request request s) + MESSAGE_SIZE_OVERHEAD
  < CONTAINER_MAX_SIZE.
Proof.
  destruct (stage_request_cases request s) as [H | [H | [H | (H & Hm & Hs)]]];
    rewrite H; intro E; try discriminate.
  injection E as <- <-. auto.
Qed.

(** The runs of [push] that return, phase by phase. *)
Lemma push_return_inv request s r s' :
  push request s = (Return r, s') ->
  exists s1 s2,
    flush_acks (reserved s) = (Return tt, s1) /\
    rotate_salts s1 = (Return tt, s2) /\
    stage_request request s2 = (Return r, s').
Proof.
  rewrite push_after_reserve. intro H.
  apply bind_return_inv in H. destruct H as ([] & s1 & H1 & H).
  apply bind_return_inv in H. destruct H as ([] & s2 & H2 & H3).
  exists s1, s2. auto.
Qed.

(** With fewer than two salts there is nothing to rotate. *)
Lemma push_single_salt request s :
  len (_salts s) < 2 ->
  push request s
  = (bind flush_acks (fun _ => stage_request request)) (reserved s) /\
  _salts (snd (push request s)) = _salts s.
Proof.
  intro Hl. rewrite push_after_reserve.
  destruct (reserved_frame s) as (_ & _ & Hsalts & _).
  pose proof (flush_acks_salts_same (reserved s)) as Hf. unfold salts_same in Hf.
  assert (E : (bind flush_acks
                 (fun _ => bind rotate_salts (fun _ => stage_request request)))
                (reserved s)
              = (bind flush_acks (fun _ => stage_request request)) (reserved s)).
  { unfold bind at 1 3.
    destruct (flush_acks (reserved s)) as [[[] | e] s1]; [| reflexivity].
    simpl in Hf.
    run_bind ltac:(apply rotate_salts_idle; right; rewrite Hf, Hsalts; exact Hl).
    reflexivity. }
  rewrite E. split; [reflexivity |].
  assert (Hst : steps salts_same (bind flush_acks (fun _ => stage_request request))).
  { apply (steps_bind _ salts_same_trans);
      [apply flush_acks_salts_same | intro; apply stage_request_salts_same]. }
  rewrite (Hst (reserved s)). exact Hsalts.
Qed.

(** *** [bad_server_salt] *)

Lemma threshold_same_refl s : threshold_same s s.
Proof. reflexivity. Qed.

Lemma threshold_same_trans a b c :
  threshold_same a b -> threshold_same b c -> threshold_same a c.
Proof. unfold threshold_same. congruence. Qed.

Ltac threshold_steps :=
  steps_split threshold_same_refl threshold_same_trans ltac:(reflexivity).

Lemma now_threshold_same : steps threshold_same now_.
Proof. intro s. reflexivity. Qed.
Hint Resolve now_threshold_same : steps.

Lemma serialize_msg_threshold_same body cr :
  steps threshold_same (_serialize_msg body cr).
Proof. unfold _serialize_msg, _get_new_msg_id, _get_seq_no. threshold_steps. Qed.
Hint Resolve serialize_msg_threshold_same : steps.

Lemma flush_acks_threshold_same : steps threshold_same flush_acks.
Proof. unfold flush_acks. threshold_steps. Qed.

Lemma rotate_salts_threshold_same : steps threshold_same rotate_salts.
Proof. unfold rotate_salts. threshold_steps. Qed.

Lemma body_of_request_threshold request s s' :
  _compression_threshold s' = _compression_threshold s ->
  body_of_request request s' = body_of_request request s.
Proof. unfold body_of_request. intros ->. reflexivity. Qed.

Lemma staged_frame s s' frames :
  _buffer s' = _buffer s -> _msg_count s' = _msg_count s ->
  staged s frames -> staged s' frames.
Proof. unfold staged. intros -> ->. auto. Qed.

Lemma ack_noted_frame m s :
  _buffer (ack_noted m s) = _buffer s /\
  _msg_count (ack_noted m s) = _msg_count s /\
  _rpc_results (ack_noted m s) = _rpc_results s /\
  _compression_threshold (ack_noted m s) = _compression_threshold s.
Proof. unfold ack_noted. destruct (message_requires_ack m); repeat split. Qed.

Lemma handle_bad_server_salt m b s bad_msg_id bad_msg_seqno error_code salt :
  body m = PyBytes b ->
  AbcBadMsgNotification_from_bytes b
  = Some (BadServerSalt bad_msg_id bad_msg_seqno error_code salt) ->
  _handle_bad_notification m s
  = (bind (push (get_future_salts NUM_FUTURE_SALTS)) (fun _ => ret tt))
      (salt_replaced bad_msg_id error_code salt s).
Proof.
  intros Hb Hp. unfold _handle_bad_notification. rewrite Hb.
  run_bind ltac:(reflexivity).
  run_bind ltac:(rewrite Hp; reflexivity).
  cbv iota.
  run_bind ltac:(reflexivity).
  run_bind ltac:(reflexivity).
  run_bind ltac:(reflexivity).
  reflexivity.
Qed.

(** The staged request of a [push] that returned an id closes the buffer. *)
Lemma push_some_buffer request s id s' :
  push request s = (Return (Some id), s') ->
  exists pre seq_no,
    _buffer s' = pre ++ frame id seq_no (body_of_request request s) /\
    _msg_count s < _msg_count s'.
Proof.
  intro H. apply push_return_inv in H. destruct H as (s1 & s2 & H1 & H2 & H3).
  apply stage_request_some in H3. destruct H3 as (-> & -> & _).
  destruct (serialized_frame (body_of_request request s2) true s2)
    as (_ & _ & Hb & Hc & _).
  pose proof (flush_acks_threshold_same (reserved s)) as T1.
  pose proof (rotate_salts_threshold_same s1) as T2.
  pose proof (flush_acks_appends (reserved s)) as (a1 & _ & _ & C1).
  pose proof (rotate_salts_appends s1) as (a2 & _ & _ & C2).
  rewrite H1 in T1, C1. rewrite H2 in T2, C2.
  unfold threshold_same in *. cbn [snd] in *.
  assert (Ht : _compression_threshold s2 = _compression_threshold s).
  { rewrite T2, T1. unfold reserved. destruct (is_empty (_buffer s)); reflexivity. }
  exists (_buffer s2), (next_seq true s2). split.
  - rewrite Hb, (body_of_request_threshold request s s2 Ht). reflexivity.
  - destruct (reserved_frame s) as (_ & _ & _ & Hm & _).
    pose proof (len_nonneg a1). pose proof (len_nonneg a2). lia.
Qed.

(** C7, as the code has it.  The dispatch of a [bad_server_salt] appends
    [(bad_msg_id, error)] to [rpc_results], leaves the new server salt as
    the only entry of the salt store and calls [push] with
    [get_future_salts(64)]; when that [push] returns a [MsgId] the request
    closes the buffer; and the header that the next [finalize] writes
    starts with the new salt. *)
Theorem bad_server_salt_replaces_salt (depth : nat) (m : Message) (b : bytes)
    (s : Encrypted) (frames : list bytes)
    (bad_msg_id bad_msg_seqno error_code new_server_salt : Z) :
  body m = PyBytes b ->
  4 <= len b ->
  handler_for (le_uint (firstn 4 b)) = H_bad_notification ->
  AbcBadMsgNotification_from_bytes b
  = Some (BadServerSalt bad_msg_id bad_msg_seqno error_code new_server_salt) ->
  staged s frames ->
  let request := get_future_salts NUM_FUTURE_SALTS in
  let s1 := salt_replaced bad_msg_id error_code new_server_salt (ack_noted m s) in
  let s' := snd (_process_message (S depth) m s) in
  _rpc_results s' = _rpc_results s ++ [(bad_msg_id, BadMsgError error_code)] /\
  _salts s' = [mkFutureSalt 0 0x7FFFFFFF new_server_salt] /\
  s' = snd (push request s1) /\
  (forall id,
      fst (push request s1) = Return (Some id) ->
      fst (_process_message (S depth) m s) = Return tt /\
      exists pre seq_no,
        _buffer s' = pre ++ frame id seq_no (body_of_request request s) /\
        _msg_count s < _msg_count s') /\
  (finalize_fits s' ->
   exists out s2,
     _finalize_plain s' = (Return out, s2) /\
     (_msg_count s' <> 0 ->
      firstn 8 out = le_bytes 8 new_server_salt /\
      le_sint (firstn 8 out) = new_server_salt)).
Proof.
  intros Hb Hl Hh Hp Hs request s1 s'.
  assert (Hrun : _process_message (S depth) m s
                 = (bind (push request) (fun _ => ret tt)) s1).
  { rewrite (process_message_step depth m b s Hb Hl), Hh. cbn [run_handler].
    apply handle_bad_server_salt with (b := b) (bad_msg_seqno := bad_msg_seqno);
      assumption. }
  assert (Hs' : s' = snd (push request s1)).
  { unfold s'. rewrite Hrun. unfold bind.
    destruct (push request s1) as [[r | e] s2]; reflexivity. }
  destruct (ack_noted_frame m s) as (Ab & Ac & Ar & At).
  assert (Hsalts : _salts s' = [mkFutureSalt 0 0x7FFFFFFF new_server_salt]).
  { rewrite Hs'.
    destruct (push_single_salt request s1) as [_ E]; [| rewrite E; reflexivity].
    unfold s1, salt_replaced, len. cbn. lia. }
  assert (Hs1 : staged s1 frames).
  { apply (staged_frame (ack_noted m s)); [reflexivity | reflexivity |].
    apply (staged_frame s); assumption. }
  split; [| split; [exact Hsalts | split; [exact Hs' |]]].
  - rewrite Hs'. destruct (push_queues_same request s1) as [E _].
    rewrite E. unfold s1, salt_replaced. cbn. rewrite Ar. reflexivity.
  - split.
    + intros id Hid.
      destruct (push request s1) as [[r | e] s2] eqn:Hpush; [| discriminate].
      cbn [fst] in Hid. injection Hid as ->.
      split; [rewrite Hrun; unfold bind; rewrite Hpush; reflexivity |].
      destruct (push_some_buffer request s1 id s2 Hpush) as (pre & seq_no & E1 & E2).
      exists pre, seq_no. rewrite Hs'. cbn [snd]. split.
      * rewrite E1. f_equal. f_equal.
        apply body_of_request_threshold. unfold s1, salt_replaced. cbn. exact At.
      * unfold s1, salt_replaced in E2. cbn in E2. rewrite Ac in E2. exact E2.
    + intro Hfits.
      destruct (push_staged request s1 frames Hs1) as (added & Hst & _).
      rewrite <- Hs' in Hst.
      destruct (finalize_plain_shape s' (frames ++ added) Hst Hfits)
        as (out & s2 & Hf & _ & Hshape).
      exists out, s2. split; [exact Hf |]. intro Hne.
      destruct Hfits as (Hq & _).
      assert (Hcur : current_salt s' = new_server_salt)
        by (unfold current_salt; rewrite Hsalts; reflexivity).
      assert (Hout : exists rest, out = le_bytes 8 new_server_salt ++ rest).
      { destruct Hst as (Hc & _).
        destruct (frames ++ added) as [| f [| g rest]].
        - exfalso. apply Hne. rewrite Hc. reflexivity.
        - rewrite Hshape, Hcur, <- app_assoc. eexists. reflexivity.
        - destruct Hshape as (i1 & i2 & -> & _).
          rewrite Hcur, <- app_assoc. eexists. reflexivity. }
      destruct Hout as (rest & ->).
      assert (E : firstn 8 (le_bytes 8 new_server_salt ++ rest)
                  = le_bytes 8 new_server_salt).
      { rewrite firstn_app, le_bytes_length, Nat.sub_diag, firstn_O, app_nil_r.
        apply firstn_all2. rewrite le_bytes_length. lia. }
      rewrite E. split; [reflexivity |].
      apply le_sint_le_bytes; [lia |]. rewrite Hcur in Hq. exact Hq.
Qed.

(** *** A [push] that reports no capacity *)

Lemma rotate_salts_return s s2 :
  rotate_salts s = (Return tt, s2) ->
  (_salts s2 = _salts s /\ appends s s2) \/
  (_salts s2 = removelast (_salts s) /\
   (len (_salts s2) = 1 ->
    _msg_count s < _msg_count s2 /\
    exists pre id seq_no,
      _buffer s2 = pre ++ frame id seq_no (get_future_salts NUM_FUTURE_SALTS))).
Proof.
  unfold rotate_salts. rewrite (bind_return get _ s s s eq_refl).
  destruct (_start_salt_time s) as [[start_secs start_instant] |].
  2:{ intro H. injection H as <-. left. split; [reflexivity | apply appends_refl]. }
  destruct (2 <=? len (_salts s)).
  2:{ intro H. injection H as <-. left. split; [reflexivity | apply appends_refl]. }
  cbv zeta.
  rewrite (bind_return now_ _ s (time_time (clock_reads s))
             (set_clock_reads (S (clock_reads s)) s) eq_refl).
  destruct (_ >=? _).
  2:{ intro H. injection H as <-. left. split; [reflexivity |].
      exists []. split; [constructor | split; simpl;
        [rewrite app_nil_r; reflexivity | unfold len; simpl; lia]]. }
  erewrite bind_return with (s1 := popped s) by reflexivity.
  rewrite (bind_return get _ (popped s) (popped s) (popped s) eq_refl).
  destruct (Z.eqb_spec (len (_salts (popped s))) 1) as [H1 | H1].
  - unfold bind. rewrite serialize_msg_run.
    destruct (pack_qii _ _ _); [| discriminate].
    intro H. injection H as <-. right.
    destruct (serialized_frame (get_future_salts NUM_FUTURE_SALTS) true (popped s))
      as (_ & _ & Hb & Hc & Hs).
    split; [rewrite Hs; reflexivity |]. intros _.
    split; [rewrite Hc; simpl; lia |].
    do 3 eexists. exact Hb.
  - intro H. injection H as <-. right. split; [reflexivity |].
    intro H. exfalso. apply H1. exact H.
Qed.

(** What has changed when [push] returns [None]. *)
Lemma push_none_effects request s s' :
  push request s = (Return None, s') ->
  (_buffer s = [] ->
   exists rest,
     _buffer s' = zeros (HEADER_LEN + CONTAINER_HEADER_LEN) ++ rest) /\
  (_pending_ack s <> [] ->
   _pending_ack s' = [] /\
   _msg_count s < _msg_count s' /\
   exists id seq_no rest,
     _buffer s'
     = _buffer (reserved s)
       ++ frame id seq_no (MsgsAck_to_bytes (_pending_ack s)) ++ rest) /\
  (_salts s' = _salts s \/
   (_salts s' = removelast (_salts s) /\
    (len (_salts s') = 1 ->
     _msg_count s < _msg_count s' /\
     exists pre id seq_no,
       _buffer s' = pre ++ frame id seq_no (get_future_salts NUM_FUTURE_SALTS)))).
Proof.
  intro H. apply push_return_inv in H. destruct H as (s1 & s2 & H1 & H2 & H3).
  apply stage_request_none in H3. subst s'.
  destruct (reserved_frame s) as (Ra & _ & Rs & Rc & _).
  pose proof (flush_acks_appends (reserved s)) as (a1 & _ & B1 & C1).
  pose proof (rotate_salts_appends s1) as (a2 & _ & B2 & C2).
  pose proof (flush_acks_salts_same (reserved s)) as S1.
  pose proof (rotate_salts_ack_same s1) as A2.
  rewrite H1 in B1, C1, S1. rewrite H2 in B2, C2, A2.
  unfold salts_same, ack_same in *. cbn [snd] in *.
  pose proof (len_nonneg a1). pose proof (len_nonneg a2).
  split; [| split].
  - intro Hb. exists (concat a1 ++ concat a2).
    rewrite B2, B1. unfold reserved. rewrite Hb. cbn [is_empty set_buffer _buffer app].
    rewrite <- app_assoc. reflexivity.
  - intro Ha. rewrite flush_acks_run, Ra in H1.
    destruct (_pending_ack s) as [| a l] eqn:Hack; [contradiction |].
    cbn [is_empty] in H1.
    destruct (pack_qii _ _ _); [| discriminate].
    injection H1 as <-.
    split; [rewrite A2; reflexivity |].
    destruct (serialized_frame (MsgsAck_to_bytes (a :: l)) false (reserved s))
      as (_ & _ & Hb & Hc & _).
    split.
    + rewrite C2. cbn [_msg_count set_pending_ack]. rewrite Hc. lia.
    + do 2 eexists. exists (concat a2). rewrite B2.
      cbn [_buffer set_pending_ack]. rewrite Hb, <- !app_assoc. reflexivity.
  - destruct (rotate_salts_return s1 s2 H2) as [[E _] | [E Hgfs]].
    + left. congruence.
    + right. split; [congruence |]. intro Hl.
      destruct (Hgfs Hl) as (Hc & pre & id & seq_no & Hb).
      split; [lia |]. exists pre, id, seq_no. exact Hb.
Qed.

(** Acknowledgements pending at a push that returns an id: the staged count
    goes up by two at least, whatever it was. *)
Lemma push_with_acks_counts request s id s' :
  _pending_ack s <> [] ->
  push request s = (Return (Some id), s') ->
  _msg_count s + 2 <= _msg_count s'.
Proof.
  intros Ha H. apply push_return_inv in H. destruct H as (s1 & s2 & H1 & H2 & H3).
  apply stage_request_some in H3. destruct H3 as (_ & -> & _).
  destruct (reserved_frame s) as (Ra & _ & _ & Rc & _).
  pose proof (rotate_salts_appends s1) as (a2 & _ & _ & C2).
  rewrite H2 in C2. cbn [snd] in C2. pose proof (len_nonneg a2).
  rewrite flush_acks_run, Ra in H1.
  destruct (_pending_ack s) as [| a l]; [contradiction |].
  cbn [is_empty] in H1.
  destruct (pack_qii _ _ _); [| discriminate].
  injection H1 as <-.
  destruct (serialized_frame (MsgsAck_to_bytes (a :: l)) false (reserved s))
    as (_ & _ & _ & Hc & _).
  destruct (serialized_frame (body_of_request request s2) true s2)
    as (_ & _ & _ & Hc2 & _).
  rewrite Hc2, C2. cbn [_msg_count set_pending_ack]. rewrite Hc. lia.
Qed.

(** *** The handler table *)

Lemma all_distinct_NoDup l : all_distinct l = true -> NoDup l.
Proof.
  induction l as [| x r IH]; simpl; intro H; [constructor |].
  apply andb_true_iff in H. destruct H as [Hx Hr].
  constructor; [| apply IH; exact Hr].
  intro Hin. apply negb_true_iff in Hx.
  assert (E : existsb (Z.eqb x) r = true).
  { apply existsb_exists. exists x. split; [exact Hin | apply Z.eqb_refl]. }
  congruence.
Qed.

Lemma dict_get_absent {V : Type} k (items : list (Z * V)) :
  ~ In k (map fst items) -> dict_get k items = None.
Proof.
  induction items as [| [k' v] r IH]; simpl; intro H; [reflexivity |].
  rewrite IH by tauto.
  destruct (Z.eqb_spec k k'); [exfalso; apply H; left; congruence | reflexivity].
Qed.

Lemma dict_get_present {V : Type} k v (items : list (Z * V)) :
  NoDup (map fst items) -> In (k, v) items -> dict_get k items = Some v.
Proof.
  induction items as [| [k' v'] r IH]; simpl; intros Hn Hin; [contradiction |].
  inversion Hn as [| ? ? Hk Hr]; subst.
  destruct Hin as [E | Hin].
  - injection E as -> ->. rewrite (dict_get_absent k r Hk), Z.eqb_refl. reflexivity.
  - rewrite (IH Hr Hin). reflexivity.
Qed.

Lemma in_ids_false k l : in_ids k l = false -> ~ In k l.
Proof.
  intros H Hin.
  assert (E : in_ids k l = true).
  { apply existsb_exists. exists k. split; [exact Hin | apply Z.eqb_refl]. }
  congruence.
Qed.

(** X1.  When the constructor ids of the handler table are pairwise
    distinct, every registered id is dispatched to the handler written next
    to it in [__init__], and every other id to [_handle_update]. *)
Theorem handler_routing (k : Z) :
  all_distinct (map fst _handlers) = true ->
  (forall h, In (k, h) _handlers -> handler_for k = h) /\
  (~ In k (map fst _handlers) -> handler_for k = H_update).
Proof.
  intro Hd. apply all_distinct_NoDup in Hd. unfold handler_for. split.
  - intros h Hin. rewrite (dict_get_present k h _ Hd Hin). reflexivity.
  - intro Hn. rewrite (dict_get_absent k _ Hn). reflexivity.
Qed.

(** *** Bodies the dispatcher has no handler for *)

Lemma default_dispatch depth m b s :
  body m = PyBytes b ->
  4 <= len b ->
  dict_get (le_uint (firstn 4 b)) _handlers = None ->
  _process_message (S depth) m s
  = (Return tt, set_updates (_updates (ack_noted m s) ++ [b]) (ack_noted m s)).
Proof.
  intros Hb Hl Hnone.
  rewrite (process_message_step depth m b s Hb Hl).
  unfold handler_for. rewrite Hnone. cbn [run_handler].
  unfold _handle_update. rewrite Hb. reflexivity.
Qed.

(** X2.  A body whose constructor id has no entry in the handler table is
    an update: the dispatch returns, appends the whole body to [updates]
    and, the note for acknowledgement apart, changes nothing else. *)
Theorem unknown_constructor_is_update (depth : nat) (m : Message) (b : bytes)
    (s : Encrypted) :
  body m = PyBytes b ->
  4 <= len b ->
  ~ In (le_uint (firstn 4 b)) (map fst _handlers) ->
  let s' := snd (_process_message (S depth) m s) in
  fst (_process_message (S depth) m s) = Return tt /\
  _updates s' = _updates s ++ [b] /\
  _rpc_results s' = _rpc_results s /\
  _pending_ack s'
  = (if message_requires_ack m then _pending_ack s ++ [msg_id m]
     else _pending_ack s) /\
  s' = set_updates (_updates s ++ [b]) (ack_noted m s).
Proof.
  intros Hb Hl Hn s'.
  assert (E : _process_message (S depth) m s
              = (Return tt,
                 set_updates (_updates (ack_noted m s) ++ [b]) (ack_noted m s))).
  { apply default_dispatch; [exact Hb | exact Hl |].
    apply dict_get_absent. exact Hn. }
  unfold s'. rewrite E. cbn [fst snd].
  unfold ack_noted. destruct (message_requires_ack m); repeat split.
Qed.

(** X3.  [_handle_container] is not in the handler table: when the id of
    [msg_container] differs from the registered ids, a [msg_container]
    body is queued whole as one update and none of the messages inside it
    is dispatched, so [rpc_results] stays as it is. *)
Theorem container_is_not_unpacked (depth : nat) (m : Message) (b : bytes)
    (s : Encrypted) :
  body m = PyBytes b ->
  4 <= len b ->
  le_uint (firstn 4 b) = constructor_id MsgContainer_ ->
  all_distinct (constructor_id MsgContainer_ :: map fst _handlers) = true ->
  _process_message (S depth) m s
  = (Return tt, set_updates (_updates s ++ [b]) (ack_noted m s)) /\
  _rpc_results (snd (_process_message (S depth) m s)) = _rpc_results s.
Proof.
  intros Hb Hl Hc Hd.
  apply all_distinct_NoDup in Hd. inversion Hd as [| ? ? Hn _]; subst.
  rewrite <- Hc in Hn.
  rewrite (default_dispatch depth m b s Hb Hl
             (dict_get_absent (le_uint (firstn 4 b)) _handlers Hn)).
  cbn [snd]. unfold ack_noted. destruct (message_requires_ack m); split; reflexivity.
Qed.

(** X4.  A body shorter than the four bytes of a constructor id makes the
    dispatch raise [struct.error]; the message has by then been noted for
    acknowledgement if it requires one, and nothing else has changed. *)
Theorem short_body_raises (depth : nat) (m : Message) (b : bytes) (s : Encrypted) :
  body m = PyBytes b ->
  len b < 4 ->
  _process_message (S depth) m s = (Raise StructError, ack_noted m s).
Proof.
  intros Hb Hl. cbn [_process_message].
  erewrite bind_return with (s1 := ack_noted m s) (a := tt)
    by (unfold ack_noted; destruct (message_requires_ack m); reflexivity).
  rewrite Hb. run_bind ltac:(reflexivity).
  erewrite bind_raise; [reflexivity |].
  unfold lift, unpack_from_I. apply Z.ltb_lt in Hl. rewrite Hl. reflexivity.
Qed.

(** *** [future_salts] *)

Lemma insert_by_perm {A : Type} (key : A -> Z) x l :
  Permutation (x :: l) (insert_by key x l).
Proof.
  induction l as [| y r IH]; simpl; [reflexivity |].
  destruct (key x <? key y); [reflexivity |].
  rewrite perm_swap. apply perm_skip. exact IH.
Qed.

Lemma insert_by_sorted {A : Type} (key : A -> Z) x l :
  StronglySorted (fun a b => key a <= key b) l ->
  StronglySorted (fun a b => key a <= key b) (insert_by key x l).
Proof.
  induction l as [| y r IH]; simpl; intro Hs.
  - repeat constructor.
  - inversion Hs as [| ? ? Hr Hy]; subst.
    destruct (Z.ltb_spec (key x) (key y)) as [Hlt | Hge].
    + constructor; [exact Hs |]. constructor; [lia |].
      eapply Forall_impl; [| exact Hy]. simpl. intros. lia.
    + constructor; [apply IH; exact Hr |].
      eapply Permutation_Forall; [apply insert_by_perm |].
      constructor; [lia | exact Hy].
Qed.

Lemma sort_by_spec {A : Type} (key : A -> Z) (l : list A) :
  Permutation l (sort_by key l) /\
  StronglySorted (fun a b => key a <= key b) (sort_by key l).
Proof.
  unfold sort_by.
  assert (G : forall acc,
             StronglySorted (fun a b => key a <= key b) acc ->
             Permutation (l ++ acc)
               (fold_left (fun acc x => insert_by key x acc) l acc) /\
             StronglySorted (fun a b => key a <= key b)
               (fold_left (fun acc x => insert_by key x acc) l acc)).
  { induction l as [| x r IH]; intros acc Hacc; simpl.
    - split; [reflexivity | exact Hacc].
    - destruct (IH (insert_by key x acc) (insert_by_sorted key x acc Hacc))
        as [Hp Hs].
      split; [| exact Hs].
      rewrite <- Hp. rewrite <- (insert_by_perm key x acc).
      apply Permutation_middle. }
  destruct (G [] (SSorted_nil _)) as [Hp Hs].
  rewrite app_nil_r in Hp. auto.
Qed.

Lemma sorted_last {A : Type} (R : A -> A -> Prop) pre x :
  StronglySorted R (pre ++ [x]) -> Forall (fun y => R y x) pre.
Proof.
  induction pre as [| y r IH]; simpl; intro Hs; [constructor |].
  inversion Hs as [| ? ? Hr Hy]; subst.
  constructor; [| apply IH; exact Hr].
  apply Forall_app in Hy. destruct Hy as [_ Hx].
  inversion Hx; assumption.
Qed.

(** X5.  [_handle_future_salts] answers the request with the raw body,
    records the server time next to the local time, and keeps exactly the
    salts received, ordered so that none is valid earlier than the ones
    after it: the last one, which [finalize] writes, is the one that is
    valid first.  Nothing is staged. *)
Theorem future_salts_are_sorted (m : Message) (b : bytes) (s : Encrypted)
    (salts : FutureSalts) :
  body m = PyBytes b ->
  FutureSalts_from_bytes b = Some salts ->
  exists s',
    _handle_future_salts m s = (Return tt, s') /\
    Permutation (fs_salts salts) (_salts s') /\
    StronglySorted newer_first (_salts s') /\
    (forall pre x,
        _salts s' = pre ++ [x] ->
        current_salt s' = salt x /\
        Forall (fun y => valid_since x <= valid_since y) pre) /\
    _start_salt_time s'
    = Some (fs_now salts, int_of_float (time_time (clock_reads s))) /\
    _rpc_results s' = _rpc_results s ++ [(fs_req_msg_id salts, ReplyBody b)] /\
    _updates s' = _updates s /\
    _buffer s' = _buffer s /\
    _msg_count s' = _msg_count s.
Proof.
  intros Hb Hp.
  destruct (sort_by_spec (fun x => - valid_since x) (fs_salts salts)) as [Hperm Hs].
  assert (Hs' : StronglySorted newer_first
                  (sort_by (fun x => - valid_since x) (fs_salts salts))).
  { eapply StronglySorted_ind with (P := StronglySorted newer_first) in Hs;
      [exact Hs | constructor |].
    intros a l _ IH Hall. constructor; [exact IH |].
    eapply Forall_impl; [| exact Hall]. unfold newer_first. simpl. intros. lia. }
  eexists. split.
  { unfold _handle_future_salts. rewrite Hb.
    run_bind ltac:(reflexivity).
    run_bind ltac:(rewrite Hp; reflexivity).
    run_bind ltac:(reflexivity).
    run_bind ltac:(reflexivity).
    run_bind ltac:(reflexivity).
    run_bind ltac:(reflexivity).
    reflexivity. }
  cbn [_salts _start_salt_time _rpc_results _updates _buffer _msg_count
       set_salts set_start_salt_time set_clock_reads set_rpc_results clock_reads].
  repeat split; try assumption.
  - unfold current_salt. cbn [_salts set_salts]. rewrite H.
    destruct pre as [| y r]; [reflexivity |]. cbn [app].
    rewrite last_last. reflexivity.
  - rewrite H in Hs'. apply sorted_last in Hs'. exact Hs'.
Qed.

(** *** [bad_msg_notification] *)

(** X6.  A [bad_msg_notification] always returns and reports
    [(bad_msg_id, error)]; error codes 16 and 17 replace the time offset
    by the seconds of the notification's own [msg_id] minus the local clock,
    whatever the offset was; codes 32 and 33 move the sequence counter by
    64 and -16; no code touches the salts, the buffer, the staged count,
    the pending acknowledgements or the last message id. *)
Theorem bad_msg_notification_effect (m : Message) (b : bytes) (s : Encrypted)
    (bad_msg_id bad_msg_seqno error_code : Z) :
  body m = PyBytes b ->
  AbcBadMsgNotification_from_bytes b
  = Some (BadMsgNotification bad_msg_id bad_msg_seqno error_code) ->
  exists s',
    _handle_bad_notification m s = (Return tt, s') /\
    _rpc_results s' = _rpc_results s ++ [(bad_msg_id, BadMsgError error_code)] /\
    _updates s' = _updates s /\
    (if (error_code =? 16) || (error_code =? 17)
     then _time_offset s'
          = Z.shiftr (msg_id m) 32 - int_of_float (time_time (clock_reads s)) /\
          _sequence s' = _sequence s
     else _time_offset s' = _time_offset s /\
          _sequence s' = _sequence s + sequence_shift error_code) /\
    _salts s' = _salts s /\
    _buffer s' = _buffer s /\
    _msg_count s' = _msg_count s /\
    _pending_ack s' = _pending_ack s /\
    _last_msg_id s' = _last_msg_id s.
Proof.
  intros Hb Hp.
  set (s1 := set_rpc_results
               (_rpc_results s ++ [(bad_msg_id, BadMsgError error_code)]) s).
  exists (if (error_code =? 16) || (error_code =? 17) then
            set_time_offset
              (Z.shiftr (msg_id m) 32 - int_of_float (time_time (clock_reads s)))
              (set_clock_reads (S (clock_reads s)) s1)
          else if error_code =? 32 then set_sequence (_sequence s1 + 64) s1
          else if error_code =? 33 then set_sequence (_sequence s1 - 16) s1
          else s1).
  split.
  { unfold _handle_bad_notification. rewrite Hb.
    run_bind ltac:(reflexivity).
    run_bind ltac:(rewrite Hp; reflexivity).
    cbv iota.
    run_bind ltac:(reflexivity).
    fold s1.
    destruct ((error_code =? 16) || (error_code =? 17));
      [| destruct (error_code =? 32); [| destruct (error_code =? 33)]];
      reflexivity. }
  unfold sequence_shift.
  destruct ((error_code =? 16) || (error_code =? 17));
    [| destruct (error_code =? 32); [| destruct (error_code =? 33)]];
    cbn; repeat split; lia.
Qed.

(** *** [future_salt] and [gzip_packed] *)

(** X7.  No request asks for a bare [future_salt]: a message dispatched to
    [_handle_future_salt] always raises, the assertion error when the body
    parses and the parser's error when it does not, and leaves the session
    as it was once the message was noted for acknowledgement. *)
Theorem future_salt_is_fatal (depth : nat) (m : Message) (b : bytes)
    (s : Encrypted) :
  body m = PyBytes b ->
  4 <= len b ->
  handler_for (le_uint (firstn 4 b)) = H_future_salt ->
  _process_message (S depth) m s
  = (Raise (if from_bytes_ok FutureSalt_ b then AssertionError else Foreign),
     ack_noted m s).
Proof.
  intros Hb Hl Hh.
  rewrite (process_message_step depth m b s Hb Hl), Hh. cbn [run_handler].
  unfold _handle_future_salt, parse_only. rewrite Hb.
  unfold bind, buffer_of, ret, raise, assert.
  destruct (from_bytes_ok FutureSalt_ b); reflexivity.
Qed.

(** X8.  A top-level [gzip_packed] message whose inflated body has no
    handler of its own returns with the inflated body, not the packed one,
    appended to [updates]; the message id is noted for acknowledgement
    once by the dispatch of the packed message and once more by the
    dispatch of the inflated one, when each requires it. *)
Theorem gzip_packed_update (depth : nat) (m : Message) (b packed inner : bytes)
    (s : Encrypted) :
  body m = PyBytes b ->
  4 <= len b ->
  handler_for (le_uint (firstn 4 b)) = H_gzip_packed ->
  GzipPacked_from_bytes b = Some packed ->
  gzip_decompress packed = Some inner ->
  4 <= len inner ->
  dict_get (le_uint (firstn 4 inner)) _handlers = None ->
  exists s',
    _process_message (S (S depth)) m s = (Return tt, s') /\
    _updates s' = _updates s ++ [inner] /\
    _rpc_results s' = _rpc_results s /\
    _pending_ack s'
    = _pending_ack s
      ++ (if message_requires_ack m then [msg_id m] else [])
      ++ (if message_requires_ack (inflated m inner) then [msg_id m] else []).
Proof.
  intros Hb Hl Hh Hp Hd Hli Hnone.
  eexists. split.
  { rewrite (process_message_step (S depth) m b s Hb Hl), Hh. cbn [run_handler].
    unfold _handle_gzip_packed. rewrite Hb.
    run_bind ltac:(reflexivity).
    run_bind ltac:(rewrite Hp; reflexivity).
    run_bind ltac:(rewrite Hd; reflexivity).
    apply (default_dispatch depth (inflated m inner) inner);
      [reflexivity | exact Hli | exact Hnone]. }
  unfold ack_noted, inflated.
  destruct (message_requires_ack m);
    destruct (message_requires_ack _);
    cbn; rewrite <- ?app_assoc, ?app_nil_r; repeat split.
Qed.

(** *** [_serialize_msg] on its own *)

Lemma next_id_above s : _last_msg_id s < next_id s.
Proof.
  unfold next_id.
  destruct (Z.geb_spec (_last_msg_id s)
              (scaled_time (time_time (clock_reads s)) (_time_offset s))); lia.
Qed.

Lemma pack_qii_fits a b c :
  in_q a -> in_i b -> in_i c ->
  pack_qii a b c = Return (le_bytes 8 a ++ le_bytes 4 b ++ le_bytes 4 c).
Proof.
  intros Ha Hb Hc. unfold pack_qii.
  rewrite (pack_q_fits a Ha), (pack_i_fits b Hb), (pack_i_fits c Hc). reflexivity.
Qed.

Lemma len_frame id seq_no body : len (frame id seq_no body) = 16 + len body.
Proof. unfold frame. rewrite !len_app, !len_le_bytes. lia. Qed.

(** X9.  [_serialize_msg] always consumes a message id, above the last one,
    and for a content-related message two units of the sequence counter.
    When id, sequence number and body length fit their [<qii] fields it
    returns the id and the buffer has grown by one message of
    [16 + len(body)] bytes; otherwise it raises [struct.error] and has
    written nothing, the id and the sequence number being spent all the
    same. *)
Theorem serialize_msg_effect (body : bytes) (content_related : bool)
    (s : Encrypted) :
  let id := next_id s in
  let seq_no := next_seq content_related s in
  let s' := snd (_serialize_msg body content_related s) in
  _last_msg_id s < id /\
  _last_msg_id s' = id /\
  _sequence s' = (if content_related then _sequence s + 2 else _sequence s) /\
  ((in_q id /\ in_i seq_no /\ in_i (len body)) /\
   fst (_serialize_msg body content_related s) = Return id /\
   _buffer s' = _buffer s ++ frame id seq_no body /\
   len (_buffer s') = len (_buffer s) + 16 + len body /\
   _msg_count s' = _msg_count s + 1
   \/
   ~ (in_q id /\ in_i seq_no /\ in_i (len body)) /\
   fst (_serialize_msg body content_related s) = Raise StructError /\
   _buffer s' = _buffer s /\
   _msg_count s' = _msg_count s).
Proof.
  intros id seq_no s'. unfold s'. rewrite serialize_msg_run.
  fold id seq_no.
  split; [apply next_id_above |].
  destruct (pack_qii id seq_no (len body)) as [head | e] eqn:Hp; cbn [fst snd].
  - destruct (serialized_frame body content_related s) as (_ & _ & Hb & Hc & _).
    apply pack_qii_return in Hp. destruct Hp as (H1 & H2 & H3 & _).
    split; [unfold serialized, after_ids; destruct content_related; reflexivity |].
    split; [unfold serialized, after_ids; destruct content_related; reflexivity |].
    left. fold id seq_no in Hb.
    split; [tauto |]. split; [reflexivity |]. split; [exact Hb |].
    split; [| exact Hc].
    rewrite Hb, len_app, len_frame. lia.
  - destruct (after_ids_frame content_related s) as (_ & _ & Hb & Hc & _).
    split; [unfold after_ids; destruct content_related; reflexivity |].
    split; [unfold after_ids; destruct content_related; reflexivity |].
    right. rewrite (pack_qii_struct_error _ _ _ _ Hp).
    split; [| split; [reflexivity | split; assumption]].
    intros (H1 & H2 & H3). rewrite (pack_qii_fits _ _ _ H1 H2 H3) in Hp.
    discriminate.
Qed.

(** *** The ids that [push] returns *)

Lemma flush_acks_id_le : steps id_le flush_acks.
Proof. unfold flush_acks. id_steps. Qed.

Lemma push_some_id request s id s' :
  push request s = (Return (Some id), s') ->
  _last_msg_id s < id /\ _last_msg_id s' = id.
Proof.
  intro H. apply push_return_inv in H. destruct H as (s1 & s2 & H1 & H2 & H3).
  apply stage_request_some in H3. destruct H3 as (-> & -> & _).
  pose proof (flush_acks_id_le (reserved s)) as L1.
  pose proof (rotate_salts_id_le s2) as _.
  pose proof (rotate_salts_id_le s1) as L2.
  rewrite H1 in L1. rewrite H2 in L2. unfold id_le in *. cbn [snd] in *.
  assert (L0 : _last_msg_id (reserved s) = _last_msg_id s)
    by (unfold reserved; destruct (is_empty (_buffer s)); reflexivity).
  pose proof (next_id_above s2).
  split; [lia |].
  unfold serialized, after_ids. reflexivity.
Qed.

Lemma push_all_id_le requests : steps id_le (push_all requests).
Proof.
  induction requests as [| request rest IH]; cbn [push_all].
  - apply (steps_ret _ id_le_refl).
  - apply (steps_bind _ id_le_trans); [apply push_id_le | intro r].
    apply (steps_bind _ id_le_trans); [exact IH | intro rs].
    apply (steps_ret _ id_le_refl).
Qed.

(** X10.  The ids that successive [push] calls return are strictly
    increasing, all above the last id issued before the calls and none
    above the last id issued after them; so the id that a container drawn
    at the next [finalize] receives is above every one of them. *)
Theorem pushed_ids_increase (requests : list bytes) :
  forall (s s' : Encrypted) (results : list (option MsgId)),
    push_all requests s = (Return results, s') ->
    StronglySorted Z.lt (returned results) /\
    Forall (fun id => _last_msg_id s < id <= _last_msg_id s') (returned results) /\
    Forall (fun id => id < next_id s') (returned results).
Proof.
  assert (G : forall (s s' : Encrypted) (results : list (option MsgId)),
             push_all requests s = (Return results, s') ->
             StronglySorted Z.lt (returned results) /\
             Forall (fun id => _last_msg_id s < id <= _last_msg_id s')
               (returned results)).
  { induction requests as [| request rest IH]; intros s s' results Hrun.
    - cbn in Hrun. injection Hrun as <- <-. split; constructor.
    - cbn [push_all] in Hrun.
      apply bind_return_inv in Hrun. destruct Hrun as (r & s1 & Hp & Hrun).
      apply bind_return_inv in Hrun. destruct Hrun as (rs & s2 & Hrest & Hret).
      injection Hret as <- <-.
      destruct (IH s1 s2 rs Hrest) as [Hs Hall].
      pose proof (push_id_le request s) as L1. rewrite Hp in L1.
      pose proof (push_all_id_le rest s1) as L2. rewrite Hrest in L2.
      unfold id_le in *. cbn [snd] in *.
      destruct r as [id |]; cbn [returned flat_map app].
      + destruct (push_some_id request s id s1 Hp) as [Ha Hb].
        split.
        * constructor; [exact Hs |].
          eapply Forall_impl; [| exact Hall]. cbv beta. intros. lia.
        * constructor; [lia |].
          eapply Forall_impl; [| exact Hall]. cbv beta. intros. lia.
      + split; [exact Hs |].
        eapply Forall_impl; [| exact Hall]. cbv beta. intros. lia. }
  intros s s' results Hrun. destruct (G s s' results Hrun) as [Hs Hall].
  split; [exact Hs | split; [exact Hall |]].
  pose proof (next_id_above s').
  eapply Forall_impl; [| exact Hall]. cbv beta. intros. lia.
Qed.

(** *** [finalize] *)

Lemma returns_bind {A B : Type} (Q : Encrypted -> Prop) (m : M A) (k : A -> M B) :
  (forall a, returns_with Q (k a)) -> returns_with Q (bind m k).
Proof.
  intros Hk s b s' H. apply bind_return_inv in H.
  destruct H as (a & s1 & _ & H). exact (Hk a s1 b s' H).
Qed.

Lemma finalize_plain_resets s out s' :
  _finalize_plain s = (Return out, s') ->
  _msg_count s' = 0 /\ (_msg_count s <> 0 -> _buffer s' = []).
Proof.
  unfold _finalize_plain. rewrite (bind_return get _ s s s eq_refl).
  destruct (Z.eqb_spec (_msg_count s) 0) as [Hc | Hc].
  - intro H. injection H as <- <-. split; [exact Hc | contradiction].
  - set (Q := fun s' => _msg_count s' = 0 /\ _buffer s' = []).
    assert (G : returns_with Q
                  (modify (set_msg_count 0) ;;
                   s <- get ;;
                   let result := _buffer s in
                   modify (set_buffer []) ;; ret result)).
    { intros s0 a s1 H. cbv in H. injection H as <- <-. split; reflexivity. }
    intro H.
    assert (R : Q s').
    { refine (returns_bind Q _ _ _ s out s' H). intro.
      apply returns_bind. intro. apply returns_bind. intro.
      apply returns_bind. intro. apply returns_bind. intro.
      apply returns_bind. intro. exact G. }
    unfold Q in R. tauto.
Qed.

(** X11.  [finalize] returns the empty bytes, unencrypted, and changes
    nothing when no message is staged; and after any [finalize] that
    returned nothing is staged, so that a second [finalize] in a row
    returns the empty bytes. *)
Theorem finalize_twice (s : Encrypted) :
  (_msg_count s = 0 -> finalize s = (Return [], s)) /\
  (forall out s',
      finalize s = (Return out, s') ->
      _msg_count s' = 0 /\
      (_msg_count s <> 0 -> _buffer s' = []) /\
      finalize s' = (Return [], s')).
Proof.
  assert (E : forall s0, _msg_count s0 = 0 -> finalize s0 = (Return [], s0)).
  { intros s0 Hc. unfold finalize.
    run_bind ltac:(apply finalize_plain_empty; exact Hc). reflexivity. }
  split; [apply E |].
  intros out s' H. unfold finalize in H.
  apply bind_return_inv in H. destruct H as (buf & s1 & Hf & H).
  assert (s' = s1).
  { destruct (is_empty buf); cbv in H; injection H as _ <-; reflexivity. }
  subst s1. destruct (finalize_plain_resets s buf s' Hf) as [Hc Hb].
  split; [exact Hc | split; [exact Hb | apply E; exact Hc]].
Qed.

(** *** The header that [finalize] writes, read back by [deserialize] *)

Lemma unpack_from_qq_header a b rest :
  in_q a -> in_q b ->
  unpack_from_qq (le_bytes 8 a ++ le_bytes 8 b ++ rest) = Return (a, b).
Proof.
  intros Ha Hb. apply unpack_from_qq_return. split.
  - rewrite !len_app, !len_le_bytes. pose proof (len_nonneg rest). lia.
  - f_equal.
    + rewrite firstn_app, le_bytes_length, Nat.sub_diag, firstn_O, app_nil_r.
      rewrite firstn_all2 by (rewrite le_bytes_length; lia).
      symmetry. apply le_sint_le_bytes; [lia | exact Ha].
    + rewrite skipn_app, le_bytes_length, Nat.sub_diag.
      rewrite skipn_all2 by (rewrite le_bytes_length; lia). cbn [skipn app].
      rewrite firstn_app, le_bytes_length, Nat.sub_diag, firstn_O, app_nil_r.
      rewrite firstn_all2 by (rewrite le_bytes_length; lia).
      symmetry. apply le_sint_le_bytes; [lia | exact Hb].
Qed.

(** X12.  The plaintext that [finalize] emits starts with the current salt
    and the session's client id, which [struct.unpack_from("<qq")] reads
    back; so a session whose cipher returns that plaintext never rejects
    its own frame as belonging to the wrong session. *)
Theorem own_frame_passes_session_check (s : Encrypted) (frames : list bytes) :
  staged s frames ->
  frames <> [] ->
  finalize_fits s ->
  exists out s',
    _finalize_plain s = (Return out, s') /\
    unpack_from_qq out = Return (current_salt s, _client_id s) /\
    forall payload s2,
      decrypt_data_v2 payload (_auth_key s2) = Some out ->
      _client_id s2 = _client_id s ->
      fst (deserialize payload s2) <> Raise (RuntimeError "wrong session id").
Proof.
  intros Hs Hne Hfits.
  destruct (finalize_plain_shape s frames Hs Hfits) as (out & s' & Hf & _ & Hshape).
  assert (Hq := Hfits). destruct Hq as (Hsalt & Hcid & _).
  assert (Hout : exists rest,
             out = le_bytes 8 (current_salt s) ++ le_bytes 8 (_client_id s) ++ rest).
  { destruct frames as [| f [| g r]]; [contradiction | |].
    - rewrite Hshape, <- app_assoc. eexists. reflexivity.
    - destruct Hshape as (i1 & i2 & -> & _).
      rewrite <- app_assoc. eexists. reflexivity. }
  destruct Hout as (rest & Eout).
  assert (Hu : unpack_from_qq out = Return (current_salt s, _client_id s))
    by (rewrite Eout; apply unpack_from_qq_header; assumption).
  exists out, s'. split; [exact Hf | split; [exact Hu |]].
  intros payload s2 Hd Hid.
  apply unpack_from_qq_return in Hu. destruct Hu as [Hl Hu].
  pose proof (f_equal snd Hu) as Hc. cbn [snd] in Hc.
  destruct (check_message_buffer payload) eqn:Hchk.
  2:{ rewrite (deserialize_rejected payload s2 Hchk). discriminate. }
  destruct (Message_from_bytes (skipn 16 out)) as [message |] eqn:Hm.
  - rewrite (deserialize_stages payload s2 out message Hchk Hd Hl);
      [| congruence | exact Hm].
    pose proof (process_message_not_runtime recursion_limit message s2) as Hn.
    destruct (_process_message recursion_limit message s2) as [[[] | e] s3];
      cbn [fst] in *; [discriminate |].
    intro E. injection E as ->. exact (Hn _ eq_refl).
  - rewrite (deserialize_unparsed payload s2 out Hchk Hd Hl);
      [discriminate | congruence | exact Hm].
Qed.

(** *** What [push] refuses *)

(** X13.  On a session with nothing to acknowledge and no salt time
    recorded, [push] first reserves the header space and then: answers
    [None] when [CONTAINER_MAX_LENGTH] messages are staged, whatever the
    request is; otherwise fails its assertion when the request is too long
    for a container or its length is not a multiple of 4.  In both cases
    nothing but the reservation has changed. *)
Theorem push_refuses (request : bytes) (s : Encrypted) :
  quiet s ->
  (_msg_count s = CONTAINER_MAX_LENGTH ->
   push request s = (Return None, reserved s)) /\
  (_msg_count s <> CONTAINER_MAX_LENGTH ->
   CONTAINER_MAX_SIZE < len request + MESSAGE_SIZE_OVERHEAD \/
   len request mod 4 <> 0 ->
   push request s = (Raise AssertionError, reserved s)).
Proof.
  intro Hq. rewrite (push_quiet request s Hq).
  destruct (reserved_frame s) as (_ & _ & _ & Hc & _).
  unfold stage_request.
  rewrite (bind_return get _ _ _ _ eq_refl). rewrite Hc.
  split.
  - intro Hm. apply Z.eqb_eq in Hm. rewrite Hm. reflexivity.
  - intros Hm Hbad. apply Z.eqb_neq in Hm. rewrite Hm.
    destruct (Z.leb_spec (len request + MESSAGE_SIZE_OVERHEAD) CONTAINER_MAX_SIZE)
      as [Hfit | Hfit]; [| reflexivity].
    rewrite (bind_return (assert true) _ _ tt _ eq_refl).
    destruct (Z.eqb_spec (len request mod 4) 0) as [Hal | Hal]; [| reflexivity].
    exfalso. destruct Hbad; lia.
Qed.

(** *** The limits of a container, without service messages *)

Lemma push_quiet_within_limits request s :
  16 <= MESSAGE_SIZE_OVERHEAD ->
  40 < CONTAINER_MAX_SIZE ->
  quiet s ->
  within_limits s ->
  within_limits (snd (push request s)).
Proof.
  intros Ho Hmax Hq [Hc Hb]. rewrite (push_quiet request s Hq).
  destruct (reserved_frame s) as (_ & _ & _ & Rc & _).
  assert (Hr : within_limits (reserved s)).
  { split; [rewrite Rc; exact Hc |].
    unfold reserved. destruct (_buffer s) as [| x r] eqn:E; cbn [is_empty].
    - cbn [_buffer set_buffer app]. unfold len, zeros.
      rewrite repeat_length. change (HEADER_LEN + CONTAINER_HEADER_LEN) with 40. lia.
    - rewrite E. exact Hb. }
  destruct Hr as [Hc' Hb'].
  destruct (stage_request_cases request (reserved s))
    as [H | [H | [H | (H & Hm & Hs)]]]; rewrite H; cbn [snd].
  - split; assumption.
  - split; assumption.
  - destruct (after_ids_frame true (reserved s)) as (_ & _ & E3 & E4 & _).
    split; [rewrite E4 | rewrite E3]; assumption.
  - destruct (serialized_frame (body_of_request request (reserved s)) true
                (reserved s)) as (_ & _ & E3 & E4 & _).
    split; [rewrite E4; lia |].
    rewrite E3, len_app, len_frame. lia.
Qed.

Lemma push_all_quiet_within_limits requests :
  16 <= MESSAGE_SIZE_OVERHEAD ->
  40 < CONTAINER_MAX_SIZE ->
  forall s frames results s',
    staged s frames -> quiet s -> within_limits s ->
    push_all requests s = (Return results, s') ->
    within_limits s'.
Proof.
  intros Ho Hmax.
  induction requests as [| request rest IH]; intros s frames results s' Hs Hq Hw Hrun.
  - cbn in Hrun. injection Hrun as <- <-. exact Hw.
  - cbn [push_all] in Hrun.
    apply bind_return_inv in Hrun. destruct Hrun as (r & s1 & Hp & Hrun).
    apply bind_return_inv in Hrun. destruct Hrun as (rs & s2 & Hrest & Hret).
    injection Hret as <- <-.
    pose proof (push_quiet_within_limits request s Ho Hmax Hq Hw) as Hw1.
    pose proof (push_quiet_staged request s frames Hs Hq) as [Hq1 Hst].
    rewrite Hp in Hw1, Hq1, Hst. cbn [fst snd] in *.
    destruct r as [id |].
    + destruct Hst as (f & _ & Hst). exact (IH s1 _ rs s2 Hst Hq1 Hw1 Hrest).
    + exact (IH s1 _ rs s2 Hst Hq1 Hw1 Hrest).
Qed.

(** X14.  As long as [push] serializes no message of its own (nothing to
    acknowledge, no salt time recorded) and [MESSAGE_SIZE_OVERHEAD] covers
    the 16 bytes of a message header, the capacity tests hold the limits:
    after any sequence of pushes from an empty buffer at most
    [CONTAINER_MAX_LENGTH] messages are staged, the buffer is shorter than
    [CONTAINER_MAX_SIZE], and so is the plaintext that [finalize] emits. *)
Theorem quiet_pushes_stay_within_limits (s0 s1 : Encrypted)
    (requests : list bytes) (results : list (option MsgId)) :
  16 <= MESSAGE_SIZE_OVERHEAD ->
  40 < CONTAINER_MAX_SIZE ->
  0 <= CONTAINER_MAX_LENGTH ->
  staged s0 [] ->
  quiet s0 ->
  push_all requests s0 = (Return results, s1) ->
  finalize_fits s1 ->
  returned_ids results <= CONTAINER_MAX_LENGTH /\
  _msg_count s1 = returned_ids results /\
  len (_buffer s1) < CONTAINER_MAX_SIZE /\
  exists out s2,
    _finalize_plain s1 = (Return out, s2) /\
    len out <= len (_buffer s1) /\
    len out < CONTAINER_MAX_SIZE.
Proof.
  intros Ho Hmax Hlen Hs Hq Hrun Hfits.
  assert (Hw0 : within_limits s0).
  { destruct Hs as (Hc & _ & [[Hb _] | Hb]); split;
      try (rewrite Hc; exact Hlen); rewrite Hb.
    - unfold len. simpl. lia.
    - rewrite len_zeros_app. unfold len. simpl. lia. }
  pose proof (push_all_quiet_within_limits requests Ho Hmax s0 [] results s1
                Hs Hq Hw0 Hrun) as [Hc1 Hb1].
  destruct (push_all_quiet_staged requests s0 [] results s1 Hs Hq Hrun)
    as (_ & frames & Hst & Hall).
  cbn [app] in Hst.
  assert (Hn : len frames = returned_ids results).
  { unfold returned_ids, len. rewrite (Forall2_length Hall). reflexivity. }
  assert (Hst' := Hst). destruct Hst' as (Hc & _ & Hb).
  split; [rewrite <- Hn, <- Hc; exact Hc1 |].
  split; [rewrite Hc; exact Hn |].
  split; [exact Hb1 |].
  destruct (finalize_plain_shape s1 frames Hst Hfits) as (out & s2 & Hf & _ & Hshape).
  exists out, s2. split; [exact Hf |].
  assert (Hle : len out <= len (_buffer s1)).
  { destruct frames as [| f [| g r]].
    - rewrite Hshape. unfold len at 1. simpl. apply len_nonneg.
    - destruct Hb as [[_ Hb] | Hb]; [discriminate |].
      rewrite Hshape, Hb, len_zeros_app, !len_app, !len_le_bytes.
      cbn [concat]. rewrite app_nil_r. lia.
    - destruct Hb as [[_ Hb] | Hb]; [discriminate |].
      destruct Hshape as (i1 & i2 & -> & _).
      rewrite Hb, len_zeros_app, !len_app, !len_le_bytes. lia. }
  split; [exact Hle | lia].
Qed.

(** *** The salts and the acknowledgements under [push] *)

Lemma rotate_salts_salts s :
  _salts (snd (rotate_salts s)) = _salts s \/
  (_salts (snd (rotate_salts s)) = removelast (_salts s) /\ 2 <= len (_salts s)).
Proof.
  unfold rotate_salts. rewrite (bind_return get _ s s s eq_refl).
  destruct (_start_salt_time s) as [[start_secs start_instant] |];
    [| left; reflexivity].
  destruct (Z.leb_spec 2 (len (_salts s))) as [Hl | Hl]; [| left; reflexivity].
  cbv zeta.
  rewrite (bind_return now_ _ s (time_time (clock_reads s))
             (set_clock_reads (S (clock_reads s)) s) eq_refl).
  destruct (_ >=? _); [| left; reflexivity].
  erewrite bind_return with (s1 := popped s) by reflexivity.
  rewrite (bind_return get _ (popped s) (popped s) (popped s) eq_refl).
  right. split; [| exact Hl].
  destruct (len (_salts (popped s)) =? 1); [| reflexivity].
  assert (Hst : steps salts_same
                  (_serialize_msg (get_future_salts NUM_FUTURE_SALTS) true ;; ret tt)).
  { apply (steps_bind _ salts_same_trans);
      [apply serialize_msg_salts_same | intro; apply (steps_ret _ salts_same_refl)]. }
  rewrite (Hst (popped s)). reflexivity.
Qed.

Lemma removelast_length {A : Type} (l : list A) :
  len (removelast l) = Z.max 0 (len l - 1).
Proof.
  unfold len. induction l as [| x r IH]; [reflexivity |].
  destruct r as [| y r']; [reflexivity |].
  change (removelast (x :: y :: r')) with (x :: removelast (y :: r')).
  cbn [length] in *. lia.
Qed.

(** X15.  A [push], however it ends, leaves the salts as they are or drops
    the last one, and it drops one only when at least two are stored: the
    salt store never becomes empty through [push]. *)
Theorem push_keeps_a_salt (request : bytes) (s : Encrypted) :
  let s' := snd (push request s) in
  (_salts s' = _salts s \/
   (_salts s' = removelast (_salts s) /\ 2 <= len (_salts s))) /\
  (_salts s <> [] -> _salts s' <> []).
Proof.
  intro s'.
  assert (H : _salts s' = _salts s \/
              (_salts s' = removelast (_salts s) /\ 2 <= len (_salts s))).
  { unfold s'. rewrite push_after_reserve.
    destruct (reserved_frame s) as (_ & _ & Rs & _).
    pose proof (flush_acks_salts_same (reserved s)) as S1. unfold salts_same in S1.
    remember (snd ((flush_acks ;; rotate_salts ;; stage_request request)
                     (reserved s))) as t eqn:Et.
    unfold bind at 1 in Et.
    destruct (flush_acks (reserved s)) as [[[] | e] s1]; cbn [snd] in *;
      [| left; congruence].
    pose proof (rotate_salts_salts s1) as S2.
    unfold bind at 1 in Et.
    destruct (rotate_salts s1) as [[[] | e] s2]; cbn [snd] in *;
      rewrite S1, Rs in S2.
    - pose proof (stage_request_salts_same request s2) as S3.
      unfold salts_same in S3. rewrite Et, S3. exact S2.
    - rewrite Et. exact S2. }
  split; [exact H |].
  intro Hne. destruct H as [E | [E Hl]]; [congruence |].
  intro Hnil. pose proof (removelast_length (_salts s)) as Hr.
  rewrite <- E, Hnil in Hr. unfold len at 1 in Hr. simpl in Hr. lia.
Qed.

Lemma flush_acks_clears s s1 :
  flush_acks s = (Return tt, s1) -> _pending_ack s1 = [].
Proof.
  rewrite flush_acks_run.
  destruct (_pending_ack s) as [| a l] eqn:Ha; cbn [is_empty].
  - intro H. injection H as <-. exact Ha.
  - destruct (pack_qii _ _ _); [| discriminate].
    intro H. injection H as <-. reflexivity.
Qed.

Lemma push_acks_frame request s s' r :
  push request s = (Return r, s') ->
  _pending_ack s <> [] ->
  exists id rest,
    _last_msg_id s < id /\
    _buffer s'
    = _buffer (reserved s)
      ++ frame id (_sequence s) (MsgsAck_to_bytes (_pending_ack s)) ++ rest.
Proof.
  intros H Hne. apply push_return_inv in H. destruct H as (s1 & s2 & H1 & H2 & H3).
  pose proof (rotate_salts_appends s1) as (a2 & _ & B2 & _).
  pose proof (stage_request_appends request s2) as (a3 & _ & B3 & _).
  rewrite H2 in B2. rewrite H3 in B3. cbn [snd] in *.
  destruct (reserved_frame s) as (Ra & _).
  rewrite flush_acks_run, Ra in H1.
  destruct (_pending_ack s) as [| a l]; [contradiction |].
  cbn [is_empty] in H1.
  destruct (pack_qii _ _ _); [| discriminate].
  injection H1 as <-.
  destruct (serialized_frame (MsgsAck_to_bytes (a :: l)) false (reserved s))
    as (_ & _ & Hb & _).
  exists (next_id (reserved s)), (concat a2 ++ concat a3). split.
  - pose proof (next_id_above (reserved s)) as Hn.
    unfold reserved in Hn at 1. destruct (is_empty (_buffer s)); exact Hn.
  - rewrite B3, B2. cbn [_buffer set_pending_ack]. rewrite Hb.
    assert (Hseq : next_seq false (reserved s) = _sequence s)
      by (unfold next_seq, reserved; destruct (is_empty (_buffer s)); reflexivity).
    rewrite Hseq, <- !app_assoc. reflexivity.
Qed.

Lemma push_acks_after request s s1 s2 r :
  flush_acks (reserved s) = (Return tt, s1) ->
  rotate_salts s1 = (Return tt, s2) ->
  forall s', stage_request request s2 = (Return r, s') ->
  _pending_ack s' = _pending_ack s1.
Proof.
  intros H1 H2 s' H3.
  pose proof (rotate_salts_ack_same s1) as A2.
  pose proof (stage_request_ack_same request s2) as A3.
  rewrite H2 in A2. rewrite H3 in A3. unfold ack_same in *. cbn [snd] in *.
  congruence.
Qed.

(** X16.  After a [push] that returned, with an id or with [None], no
    acknowledgement is pending; those that were pending have been
    serialized as a single [msgs_ack] message, first after the reserved
    header or the messages already staged, under a fresh message id and
    with the sequence counter as it stood for sequence number. *)
Theorem push_flushes_acks (request : bytes) (s s' : Encrypted)
    (r : option MsgId) :
  push request s = (Return r, s') ->
  _pending_ack s' = [] /\
  (_pending_ack s <> [] ->
   exists id rest,
     _last_msg_id s < id /\
     _buffer s'
     = _buffer (reserved s)
       ++ frame id (_sequence s) (MsgsAck_to_bytes (_pending_ack s)) ++ rest).
Proof.
  intro H. split.
  - apply push_return_inv in H. destruct H as (s1 & s2 & H1 & H2 & H3).
    rewrite (push_acks_after request s s1 s2 r H1 H2 s' H3).
    exact (flush_acks_clears _ _ H1).
  - exact (push_acks_frame request s s' r H).
Qed.

(** *** What no method changes *)

Lemma identity_same_refl s : identity_same s s.
Proof. repeat split. Qed.

Lemma identity_same_trans a b c :
  identity_same a b -> identity_same b c -> identity_same a c.
Proof.
  unfold identity_same. intros (H1 & H2 & H3) (H4 & H5 & H6).
  repeat split; congruence.
Qed.

Ltac identity_steps :=
  steps_split identity_same_refl identity_same_trans ltac:(repeat split).

Lemma now_identity_same : steps identity_same now_.
Proof. intro s. repeat split. Qed.
Hint Resolve now_identity_same : steps.

Lemma serialize_msg_identity_same body cr :
  steps identity_same (_serialize_msg body cr).
Proof. unfold _serialize_msg, _get_new_msg_id, _get_seq_no. identity_steps. Qed.
Hint Resolve serialize_msg_identity_same : steps.

Lemma finalize_identity_same : steps identity_same finalize.
Proof.
  unfold finalize, _finalize_plain, _get_new_msg_id, _get_seq_no. identity_steps.
Qed.

Lemma push_identity_same request : steps identity_same (push request).
Proof.
  unfold push, reserve_header, flush_acks, rotate_salts, stage_request.
  identity_steps.
Qed.
Hint Resolve push_identity_same : steps.

Lemma run_handler_identity_same process h m :
  (forall m', steps identity_same (process m')) ->
  steps identity_same (run_handler process h m).
Proof.
  intro Hp. destruct h; simpl; unfold_handlers;
    unfold parse_only, _store_own_updates, rpc_results_append,
      _correct_time_offset;
    identity_steps.
Qed.

Lemma process_message_identity_same depth m :
  steps identity_same (_process_message depth m).
Proof.
  revert m. induction depth as [| d IH]; intro m; simpl.
  - identity_steps.
  - identity_steps. apply run_handler_identity_same. exact IH.
Qed.
Hint Resolve process_message_identity_same : steps.

Lemma deserialize_identity_same payload : steps identity_same (deserialize payload).
Proof. unfold deserialize. identity_steps. Qed.

(** X17.  No call of [push], [finalize] or [deserialize], whether it
    returns or raises, changes the client id, the authorization key or the
    compression threshold the session was created with. *)
Theorem session_identity_is_kept (calls : list Call) (s : Encrypted) :
  _client_id (exec_all calls s) = _client_id s /\
  _auth_key (exec_all calls s) = _auth_key s /\
  _compression_threshold (exec_all calls s) = _compression_threshold s.
Proof.
  change (identity_same s (exec_all calls s)).
  revert s. induction calls as [| c r IH]; intro s; simpl.
  - apply identity_same_refl.
  - eapply identity_same_trans; [| apply IH].
    destruct c; simpl.
    + apply push_identity_same.
    + apply finalize_identity_same.
    + apply deserialize_identity_same.
Qed.

(** *** The body that [push] stages *)

Lemma body_of_request_cases request s :
  body_of_request request s = request \/
  (body_of_request request s = GzipPacked_to_bytes (gzip_compress request) /\
   len (GzipPacked_to_bytes (gzip_compress request)) < len request /\
   exists threshold,
     _compression_threshold s = Some threshold /\ threshold <= len request).
Proof.
  unfold body_of_request.
  destruct (_compression_threshold s) as [threshold |]; [| left; reflexivity].
  destruct (Z.geb_spec (len request) threshold) as [Ht | Ht]; [| left; reflexivity].
  cbv zeta.
  destruct (Z.ltb_spec (len (GzipPacked_to_bytes (gzip_compress request)))
              (len request)) as [Hl | Hl]; [| left; reflexivity].
  right. split; [reflexivity | split; [exact Hl |]].
  exists threshold. split; [reflexivity | lia].
Qed.

(** X18.  The message that a [push] stages for its request closes the
    buffer and carries either the request itself or its [gzip_packed]
    form, the latter only when a threshold is set, the request is at least
    that long and the packed form is strictly shorter: the body staged is
    never longer than the request. *)
Theorem staged_body_is_never_longer (request : bytes) (s s' : Encrypted)
    (id : MsgId) :
  push request s = (Return (Some id), s') ->
  exists pre seq_no body,
    _buffer s' = pre ++ frame id seq_no body /\
    len body <= len request /\
    (_compression_threshold s = None -> body = request) /\
    (body = request \/
     (body = GzipPacked_to_bytes (gzip_compress request) /\
      len body < len request /\
      exists threshold,
        _compression_threshold s = Some threshold /\ threshold <= len request)).
Proof.
  intro H. destruct (push_some_buffer request s id s' H) as (pre & seq_no & Hb & _).
  exists pre, seq_no, (body_of_request request s).
  split; [exact Hb |].
  destruct (body_of_request_cases request s) as [E | (E & Hl & t & Ht & Hle)].
  - rewrite E. split; [lia | split; [reflexivity | left; reflexivity]].
  - rewrite E. split; [lia | split].
    + intro Hn. congruence.
    + right. split; [reflexivity | split; [exact Hl |]]. exists t. auto.
Qed.

(** *** The first message of a session *)

(** X19.  On a session as [__init__] leaves it, the first [push] of a
    request that passes the capacity tests returns the first id drawn from
    the clock, and the [finalize] that follows emits one single-message
    frame: the first salt (0 when none was given), the client id, then the
    message with sequence number 1.  The session is left with an empty
    buffer and the sequence counter at 2. *)
Theorem first_message_of_a_session (auth_key request : bytes)
    (time_offset first_salt compression_threshold : option Z) (client_id : Z) :
  let s0 := init auth_key time_offset first_salt compression_threshold client_id in
  let salt0 := match first_salt with Some v => v | None => 0 end in
  let id0 := next_id s0 in
  let body := body_of_request request s0 in
  CONTAINER_MAX_LENGTH <> 0 ->
  len request + MESSAGE_SIZE_OVERHEAD <= CONTAINER_MAX_SIZE ->
  len request mod 4 = 0 ->
  40 + len body + MESSAGE_SIZE_OVERHEAD < CONTAINER_MAX_SIZE ->
  in_q id0 -> in_i (len body) -> in_q salt0 -> in_q client_id ->
  exists s1 s2,
    push request s0 = (Return (Some id0), s1) /\
    0 < id0 /\
    _finalize_plain s1
    = (Return (le_bytes 8 salt0 ++ le_bytes 8 client_id ++ frame id0 1 body), s2) /\
    _buffer s2 = [] /\
    _msg_count s2 = 0 /\
    _sequence s2 = 2 /\
    _last_msg_id s2 = id0.
Proof.
  intros s0 salt0 id0 body Hmax Hfit Hal Hsize Hid Hlen Hsalt Hcid.
  assert (Hq : quiet s0) by (split; reflexivity).
  assert (Hpush : push request s0
                  = (Return (Some id0), serialized body true (reserved s0))).
  { rewrite (push_quiet request s0 Hq). unfold stage_request.
    rewrite (bind_return get _ _ _ _ eq_refl).
    change (_msg_count (reserved s0)) with 0.
    destruct (Z.eqb_spec 0 CONTAINER_MAX_LENGTH) as [E | _]; [congruence |].
    apply Z.leb_le in Hfit. rewrite Hfit.
    rewrite (bind_return (assert true) _ _ tt _ eq_refl).
    apply Z.eqb_eq in Hal. rewrite Hal.
    rewrite (bind_return (assert true) _ _ tt _ eq_refl).
    cbv zeta.
    change (body_of_request request (reserved s0)) with body.
    change (len (_buffer (reserved s0))) with 40.
    destruct (Z.geb_spec (40 + len body + MESSAGE_SIZE_OVERHEAD) CONTAINER_MAX_SIZE);
      [lia |].
    rewrite stage_tail_run.
    change (next_id (reserved s0)) with id0.
    change (next_seq true (reserved s0)) with 1.
    rewrite pack_qii_fits; [reflexivity | exact Hid | unfold in_i; lia | exact Hlen]. }
  set (s1 := serialized body true (reserved s0)) in *.
  exists s1, (set_buffer [] (set_msg_count 0 s1)).
  split; [exact Hpush |].
  split; [pose proof (next_id_above s0) as Hn; change (_last_msg_id s0) with 0 in Hn;
          exact Hn |].
  split; [| repeat split].
  rewrite (finalize_plain_single s1); [| reflexivity |].
  - f_equal.
  - split; [exact Hsalt | split; [exact Hcid |]].
    intro Hne. exfalso. apply Hne. reflexivity.
Qed.

(** *** Service messages *)

(** X20.  [msgs_ack], [msgs_state_req], [msgs_state_info], [msgs_all_info],
    [msg_resend_req], [destroy_session_ok], [destroy_session_none] and
    [http_wait] are parsed and dropped: the dispatch returns when the parser
    does and raises the parser's error otherwise, and the note for
    acknowledgement apart the session is left as it was; nothing reaches
    [rpc_results] or [updates]. *)
Theorem service_messages_are_dropped (depth : nat) (m : Message) (b : bytes)
    (s : Encrypted) (name : TLName) :
  body m = PyBytes b ->
  4 <= len b ->
  parsed_and_dropped (handler_for (le_uint (firstn 4 b))) = Some name ->
  _process_message (S depth) m s
  = (if from_bytes_ok name b then Return tt else Raise Foreign, ack_noted m s).
Proof.
  intros Hb Hl Hp. rewrite (process_message_step depth m b s Hb Hl).
  destruct (handler_for (le_uint (firstn 4 b))); simpl in Hp;
    try discriminate; injection Hp as <-;
    cbn [run_handler]; unfold_handlers; unfold parse_only; rewrite Hb;
    run_bind ltac:(reflexivity); destruct (from_bytes_ok _ b); reflexivity.
Qed.

(** X21.  A [pong] is delivered as the answer to the message id it names,
    with the raw body of the [pong]; when the parser raises, so does the
    dispatch.  The updates queue is not touched. *)
Theorem pong_answers_its_ping (depth : nat) (m : Message) (b : bytes)
    (s : Encrypted) :
  body m = PyBytes b ->
  4 <= len b ->
  handler_for (le_uint (firstn 4 b)) = H_pong ->
  _process_message (S depth) m s
  = match Pong_from_bytes b with
    | Some pong =>
        (Return tt,
         set_rpc_results (_rpc_results s ++ [(pong_msg_id pong, ReplyBody b)])
           (ack_noted m s))
    | None => (Raise Foreign, ack_noted m s)
    end.
Proof.
  intros Hb Hl Hh. rewrite (process_message_step depth m b s Hb Hl), Hh.
  cbn [run_handler]. unfold _handle_pong. rewrite Hb.
  run_bind ltac:(reflexivity).
  destruct (Pong_from_bytes b) as [pong |].
  - run_bind ltac:(reflexivity).
    unfold rpc_results_append, modify, ack_noted.
    destruct (message_requires_ack m); reflexivity.
  - reflexivity.
Qed.

(** X22.  [new_session_created] replaces all the salts by the single salt
    of the new session, valid for all times, which is then the salt of the
    next frame.  Unlike for [bad_server_salt], no request is staged and the
    caller is told nothing; the start time of the salts is kept. *)
Theorem new_session_resets_salts (depth : nat) (m : Message) (b : bytes)
    (s : Encrypted) (new_session : NewSessionCreated) :
  body m = PyBytes b ->
  4 <= len b ->
  handler_for (le_uint (firstn 4 b)) = H_new_session_created ->
  NewSessionCreated_from_bytes b = Some new_session ->
  let s' := snd (_process_message (S depth) m s) in
  fst (_process_message (S depth) m s) = Return tt /\
  _salts s' = [mkFutureSalt 0 0x7FFFFFFF (server_salt new_session)] /\
  current_salt s' = server_salt new_session /\
  _start_salt_time s' = _start_salt_time s /\
  _buffer s' = _buffer s /\
  _msg_count s' = _msg_count s /\
  _rpc_results s' = _rpc_results s /\
  _updates s' = _updates s.
Proof.
  intros Hb Hl Hh Hp s'. unfold s'.
  rewrite (process_message_step depth m b s Hb Hl), Hh.
  cbn [run_handler]. unfold _handle_new_session_created. rewrite Hb.
  run_bind ltac:(reflexivity). rewrite Hp.
  run_bind ltac:(reflexivity).
  run_bind ltac:(reflexivity).
  unfold modify, ack_noted. cbn [fst snd].
  destruct (message_requires_ack m); repeat split.
Qed.

(** X23.  A [msg_detailed_info] or [msg_new_detailed_info] queues nothing
    for the caller: the id of the answer it announces is noted for
    acknowledgement, after the id of the message itself, and the next
    [push] that returns sends both in one [msgs_ack] message. *)
Theorem detailed_info_answer_is_acknowledged (depth : nat) (m : Message)
    (b request : bytes) (s s2 : Encrypted) (d : DetailedInfo)
    (r : option MsgId) :
  body m = PyBytes b ->
  4 <= len b ->
  handler_for (le_uint (firstn 4 b)) = H_detailed_info ->
  AbcMsgDetailedInfo_from_bytes b = Some d ->
  let s1 := snd (_process_message (S depth) m s) in
  push request s1 = (Return r, s2) ->
  fst (_process_message (S depth) m s) = Return tt /\
  _pending_ack s1 = _pending_ack (ack_noted m s) ++ [answer_of d] /\
  _rpc_results s1 = _rpc_results s /\
  _updates s1 = _updates s /\
  _pending_ack s2 = [] /\
  exists id rest,
    _buffer s2
    = _buffer (reserved s1)
      ++ frame id (_sequence s)
           (MsgsAck_to_bytes (_pending_ack (ack_noted m s) ++ [answer_of d]))
      ++ rest.
Proof.
  intros Hb Hl Hh Hp s1.
  assert (E : _process_message (S depth) m s
              = (Return tt,
                 set_pending_ack (_pending_ack (ack_noted m s) ++ [answer_of d])
                   (ack_noted m s))).
  { rewrite (process_message_step depth m b s Hb Hl), Hh.
    cbn [run_handler]. unfold _handle_detailed_info. rewrite Hb.
    run_bind ltac:(reflexivity). rewrite Hp.
    run_bind ltac:(reflexivity).
    destruct d; reflexivity. }
  unfold s1. rewrite E. cbn [fst snd]. clear s1.
  set (s1 := set_pending_ack _ _).
  intro Hpush.
  assert (Hs : _sequence s1 = _sequence s /\ _rpc_results s1 = _rpc_results s /\
               _updates s1 = _updates s).
  { unfold s1, ack_noted. destruct (message_requires_ack m); repeat split. }
  destruct Hs as (Hseq & Hr & Hu).
  assert (Hnil : _pending_ack s2 = []).
  { pose proof Hpush as Hp2. apply push_return_inv in Hp2.
    destruct Hp2 as (t1 & t2 & H1 & H2 & H3).
    rewrite (push_acks_after request s1 t1 t2 r H1 H2 s2 H3).
    exact (flush_acks_clears _ _ H1). }
  pose proof (push_acks_frame request s1 s2 r Hpush) as Hframe.
  split; [reflexivity |]. split; [reflexivity |].
  split; [exact Hr |]. split; [exact Hu |]. split; [exact Hnil |].
  destruct Hframe as (id & rest & _ & Hbuf).
  - change (_pending_ack s1) with (_pending_ack (ack_noted m s) ++ [answer_of d]).
    intro Hn. apply app_eq_nil in Hn. destruct Hn as [_ Hn]. discriminate.
  - exists id, rest. rewrite Hbuf, Hseq. reflexivity.
Qed.

(** *** [_handle_container], were it called *)

Lemma for_each_updates depth msgs bodies :
  Forall2 inner_update msgs bodies ->
  forall s,
    let s' := snd (for_each (_process_message (S depth)) msgs s) in
    fst (for_each (_process_message (S depth)) msgs s) = Return tt /\
    _updates s' = _updates s ++ bodies /\
    _pending_ack s'
    = _pending_ack s ++ map msg_id (filter message_requires_ack msgs) /\
    _rpc_results s' = _rpc_results s.
Proof.
  induction 1 as [| inner ib msgs bodies (Hb & Hl & Hn) _ IH]; intro s.
  - cbn. rewrite !app_nil_r. repeat split.
  - cbn [for_each]. cbv zeta.
    erewrite bind_return
      by (apply default_dispatch;
          [exact Hb | exact Hl | apply dict_get_absent; exact Hn]).
    cbv beta.
    destruct (IH (set_updates (_updates (ack_noted inner s) ++ [ib])
                    (ack_noted inner s))) as (Hr & Hu & Ha & Hq).
    split; [exact Hr |].
    split; [rewrite Hu; unfold ack_noted;
            destruct (message_requires_ack inner); cbn [_updates set_updates
              set_pending_ack]; rewrite <- app_assoc; reflexivity |].
    split; [| rewrite Hq; unfold ack_noted;
              destruct (message_requires_ack inner); reflexivity].
    rewrite Ha. cbn [filter]. unfold ack_noted.
    destruct (message_requires_ack inner); cbn [_pending_ack set_updates
      set_pending_ack map]; [rewrite <- app_assoc |]; reflexivity.
Qed.

(** X24.  [_handle_container] hands the messages of the container to the
    dispatcher one after the other: when each of them is an update, their
    bodies are appended to [updates] in the order of the container, the ids
    of those that require it are noted for acknowledgement in that order,
    and [rpc_results] is left alone. *)
Theorem container_handler_in_order (depth : nat) (m : Message) (b : bytes)
    (s : Encrypted) (msgs : list Message) (bodies : list bytes) :
  body m = PyBytes b ->
  MsgContainer_from_bytes b = Some msgs ->
  Forall2 inner_update msgs bodies ->
  let s' := snd (_handle_container (_process_message (S depth)) m s) in
  fst (_handle_container (_process_message (S depth)) m s) = Return tt /\
  _updates s' = _updates s ++ bodies /\
  _pending_ack s'
  = _pending_ack s ++ map msg_id (filter message_requires_ack msgs) /\
  _rpc_results s' = _rpc_results s.
Proof.
  intros Hb Hc Hall. unfold _handle_container. rewrite Hb.
  run_bind ltac:(reflexivity). rewrite Hc.
  run_bind ltac:(reflexivity).
  exact (for_each_updates depth msgs bodies Hall s).
Qed.

(** *** [_handle_rpc_result] on an [RpcResult] *)

(** X25.  The answers to [rpc_drop_answer] leave no trace: for a result
    that is an [rpc_answer_unknown], [rpc_answer_dropped_running] or
    [rpc_answer_dropped], [_handle_rpc_result] returns and the session,
    [rpc_results] included, is exactly as before. *)
Theorem dropped_answers_leave_no_result (m : Message) (req : Z)
    (result : bytes) (s : Encrypted) :
  body m = PyRpcResult req result ->
  4 <= len result ->
  le_uint (firstn 4 result) <> constructor_id GeneratedRpcError_ ->
  In (le_uint (firstn 4 result)) (map constructor_id DROP_ANSWER_NAMES) ->
  _handle_rpc_result m s = (Return tt, s).
Proof.
  intros Hb Hl Hne Hin. unfold _handle_rpc_result. rewrite Hb.
  run_bind ltac:(unfold lift; rewrite (unpack_from_I_little result Hl); reflexivity).
  destruct (Z.eqb_spec (le_uint (firstn 4 result))
              (constructor_id GeneratedRpcError_)) as [E | _]; [contradiction |].
  cbn [map DROP_ANSWER_NAMES In] in Hin.
  destruct Hin as [E | [E | [E | []]]]; rewrite <- E, Z.eqb_refl;
    repeat match goal with
           | |- context [if ?c =? ?d then _ else _] => destruct (c =? d)
           end; reflexivity.
Qed.

(** X26.  A result that is none of the constructors [_handle_rpc_result]
    tells apart is always delivered in [rpc_results] under the id of its
    request; it is delivered a second time, in [updates], exactly when its
    constructor id, read in the byte order of the host, is one of the
    update constructors. *)
Theorem plain_result_delivery (m : Message) (req : Z) (result : bytes)
    (s : Encrypted) :
  body m = PyRpcResult req result ->
  4 <= len result ->
  in_ids (le_uint (firstn 4 result))
    (map constructor_id (GzipPacked_ :: RESULT_NAMES)) = false ->
  _handle_rpc_result m s
  = (Return tt,
     set_rpc_results (_rpc_results s ++ [(req, ReplyBody result)])
       (if in_ids (native_uint result) UPDATE_IDS
        then set_updates (_updates s ++ [result]) s
        else s)).
Proof.
  intros Hb Hl Hin. rewrite (handle_rpc_result_plain m req result s Hb Hl Hin).
  unfold _store_own_updates, native_uint, unpack_from_I.
  apply Z.ltb_ge in Hl. rewrite Hl.
  unfold bind, lift, rpc_results_append, modify, ret.
  destruct sys_byteorder;
    match goal with
    | |- context [in_ids ?c UPDATE_IDS] => destruct (in_ids c UPDATE_IDS)
    end; reflexivity.
Qed.

End Theory.

(** * Runs on the sample instance *)

#[local] Existing Instance Sample.imports.

Lemma seq_no_parity_witness :
  Z.even (_sequence Sample.session) = true /\
  Z.even (_sequence (exec (CPush (le_bytes 8 1)) Sample.session)) = true.
Proof.
  split; [reflexivity |].
  apply (seq_no_parity Sample.session (CPush (le_bytes 8 1))). reflexivity.
Defined.

(** C2 as stated fails: a [bad_msg_notification] with error code 33 lowers
    the counter of a fresh session from 0 to -16. *)
Lemma sequence_counter_decreases :
  let s := Sample.session in
  let payload := Sample.inbound 0x6500000000000001 0 (Sample.bad_msg_body 33) in
  fst (deserialize payload s)
  = Return (mkDeserialization [(4, BadMsgError 33)] []) /\
  _sequence s = 0 /\
  _sequence (exec (CDeserialize payload) s) = -16 /\
  ~ (_sequence s <= _sequence (exec (CDeserialize payload) s)).
Proof. vm_compute. repeat split; try reflexivity. intro H. apply H. reflexivity. Qed.

Lemma deserialize_drains_witness :
  let s := Sample.session in
  let payload := Sample.inbound 0x6500000000000001 0 (Sample.bad_msg_body 33) in
  _rpc_results (snd (deserialize payload s)) = [] /\
  _updates (snd (deserialize payload s)) = [].
Proof.
  intros s payload.
  destruct (deserialize_drains payload s (snd (deserialize payload s))
              (mkDeserialization [(4, BadMsgError 33)] []))
    as (_ & H1 & H2 & _).
  - vm_compute. reflexivity.
  - split; assumption.
Defined.

(** C5.  A dispatched body whose leading constructor is an update
    constructor, none of which has a handler of its own, is appended to the
    updates queue.  A buffer that is dispatched to [_handle_rpc_result]
    fails the assertion of that handler: nothing is queued.  So it is for
    an [rpc_result] whose result is [updates_too_long]: neither queue
    receives the body, while the lines after the assertion, run on the
    parsed [RpcResult], append to both, and a bare [updates_too_long] is
    handed out as an update. *)
Theorem rpc_result_not_queued :
  (forall (I : Imports) (depth : nat) (m : Message) (b : bytes) (s : Encrypted),
      body m = PyBytes b ->
      4 <= len b ->
      in_ids (le_uint (firstn 4 b)) UPDATE_IDS = true ->
      (forall c, in_ids c UPDATE_IDS = true -> dict_get c _handlers = None) ->
      _process_message (S depth) m s
      = (Return tt, set_updates (_updates (ack_noted m s) ++ [b]) (ack_noted m s))) /\
  (forall (I : Imports) (depth : nat) (m : Message) (b : bytes) (s : Encrypted),
      body m = PyBytes b ->
      4 <= len b ->
      handler_for (le_uint (firstn 4 b)) = H_rpc_result ->
      _process_message (S depth) m s = (Raise AssertionError, ack_noted m s) /\
      _rpc_results (ack_noted m s) = _rpc_results s /\
      _updates (ack_noted m s) = _updates s) /\
  (let s := Sample.session in
   let result := Sample.updates_too_long in
   let payload :=
     Sample.inbound 0x6500000000000001 1 (Sample.rpc_result_body result) in
   fst (deserialize payload s) = Raise AssertionError /\
   _rpc_results (snd (deserialize payload s)) = [] /\
   _updates (snd (deserialize payload s)) = [] /\
   (let parsed := mkMessage 0x6500000000000001 1 16 (PyRpcResult 4 result) in
    fst (_handle_rpc_result parsed s) = Return tt /\
    _rpc_results (snd (_handle_rpc_result parsed s)) = [(4, ReplyBody result)] /\
    _updates (snd (_handle_rpc_result parsed s)) = [result]) /\
   fst (deserialize Sample.update_frame s)
   = Return (mkDeserialization [] [result])).
Proof.
  split; [| split].
  - intros I depth m b s Hb Hl Hin Hnone.
    apply (@update_body_dispatched I); assumption.
  - intros I depth m b s Hb Hl Hh.
    split; [apply (@rpc_result_dispatch_raises I depth m b s); assumption |].
    unfold ack_noted. destruct (message_requires_ack m); split; reflexivity.
  - vm_compute. repeat split.
Qed.

(** Past the assertion the handler does tell a wrapped
    [rpc_answer_dropped] from a bare one: the wrapped one is queued as a
    reply, the bare one is not.  No dispatched message reaches these
    lines. *)
Lemma gzip_wrapped_answer_differs :
  let s := Sample.session in
  let B := Sample.rpc_answer_dropped in
  let wrapped := mkMessage 0x6500000000000001 1 32
                   (PyRpcResult 4 (Sample.gzip_packed B)) in
  let direct := mkMessage 0x6500000000000001 1 28 (PyRpcResult 4 B) in
  GzipPacked_from_bytes (Sample.gzip_packed B) = Some B /\
  gzip_decompress B = Some B /\
  _rpc_results (snd (_handle_rpc_result wrapped s)) = [(4, ReplyBody B)] /\
  _rpc_results (snd (_handle_rpc_result direct s)) = [] /\
  _handle_rpc_result wrapped s <> _handle_rpc_result direct s.
Proof. vm_compute. repeat split. discriminate. Qed.

(** The same two answers as inbound frames: [deserialize] ends at the
    assertion for both and leaves the same session. *)
Lemma wrapped_and_direct_frames_agree :
  let s := Sample.session in
  let B := Sample.rpc_answer_dropped in
  let wrapped := Sample.inbound 0x6500000000000001 1
                   (Sample.rpc_result_body (Sample.gzip_packed B)) in
  let direct := Sample.inbound 0x6500000000000001 1 (Sample.rpc_result_body B) in
  deserialize wrapped s = deserialize direct s /\
  fst (deserialize wrapped s) = Raise AssertionError /\
  _rpc_results (snd (deserialize wrapped s)) = [] /\
  _updates (snd (deserialize wrapped s)) = [].
Proof. vm_compute. repeat split. Qed.


Lemma sample_session_staged : staged Sample.session [].
Proof.
  split; [reflexivity | split; [constructor | left; split; reflexivity]].
Qed.

Lemma sample_session_quiet : quiet Sample.session.
Proof. split; reflexivity. Qed.

(** A request so long that the reserved header leaves no room for it. *)
Lemma oversized_push_reserves (request : bytes) :
  len request = 1044400 ->
  push request Sample.session = (Return None, reserved Sample.session).
Proof.
  intro Hlen. rewrite (push_quiet request _ sample_session_quiet).
  unfold stage_request.
  rewrite (bind_return get _ _ _ _ eq_refl).
  change (_msg_count (reserved Sample.session) =? CONTAINER_MAX_LENGTH) with false.
  cbv iota.
  assert (H1 : (len request + MESSAGE_SIZE_OVERHEAD <=? CONTAINER_MAX_SIZE) = true)
    by (rewrite Hlen; reflexivity).
  assert (H2 : (len request mod 4 =? 0) = true) by (rewrite Hlen; reflexivity).
  rewrite H1, H2.
  rewrite (bind_return (assert true) _ _ tt _ eq_refl).
  rewrite (bind_return (assert true) _ _ tt _ eq_refl).
  cbv zeta.
  change (body_of_request request (reserved Sample.session)) with request.
  change (len (_buffer (reserved Sample.session))) with 40.
  rewrite Hlen. reflexivity.
Qed.

(** C10.  When [push] returns [None]: a buffer that was empty now starts
    with the reserved 40 bytes; acknowledgements that were pending have been
    serialized as one message, counted, and cleared; and the salts are as
    before or without their last entry, in which case, one salt remaining,
    a [get_future_salts] message closes the buffer.  Each of the three
    happens on the sample instance. *)
Theorem push_none_is_not_a_noop :
  (forall (I : Imports) (request : bytes) (s s' : Encrypted),
      push request s = (Return None, s') ->
      (_buffer s = [] ->
       exists rest,
         _buffer s' = zeros (HEADER_LEN + CONTAINER_HEADER_LEN) ++ rest) /\
      (_pending_ack s <> [] ->
       _pending_ack s' = [] /\
       _msg_count s < _msg_count s' /\
       exists id seq_no rest,
         _buffer s'
         = _buffer (reserved s)
           ++ frame id seq_no (MsgsAck_to_bytes (_pending_ack s)) ++ rest) /\
      (_salts s' = _salts s \/
       (_salts s' = removelast (_salts s) /\
        (len (_salts s') = 1 ->
         _msg_count s < _msg_count s' /\
         exists pre id seq_no,
           _buffer s'
           = pre ++ frame id seq_no (get_future_salts NUM_FUTURE_SALTS))))) /\
  (exists request,
      fst (push request Sample.session) = Return None /\
      _buffer Sample.session = [] /\
      _buffer (snd (push request Sample.session)) = zeros 40) /\
  (let s := exec (CDeserialize Sample.update_frame) (Sample.pushed 99) in
   let request := le_bytes 8 1 in
   fst (push request s) = Return None /\
   _pending_ack s = [0x6500000000000001] /\
   _pending_ack (snd (push request s)) = [] /\
   _msg_count s = 99 /\
   _msg_count (snd (push request s)) = 100 /\
   _buffer (snd (push request s)) <> _buffer s) /\
  (let s := exec (CDeserialize Sample.future_salts_frame) (Sample.pushed 99) in
   let request := le_bytes 8 1 in
   fst (push request s) = Return None /\
   map salt (_salts s) = [0x2222; 0x1111] /\
   map salt (_salts (snd (push request s))) = [0x2222] /\
   _msg_count s = 99 /\
   _msg_count (snd (push request s)) = 100 /\
   _buffer (snd (push request s)) <> _buffer s).
Proof.
  split; [| split; [| split]].
  - intros I request s s'. apply (@push_none_effects I).
  - exists (repeat x00 (Z.to_nat 1044400)).
    rewrite oversized_push_reserves
      by (unfold len; rewrite repeat_length, Z2Nat.id by lia; reflexivity).
    repeat split.
  - vm_compute. repeat split. discriminate.
  - vm_compute. repeat split. discriminate.
Qed.

(** C4.  A push that finds acknowledgements pending and returns an id
    raises the staged count by two at least, whatever the count was; so at
    a run the session can make (100 pushes, one inbound content-related
    message, one more push) the acknowledgement is serialized before the
    count is tested, the test is an equality, the push goes through at 101
    and [finalize] emits a container of 102 messages. *)
Theorem container_exceeds_max_length :
  (forall (I : Imports) (request : bytes) (s s' : Encrypted) (id : MsgId),
      _msg_count s = CONTAINER_MAX_LENGTH ->
      _pending_ack s <> [] ->
      push request s = (Return (Some id), s') ->
      CONTAINER_MAX_LENGTH + 2 <= _msg_count s') /\
  (let s100 := Sample.pushed 100 in
   let s101 := exec (CDeserialize Sample.update_frame) s100 in
   let pushed := push (le_bytes 8 1) s101 in
   let finalized := _finalize_plain (snd pushed) in
   CONTAINER_MAX_LENGTH = 100 /\
   _msg_count s100 = 100 /\
   fst (push (le_bytes 8 1) s100) = Return None /\
   _pending_ack s101 = [0x6500000000000001] /\
   (exists id, fst pushed = Return (Some id)) /\
   _msg_count (snd pushed) = 102 /\
   exists out,
     fst finalized = Return out /\
     le_uint (firstn 4 (skipn 32 out)) = constructor_id MsgContainer_ /\
     le_sint (firstn 4 (skipn 36 out)) = 102).
Proof.
  split.
  - intros I request s s' id Hc Ha Hp. rewrite <- Hc.
    apply (push_with_acks_counts request s id s' Ha Hp).
  - vm_compute. repeat split.
    + eexists. reflexivity.
    + eexists. repeat split.
Qed.

Lemma container_shape_witness :
  let requests := [le_bytes 8 1; le_bytes 8 2] in
  exists out s2,
    _finalize_plain (snd (push_all requests Sample.session)) = (Return out, s2) /\
    le_sint (firstn 4 (skipn 36 out)) = 2.
Proof.
  intro requests.
  destruct (container_shape Sample.session (snd (push_all requests Sample.session))
              requests
              [Some 7301444403200000000; Some 7301444407494967296])
    as (frames & out & s2 & Hst & Hall & Hlen & Hf & _ & Hshape).
  - exact sample_session_staged.
  - exact sample_session_quiet.
  - vm_compute. reflexivity.
  - unfold finalize_fits, in_q, in_i, in_I.
    repeat split; intros; vm_compute; try reflexivity; discriminate.
  - exists out, s2. split; [exact Hf |].
    destruct frames as [| f [| g rest]]; try discriminate Hlen.
    destruct Hshape as (i1 & i2 & _ & Hcount). exact Hcount.
Defined.

(** C3 as stated fails: with an acknowledgement pending, one push returns a
    [MsgId] and [finalize] emits a container of two messages. *)
Lemma one_push_yields_container :
  let s := exec (CDeserialize Sample.update_frame) Sample.session in
  let pushed := push (le_bytes 8 1) s in
  let finalized := _finalize_plain (snd pushed) in
  _msg_count s = 0 /\
  _buffer s = [] /\
  (exists id, fst pushed = Return (Some id)) /\
  exists out,
    fst finalized = Return out /\
    le_uint (firstn 4 (skipn 32 out)) = constructor_id MsgContainer_ /\
    le_sint (firstn 4 (skipn 36 out)) = 2.
Proof.
  vm_compute. repeat split.
  - eexists. reflexivity.
  - eexists. repeat split.
Qed.

Lemma bad_server_salt_witness :
  let m := mkMessage 0x6500000000000001 0 28 (PyBytes (Sample.bad_salt_body 0x1234)) in
  _salts (snd (_process_message 1 m Sample.session))
  = [mkFutureSalt 0 0x7FFFFFFF 0x1234].
Proof.
  intro m.
  destruct (bad_server_salt_replaces_salt 0 m (Sample.bad_salt_body 0x1234)
              Sample.session [] 4 1 48 0x1234) as (_ & H & _).
  - reflexivity.
  - vm_compute. discriminate.
  - reflexivity.
  - reflexivity.
  - exact sample_session_staged.
  - exact H.
Defined.

(** C7 as stated fails: with [CONTAINER_MAX_LENGTH] messages staged the
    [push] inside the handler returns [None], and no [get_future_salts]
    request is staged. *)
Lemma bad_server_salt_request_dropped :
  let s := Sample.pushed 100 in
  let payload := Sample.inbound 0x6500000000000001 0 (Sample.bad_salt_body 0x1234) in
  let s' := snd (deserialize payload s) in
  fst (deserialize payload s)
  = Return (mkDeserialization [(4, BadMsgError 48)] []) /\
  _salts s' = [mkFutureSalt 0 0x7FFFFFFF 0x1234] /\
  fst (push (get_future_salts NUM_FUTURE_SALTS) (salt_replaced 4 48 0x1234 s))
  = Return None /\
  _msg_count s = 100 /\
  _msg_count s' = 100 /\
  _buffer s' = _buffer s.
Proof. vm_compute. repeat split. Qed.

(** ** Runs of the properties of the other methods *)

Ltac in_range :=
  unfold in_q, in_i, in_I; vm_compute; split; [discriminate | reflexivity].

Lemma handler_routing_witness :
  handler_for (Sample.ids BadServerSalt_) = H_bad_notification.
Proof.
  destruct (handler_routing (Sample.ids BadServerSalt_)) as [H _].
  - reflexivity.
  - apply H. do 3 right. left. reflexivity.
Defined.

Lemma unknown_constructor_is_update_witness :
  let m := mkMessage 0x6500000000000001 1 4 (PyBytes Sample.updates_too_long) in
  fst (_process_message 1 m Sample.session) = Return tt /\
  _updates (snd (_process_message 1 m Sample.session)) = [Sample.updates_too_long] /\
  _pending_ack (snd (_process_message 1 m Sample.session)) = [0x6500000000000001].
Proof.
  intro m.
  destruct (unknown_constructor_is_update 0 m Sample.updates_too_long Sample.session)
    as (Hr & Hu & _ & Ha & _).
  - reflexivity.
  - vm_compute. discriminate.
  - apply in_ids_false. reflexivity.
  - split; [exact Hr | split; [exact Hu | exact Ha]].
Defined.

Lemma container_is_not_unpacked_witness :
  let m := Service.message 0 Service.container_body in
  _updates (snd (_process_message 1 m Sample.session)) = [Service.container_body] /\
  _rpc_results (snd (_process_message 1 m Sample.session)) = [].
Proof.
  intro m.
  destruct (container_is_not_unpacked 0 m Service.container_body Sample.session)
    as (E & Hq).
  - reflexivity.
  - vm_compute. discriminate.
  - reflexivity.
  - reflexivity.
  - split; [rewrite E; reflexivity | exact Hq].
Defined.

Lemma short_body_raises_witness :
  let m := mkMessage 0x6500000000000001 1 2 (PyBytes [Byte.x7e; Byte.xaf]) in
  fst (_process_message 1 m Sample.session) = Raise StructError /\
  _pending_ack (snd (_process_message 1 m Sample.session)) = [0x6500000000000001].
Proof.
  intro m.
  assert (Hl : len [Byte.x7e; Byte.xaf] < 4) by reflexivity.
  pose proof (short_body_raises 0 m [Byte.x7e; Byte.xaf] Sample.session eq_refl Hl)
    as E.
  rewrite E. split; reflexivity.
Defined.

Lemma future_salts_are_sorted_witness :
  let m := mkMessage 0x6500000000000005 0 56 (PyBytes Sample.future_salts_body) in
  exists s',
    _handle_future_salts m Sample.session = (Return tt, s') /\
    StronglySorted newer_first (_salts s') /\
    current_salt s' = 0x1111.
Proof.
  intro m.
  destruct (future_salts_are_sorted m Sample.future_salts_body Sample.session
              (mkFutureSalts 4 1700000000
                 [mkFutureSalt 1699990000 1700090000 0x1111;
                  mkFutureSalt 1699999000 1700099000 0x2222]))
    as (s' & E & _ & Hs & _).
  - reflexivity.
  - reflexivity.
  - exists s'. split; [exact E | split; [exact Hs |]].
    pose proof (f_equal snd E) as E'. cbn [snd] in E'. rewrite <- E'. reflexivity.
Defined.

Lemma bad_msg_notification_effect_witness :
  let m := mkMessage 0x6500000000000001 0 20 (PyBytes (Sample.bad_msg_body 16)) in
  exists s',
    _handle_bad_notification m Sample.session = (Return tt, s') /\
    _rpc_results s' = [(4, BadMsgError 16)] /\
    _time_offset s' = Z.shiftr 0x6500000000000001 32 - 1700000000.
Proof.
  intro m.
  destruct (bad_msg_notification_effect m (Sample.bad_msg_body 16) Sample.session
              4 1 16)
    as (s' & E & Hr & _ & Hc & _).
  - reflexivity.
  - reflexivity.
  - destruct Hc as [Ht _]. exists s'. split; [exact E | split; [exact Hr | exact Ht]].
Defined.

Lemma future_salt_is_fatal_witness :
  let b := le_bytes 4 (Sample.ids FutureSalt_) ++ le_bytes 4 0 ++ le_bytes 4 1
           ++ le_bytes 8 0x1111 in
  fst (_process_message 1 (Service.message 0 b) Sample.session)
  = Raise AssertionError.
Proof.
  intro b.
  assert (Hl : 4 <= len b) by (vm_compute; discriminate).
  assert (Hh : handler_for (le_uint (firstn 4 b)) = H_future_salt) by reflexivity.
  pose proof (future_salt_is_fatal 0 (Service.message 0 b) b Sample.session
                eq_refl Hl Hh) as E.
  rewrite E. reflexivity.
Defined.

Lemma gzip_packed_update_witness :
  let b := Sample.gzip_packed Sample.updates_too_long in
  exists s',
    _process_message 2 (Service.message 1 b) Sample.session = (Return tt, s') /\
    _updates s' = [Sample.updates_too_long] /\
    _pending_ack s' = [0x6500000000000001; 0x6500000000000001].
Proof.
  intro b.
  destruct (gzip_packed_update 0 (Service.message 1 b) b Sample.updates_too_long
              Sample.updates_too_long Sample.session)
    as (s' & E & Hu & _ & Ha).
  - reflexivity.
  - vm_compute. discriminate.
  - reflexivity.
  - reflexivity.
  - reflexivity.
  - vm_compute. discriminate.
  - reflexivity.
  - exists s'. split; [exact E | split; [exact Hu | exact Ha]].
Defined.

Lemma pushed_ids_increase_witness :
  StronglySorted Z.lt [7301444403200000000; 7301444407494967296].
Proof.
  destruct (pushed_ids_increase [le_bytes 8 1; le_bytes 8 2] Sample.session
              (snd (push_all [le_bytes 8 1; le_bytes 8 2] Sample.session))
              [Some 7301444403200000000; Some 7301444407494967296])
    as (H & _).
  - vm_compute. reflexivity.
  - exact H.
Defined.

Lemma sample_pushed_fits : finalize_fits (Sample.pushed 1).
Proof.
  split; [in_range | split; [in_range |]].
  intro H. exfalso. apply H. reflexivity.
Qed.

Lemma own_frame_passes_session_check_witness :
  exists out s',
    _finalize_plain (Sample.pushed 1) = (Return out, s') /\
    unpack_from_qq out
    = Return (current_salt (Sample.pushed 1), _client_id (Sample.pushed 1)).
Proof.
  destruct (own_frame_passes_session_check (Sample.pushed 1)
              [frame 7301444403200000000 1 (le_bytes 8 1)])
    as (out & s' & E & Hq & _).
  - split; [reflexivity | split].
    + constructor; [| constructor].
      exists 7301444403200000000, 1, (le_bytes 8 1). reflexivity.
    + right. reflexivity.
  - discriminate.
  - exact sample_pushed_fits.
  - exists out, s'. split; [exact E | exact Hq].
Defined.

Lemma push_refuses_witness :
  push [Byte.x01] Sample.session = (Raise AssertionError, reserved Sample.session).
Proof.
  destruct (push_refuses [Byte.x01] Sample.session sample_session_quiet)
    as [_ H].
  apply H.
  - vm_compute. discriminate.
  - right. vm_compute. discriminate.
Defined.

Lemma quiet_pushes_stay_within_limits_witness :
  let s1 := snd (push_all [le_bytes 8 1; le_bytes 8 2] Sample.session) in
  _msg_count s1 = 2 /\ len (_buffer s1) < CONTAINER_MAX_SIZE.
Proof.
  intro s1.
  destruct (quiet_pushes_stay_within_limits Sample.session s1
              [le_bytes 8 1; le_bytes 8 2]
              [Some 7301444403200000000; Some 7301444407494967296])
    as (_ & Hc & Hb & _).
  - vm_compute. discriminate.
  - reflexivity.
  - vm_compute. discriminate.
  - exact sample_session_staged.
  - exact sample_session_quiet.
  - vm_compute. reflexivity.
  - unfold finalize_fits, in_q, in_i, in_I.
    repeat split; intros; vm_compute; try reflexivity; discriminate.
  - split; [exact Hc | exact Hb].
Defined.

Lemma push_flushes_acks_witness :
  let s := snd (deserialize Sample.update_frame Sample.session) in
  _pending_ack s = [0x6500000000000001] /\
  _pending_ack (snd (push (le_bytes 8 1) s)) = [].
Proof.
  intro s.
  destruct (push_flushes_acks (le_bytes 8 1) s (snd (push (le_bytes 8 1) s))
              (Some 7301444407494967296))
    as (H & _).
  - vm_compute. reflexivity.
  - split; [reflexivity | exact H].
Defined.

Lemma staged_body_is_never_longer_witness :
  exists pre seq_no body,
    _buffer (snd (push (le_bytes 8 1) Sample.session))
    = pre ++ frame 7301444403200000000 seq_no body /\
    len body <= 8.
Proof.
  destruct (staged_body_is_never_longer (le_bytes 8 1) Sample.session
              (snd (push (le_bytes 8 1) Sample.session)) 7301444403200000000)
    as (pre & seq_no & body & Hb & Hl & _).
  - vm_compute. reflexivity.
  - exists pre, seq_no, body. split; [exact Hb | exact Hl].
Defined.

Lemma first_message_of_a_session_witness :
  exists s1 s2,
    push (le_bytes 8 1) Sample.session = (Return (Some 7301444403200000000), s1) /\
    _finalize_plain s1
    = (Return (le_bytes 8 0xDEADBEEF ++ le_bytes 8 0x1122334455667788
               ++ frame 7301444403200000000 1 (le_bytes 8 1)), s2) /\
    _sequence s2 = 2.
Proof.
  destruct (first_message_of_a_session [] (le_bytes 8 1) (Some 0) (Some 0xDEADBEEF)
              None 0x1122334455667788)
    as (s1 & s2 & Hp & _ & Hf & _ & _ & Hs & _).
  - vm_compute. discriminate.
  - vm_compute. discriminate.
  - reflexivity.
  - reflexivity.
  - in_range.
  - in_range.
  - in_range.
  - in_range.
  - exists s1, s2. split; [exact Hp | split; [exact Hf | exact Hs]].
Defined.

Lemma service_messages_are_dropped_witness :
  let m := Service.message 0 (Sample.msgs_ack_bytes [4]) in
  _process_message 1 m Sample.session = (Return tt, Sample.session).
Proof.
  intro m.
  assert (Hl : 4 <= len (Sample.msgs_ack_bytes [4])) by (vm_compute; discriminate).
  assert (Hp : parsed_and_dropped
                 (handler_for (le_uint (firstn 4 (Sample.msgs_ack_bytes [4]))))
               = Some MsgsAck_) by reflexivity.
  exact (service_messages_are_dropped 0 m (Sample.msgs_ack_bytes [4])
           Sample.session MsgsAck_ eq_refl Hl Hp).
Defined.

Lemma pong_answers_its_ping_witness :
  Service.dispatch (Service.message 0 Service.pong_body) Sample.session
  = (Return tt,
     set_rpc_results [(4, ReplyBody Service.pong_body)] Sample.session).
Proof.
  assert (Hl : 4 <= len Service.pong_body) by (vm_compute; discriminate).
  assert (Hh : @handler_for Service.imports (le_uint (firstn 4 Service.pong_body))
               = H_pong) by reflexivity.
  exact (@pong_answers_its_ping Service.imports 0
           (Service.message 0 Service.pong_body) Service.pong_body Sample.session
           eq_refl Hl Hh).
Defined.

Lemma new_session_resets_salts_witness :
  let s' := snd (Service.dispatch (Service.message 0 Service.new_session_body)
                   Sample.session) in
  _salts s' = [mkFutureSalt 0 0x7FFFFFFF 0x5555] /\ current_salt s' = 0x5555.
Proof.
  intro s'.
  destruct (@new_session_resets_salts Service.imports 0
              (Service.message 0 Service.new_session_body)
              Service.new_session_body Sample.session
              (mkNewSessionCreated 4 99 0x5555))
    as (_ & Hs & Hc & _).
  - reflexivity.
  - vm_compute. discriminate.
  - reflexivity.
  - reflexivity.
  - split; [exact Hs | exact Hc].
Defined.

Lemma detailed_info_answer_is_acknowledged_witness :
  let s1 := snd (Service.dispatch (Service.message 1 Service.detailed_info_body)
                   Sample.session) in
  _pending_ack s1 = [0x6500000000000001; 6] /\
  _pending_ack (snd (@push Service.imports (le_bytes 8 1) s1)) = [].
Proof.
  intro s1.
  destruct (@detailed_info_answer_is_acknowledged Service.imports 0
              (Service.message 1 Service.detailed_info_body)
              Service.detailed_info_body (le_bytes 8 1) Sample.session
              (snd (@push Service.imports (le_bytes 8 1) s1))
              (MsgNewDetailedInfo 6 100 0) (Some 7301444407494967296))
    as (_ & Ha & _ & _ & Hn & _).
  - reflexivity.
  - vm_compute. discriminate.
  - reflexivity.
  - reflexivity.
  - vm_compute. reflexivity.
  - split; [exact Ha | exact Hn].
Defined.

Lemma container_handler_in_order_witness :
  let s' := snd (Service.unpack (Service.message 0 Service.container_body)
                   Sample.session) in
  _updates s' = [Sample.updates_too_long; Service.update_short] /\
  _pending_ack s' = [0x6500000000000005].
Proof.
  intro s'.
  destruct (@container_handler_in_order Service.imports 0
              (Service.message 0 Service.container_body) Service.container_body
              Sample.session
              [mkMessage 0x6500000000000005 1 4 (PyBytes Sample.updates_too_long);
               mkMessage 0x6500000000000009 0 4 (PyBytes Service.update_short)]
              [Sample.updates_too_long; Service.update_short])
    as (_ & Hu & Ha & _).
  - reflexivity.
  - reflexivity.
  - constructor; [| constructor; [| constructor]];
      (split; [reflexivity
              | split; [vm_compute; discriminate
                       | apply (@in_ids_false); reflexivity]]).
  - split; [exact Hu | exact Ha].
Defined.

Lemma dropped_answers_leave_no_result_witness :
  let m := mkMessage 0x6500000000000001 1 20
             (PyRpcResult 4 Sample.rpc_answer_dropped) in
  _handle_rpc_result m Sample.session = (Return tt, Sample.session).
Proof.
  intro m.
  apply (dropped_answers_leave_no_result m 4 Sample.rpc_answer_dropped
           Sample.session).
  - reflexivity.
  - vm_compute. discriminate.
  - vm_compute. discriminate.
  - do 2 right. left. reflexivity.
Defined.

Lemma plain_result_delivery_witness :
  let m := mkMessage 0x6500000000000001 1 4
             (PyRpcResult 4 Sample.updates_too_long) in
  _handle_rpc_result m Sample.session
  = (Return tt,
     set_rpc_results [(4, ReplyBody Sample.updates_too_long)]
       (set_updates [Sample.updates_too_long] Sample.session)).
Proof.
  intro m.
  assert (Hl : 4 <= len Sample.updates_too_long) by (vm_compute; discriminate).
  exact (plain_result_delivery m 4 Sample.updates_too_long Sample.session
           eq_refl Hl eq_refl).
Defined.
